(** * Point-of-sale back end: sale, purchase, RMA, conversion and login handlers

    A shallow embedding of the Express route handlers of
    [server/routes/sales.ts], [server/routes/purchases.ts],
    [server/routes/quotations.ts], [server/routes/rma.ts],
    [server/routes/pc-builder.ts], [server/routes/auth.ts] and of the passport
    strategy of [server/index.ts], over a relational store.

    Modelling conventions.
    - A table is the list of its rows, in insertion order.  [INSERT] appends,
      [UPDATE ... WHERE] rewrites every matching row in place, [SELECT ...
      WHERE] filters, [LIMIT 1] keeps the first match.  A [SELECT] without
      [ORDER BY] may return its rows in any order; the statements below that
      speak of such a result speak of it up to a permutation.
    - A handler is a computation in the state monad [M] over the store [DB];
      [await req.db....] is one monadic step.
    - The numbers of a request body on which the sale, purchase, quotation and
      supplier-payment handlers compute are IEEE 754 doubles ([JS.Num], the
      kernel's [float]) with the double's own arithmetic.  [x.toString()] is
      the shortest decimal that reads back as [x] ([JS.toString_value]).  A
      [decimal(12,2)] column holds the value it is given rounded to two
      decimals, half away from zero ([Column.decimal_12_2]); it is a rational
      [Q].  [Number(...)] of such a column is the nearest double
      ([Column.to_Number]).  [integer] columns and JSON integers are [Z].
      The amounts the two convert-to-sale handlers and the PC-build handlers
      read from [decimal(12,2)] columns are shown as the rationals they
      denote.
    - [POST /api/sales] and [POST /api/quotations] read the clock several
      times; their argument [now] is a [Clock], [now k] being the [k]-th
      reading of the request.  The other handlers take the reading of their
      request as [now : Time].  The primary key the database draws for an
      inserted parent row is the argument [uuid].
    - An optional JSON member is an [option]; [x || null] and [if (x)] follow
      JavaScript truthiness.  A string is the sequence of its characters.
    - A statement the database refuses throws, and the handler's [catch]
      answers 500.  This is represented where a definition says so: the
      syntax of a [uuid] taken from the request path, the length of a
      [varchar(50)] status, the range of an [integer] column, the references
      of a new RMA.  Elsewhere every statement is taken to complete, and the
      statements about those handlers are about requests the database
      accepted. *)

From Stdlib Require Import List String Ascii ZArith QArith Qround Qpower Bool Lia Lqa.
From Stdlib Require Import DecimalString Permutation.
From Stdlib Require Import Floats.
From Stdlib Require Uint63.
Import ListNotations.

Local Open Scope string_scope.
Local Open Scope list_scope.

(** A decimal literal stands for the nearest double, as in JSON. *)
Set Warnings "-inexact-float".

(** ** Scalars *)

Definition Id := string.
Definition Time := Z.
Bind Scope Z_scope with Time.

(** The clock of one request: [now k] is the reading the handler gets the
    [k]-th time it evaluates [Date.now()] or [new Date()], counting from
    [0]. *)
Definition Clock := nat -> Time.

(** The elements of an array with their positions. *)
Definition indexed {A : Type} (l : list A) : list (nat * A) :=
  combine (seq 0 (List.length l)) l.

(** JavaScript truthiness of an optional string: [undefined], [null] and the
    empty string are falsy. *)
Definition truthy (s : option string) : bool :=
  match s with
  | Some EmptyString => false
  | Some _ => true
  | None => false
  end.

(** [x || null]. *)
Definition or_null (s : option string) : option string :=
  if truthy s then s else None.

(** [a || b] on optional strings with a string default. *)
Definition or_else (s : option string) (d : string) : string :=
  match s with
  | Some x => if truthy s then x else d
  | None => d
  end.

(** Destructuring default [{ x = 0 }] of a member shown as a rational. *)
Definition num_default (q : option Q) : Q :=
  match q with Some x => x | None => 0%Q end.

(** [`${n}`] for an integer. *)
Definition string_of_Z (z : Z) : string := NilZero.string_of_int (Z.to_int z).

Definition opt_eqb (a : option string) (b : string) : bool :=
  match a with Some x => String.eqb x b | None => false end.

(** ** JavaScript numbers *)

Module JS.

Definition Num := float.

(** The rational a finite number denotes ([0] for the others). *)
Definition value (x : Num) : Q :=
  match Prim2SF x with
  | S754_finite s m e =>
      let v := (inject_Z (Zpos m) * Qpower 2 e)%Q in
      if s then Qopp v else v
  | _ => 0%Q
  end.

Definition is_finite (x : Num) : bool :=
  match Prim2SF x with
  | S754_finite _ _ _ | S754_zero _ => true
  | _ => false
  end.

(** [Number(n)] of an integer: the nearest double. *)
Definition Number_of_Z (z : Z) : Num :=
  SF2Prim (binary_normalize prec emax z 0 false).

(** [Number.prototype.toString] writes the decimal with the fewest digits
    that reads back as the same double and, among those, the one nearest to
    it.  A decimal reads back as [x] when it lies between the midpoints to
    the neighbouring doubles, the midpoints included when the mantissa of [x]
    is even.  [pick] looks for such a decimal among the multiples of
    [10^n]. *)
Definition pick (closed : bool) (lo hi v : Q) (n : Z) : option Q :=
  let unit := Qpower 10 n in
  let kmin :=
    let k := Qceiling (lo / unit) in
    if closed then k
    else if Qeq_bool (inject_Z k * unit) lo then (k + 1)%Z else k in
  let kmax :=
    let k := Qfloor (hi / unit) in
    if closed then k
    else if Qeq_bool (inject_Z k * unit) hi then (k - 1)%Z else k in
  if (kmax <? kmin)%Z then None
  else
    let t := (v / unit)%Q in
    let f := Qfloor t in
    let c := Qceiling t in
    let near :=
      match Qcompare (t - inject_Z f) (inject_Z c - t) with
      | Lt => f
      | Gt => c
      | Eq => if Z.even f then f else c
      end in
    Some (inject_Z (Z.min kmax (Z.max kmin near)) * unit)%Q.

(** The first [n], counting down, at which [pick] finds a decimal. *)
Fixpoint shortest (fuel : nat) (closed : bool) (lo hi v : Q) (n : Z) : Q :=
  match fuel with
  | O => v
  | S fuel' =>
      match pick closed lo hi v n with
      | Some q => q
      | None => shortest fuel' closed lo hi v (n - 1)
      end
  end.

(** The number that the text [x.toString()] denotes, for a finite [x]
    (["-0"] is written ["0"]).  For [x = m * 2^e] the next double above is
    [2^e] away, the next below as well unless [m] is the least mantissa of
    its binade, where it is [2^e / 2] away.  The search starts at a power of
    ten above [x]: [x < 2^(e + digits m)] and [log10 2 < 0.30103]. *)
Definition toString_value (x : Num) : Q :=
  match Prim2SF x with
  | S754_finite s m e =>
      let v := (inject_Z (Zpos m) * Qpower 2 e)%Q in
      let gap := Qpower 2 e in
      let below :=
        if (Zpos m =? 2 ^ 52)%Z && (-1074 <? e)%Z then (gap / 4)%Q
        else (gap / 2)%Q in
      let lo := (v - below)%Q in
      let hi := (v + gap / 2)%Q in
      let n0 := ((e + Z.log2 (Zpos m) + 1) * 30103 / 100000 + 2)%Z in
      let q := shortest 60 (Z.even (Zpos m)) lo hi v n0 in
      if s then Qopp q else q
  | _ => 0%Q
  end.

(** Truthiness of an optional number: [undefined], [0], [-0] and [NaN] are
    falsy. *)
Definition truthy (x : option Num) : bool :=
  match x with
  | Some v => negb (is_nan v || (v =? 0)%float)
  | None => false
  end.

(** Destructuring default [{ x = 0 }]. *)
Definition or_zero (x : option Num) : Num :=
  match x with Some v => v | None => 0%float end.

End JS.

Bind Scope float_scope with JS.Num.

(** [Math.floor], as the integer it returns for a finite number. *)
Definition Math_floor (x : JS.Num) : Z := Qfloor (JS.value x).

(** ** Column types of [shared/schema.ts] *)

Module Column.

(** Rounding to a whole number, half away from zero. *)
Definition round_half_away (q : Q) : Z :=
  if Qle_bool 0 q then Qfloor (q + (1 # 2))
  else (- Qfloor (- q + (1 # 2)))%Z.

(** What a [decimal(12,2)] column holds after it is given the number [q]. *)
Definition decimal_12_2 (q : Q) : Q :=
  Qred (inject_Z (round_half_away (q * 100)) / 100).

(** What it holds after it is given the text [x.toString()]. *)
Definition of_Number (x : JS.Num) : Q := decimal_12_2 (JS.toString_value x).

(** [Number(row.column)] of a [decimal(12,2)] column: the column comes back
    as a decimal text of two decimals, and the nearest double to [n / 100]
    is the quotient of the doubles [n] and [100]. *)
Definition to_Number (q : Q) : JS.Num :=
  match Qfloor (q * 100) with
  | Z0 => 0%float
  | Zpos n => (of_uint63 (Uint63.of_Z (Zpos n)) / 100)%float
  | Zneg n => (- (of_uint63 (Uint63.of_Z (Zpos n)) / 100))%float
  end.

(** The range of an [integer] column. *)
Definition int4 (z : Z) : bool :=
  ((-2147483648 <=? z) && (z <=? 2147483647))%Z.

(** A [text] value holds no NUL character. *)
Fixpoint has_nul (s : string) : bool :=
  match s with
  | EmptyString => false
  | String c rest => Ascii.eqb c Ascii.zero || has_nul rest
  end.

Fixpoint all_spaces (s : string) : bool :=
  match s with
  | EmptyString => true
  | String c rest => Ascii.eqb c " " && all_spaces rest
  end.

(** What a [varchar(n)] column holds after it is given [s]: a longer string
    is refused unless the excess is spaces, which are cut off. *)
Definition varchar (n : nat) (s : string) : option string :=
  if has_nul s then None
  else if (String.length s <=? n)%nat then Some s
  else if all_spaces (substring n (String.length s - n) s)
       then Some (substring 0 n s)
       else None.

Definition text (s : string) : option string :=
  if has_nul s then None else Some s.

(** The input syntax of the [uuid] type: sixteen bytes of two hexadecimal
    digits in either case, a hyphen allowed after any group of four digits,
    the whole optionally in braces. *)
Definition is_hex (c : ascii) : bool :=
  let n := nat_of_ascii c in
  ((48 <=? n) && (n <=? 57) || (97 <=? n) && (n <=? 102)
   || (65 <=? n) && (n <=? 70))%nat.

Definition lower_hex (c : ascii) : ascii :=
  let n := nat_of_ascii c in
  if ((65 <=? n) && (n <=? 70))%nat then ascii_of_nat (n + 32) else c.

Fixpoint uuid_bytes (left i : nat) (src : string) : option (string * string) :=
  match left with
  | O => Some (EmptyString, src)
  | S left' =>
      match src with
      | String a (String b rest) =>
          if is_hex a && is_hex b then
            let rest' :=
              match rest with
              | String "-" r => if Nat.odd i && (i <? 15)%nat then r else rest
              | _ => rest
              end in
            match uuid_bytes left' (S i) rest' with
            | Some (hex, tail) =>
                Some (String (lower_hex a) (String (lower_hex b) hex), tail)
            | None => None
            end
          else None
      | _ => None
      end
  end.

(** The value a text denotes as a [uuid], in the form the database prints
    it: lower case, grouped 8-4-4-4-12. *)
Definition uuid (s : string) : option Id :=
  let '(braces, src) :=
    match s with
    | String "{" r => (true, r)
    | _ => (false, s)
    end in
  match uuid_bytes 16 0 src with
  | Some (hex, tail) =>
      let closed :=
        if braces
        then match tail with String "}" r => Some r | _ => None end
        else Some tail in
      match closed with
      | Some EmptyString =>
          Some (substring 0 8 hex ++ "-" ++ substring 8 4 hex ++ "-"
                ++ substring 12 4 hex ++ "-" ++ substring 16 4 hex ++ "-"
                ++ substring 20 12 hex)%string
      | _ => None
      end
  | None => None
  end.

End Column.

(** ** Rows of [shared/schema.ts] *)

Record User := mkUser {
  user_id : Id;
  user_email : string;
  user_password : string;
  user_name : string;
  user_role : string;
  user_isActive : option bool
}.

Record Supplier := mkSupplier {
  supplier_id : Id;
  supplier_name : string;
  supplier_balance : Q;
  supplier_updatedAt : option Time
}.

Record Product := mkProduct {
  product_id : Id;
  product_name : string;
  product_costPrice : Q;
  product_sellingPrice : Q;
  product_stock : Z;
  product_updatedAt : option Time
}.

Record SerialNumber := mkSerialNumber {
  sn_id : Id;
  sn_productId : option Id;
  sn_serialNumber : string;
  sn_status : string;
  sn_saleId : option Id;
  sn_customerId : option Id
}.

Record Customer := mkCustomer {
  customer_id : Id;
  customer_name : string;
  customer_totalSpent : Q;
  customer_loyaltyPoints : Z;
  customer_lastPurchase : option Time;
  customer_updatedAt : option Time
}.

Record Sale := mkSale {
  sale_id : Id;
  sale_invoiceNumber : string;
  sale_customerId : option Id;
  sale_userId : Id;
  sale_subtotal : Q;
  sale_discount : Q;
  sale_tax : Q;
  sale_total : Q;
  sale_profit : Q;
  sale_status : string;
  sale_paymentStatus : string;
  sale_notes : option string;
  sale_createdAt : Time
}.

Record SaleItem := mkSaleItem {
  si_saleId : Id;
  si_productId : Id;
  si_variantId : option Id;
  si_serialNumber : option string;
  si_quantity : Z;
  si_unitPrice : Q;
  si_costPrice : Q;
  si_total : Q;
  si_profit : Q
}.

Record Payment := mkPayment {
  pay_saleId : Id;
  pay_method : string;
  pay_amount : Q;
  pay_reference : option string;
  pay_cashGiven : option Q;
  pay_change : option Q;
  pay_createdAt : Time
}.

Record Purchase := mkPurchase {
  purchase_id : Id;
  purchase_supplierId : option Id;
  purchase_userId : Id;
  purchase_invoiceNumber : option string;
  purchase_total : Q;
  purchase_paid : Q;
  purchase_balance : Q;
  purchase_status : string;
  purchase_documents : option string;
  purchase_createdAt : Time
}.

Record PurchaseItem := mkPurchaseItem {
  pi_purchaseId : Id;
  pi_productId : Id;
  pi_variantId : option Id;
  pi_quantity : Z;
  pi_unitCost : Q;
  pi_total : Q;
  pi_serialNumbers : option (list string)
}.

Record Quotation := mkQuotation {
  quotation_id : Id;
  quotation_quoteNumber : string;
  quotation_customerId : option Id;
  quotation_discount : Q;
  quotation_tax : Q;
  quotation_status : string;
  quotation_updatedAt : option Time
}.

Record QuoteItem := mkQuoteItem {
  qi_quoteId : Id;
  qi_productId : Id;
  qi_variantId : option Id;
  qi_quantity : Z;
  qi_unitPrice : Q
}.

Record Rma := mkRma {
  rma_id : Id;
  rma_serialNumber : option string;
  rma_status : string;
  rma_notes : option string;
  rma_updatedAt : option Time
}.

(** One entry of the [components] JSON array of a PC build. *)
Record Component := mkComponent {
  component_productId : Id;
  component_quantity : Z
}.

Record PcBuild := mkPcBuild {
  build_id : Id;
  build_name : string;
  build_customerId : option Id;
  build_components : option (list Component);
  build_status : string;
  build_updatedAt : option Time
}.

(** ** The store *)

Record DB := mkDB {
  users : list User;
  suppliers : list Supplier;
  products : list Product;
  serialNumbers : list SerialNumber;
  customers : list Customer;
  sales : list Sale;
  saleItems : list SaleItem;
  payments : list Payment;
  purchases : list Purchase;
  purchaseItems : list PurchaseItem;
  quotations : list Quotation;
  quoteItems : list QuoteItem;
  rmas : list Rma;
  pcBuilds : list PcBuild
}.

Definition on_suppliers (f : list Supplier -> list Supplier) (d : DB) : DB :=
  let 'mkDB u su p sn c s si pa pu pi q qi r b := d in
  mkDB u (f su) p sn c s si pa pu pi q qi r b.
Definition on_products (f : list Product -> list Product) (d : DB) : DB :=
  let 'mkDB u su p sn c s si pa pu pi q qi r b := d in
  mkDB u su (f p) sn c s si pa pu pi q qi r b.
Definition on_serialNumbers (f : list SerialNumber -> list SerialNumber) (d : DB) : DB :=
  let 'mkDB u su p sn c s si pa pu pi q qi r b := d in
  mkDB u su p (f sn) c s si pa pu pi q qi r b.
Definition on_customers (f : list Customer -> list Customer) (d : DB) : DB :=
  let 'mkDB u su p sn c s si pa pu pi q qi r b := d in
  mkDB u su p sn (f c) s si pa pu pi q qi r b.
Definition on_sales (f : list Sale -> list Sale) (d : DB) : DB :=
  let 'mkDB u su p sn c s si pa pu pi q qi r b := d in
  mkDB u su p sn c (f s) si pa pu pi q qi r b.
Definition on_saleItems (f : list SaleItem -> list SaleItem) (d : DB) : DB :=
  let 'mkDB u su p sn c s si pa pu pi q qi r b := d in
  mkDB u su p sn c s (f si) pa pu pi q qi r b.
Definition on_payments (f : list Payment -> list Payment) (d : DB) : DB :=
  let 'mkDB u su p sn c s si pa pu pi q qi r b := d in
  mkDB u su p sn c s si (f pa) pu pi q qi r b.
Definition on_purchases (f : list Purchase -> list Purchase) (d : DB) : DB :=
  let 'mkDB u su p sn c s si pa pu pi q qi r b := d in
  mkDB u su p sn c s si pa (f pu) pi q qi r b.
Definition on_purchaseItems (f : list PurchaseItem -> list PurchaseItem) (d : DB) : DB :=
  let 'mkDB u su p sn c s si pa pu pi q qi r b := d in
  mkDB u su p sn c s si pa pu (f pi) q qi r b.
Definition on_quotations (f : list Quotation -> list Quotation) (d : DB) : DB :=
  let 'mkDB u su p sn c s si pa pu pi q qi r b := d in
  mkDB u su p sn c s si pa pu pi (f q) qi r b.
Definition on_rmas (f : list Rma -> list Rma) (d : DB) : DB :=
  let 'mkDB u su p sn c s si pa pu pi q qi r b := d in
  mkDB u su p sn c s si pa pu pi q qi (f r) b.
Definition on_pcBuilds (f : list PcBuild -> list PcBuild) (d : DB) : DB :=
  let 'mkDB u su p sn c s si pa pu pi q qi r b := d in
  mkDB u su p sn c s si pa pu pi q qi r (f b).

(** ** Query-builder primitives *)

(** [UPDATE t SET f WHERE w]. *)
Definition update_where {R : Type} (w : R -> bool) (f : R -> R) (t : list R) : list R :=
  map (fun r => if w r then f r else r) t.

(** [SELECT * FROM t WHERE w]. *)
Definition select_where {R : Type} (w : R -> bool) (t : list R) : list R :=
  filter w t.

(** [.limit(1)]. *)
Definition limit1 {R : Type} (t : list R) : list R := firstn 1 t.

(** ** The handler monad: state passing over the store *)

Definition M (A : Type) : Type := DB -> A * DB.

Definition ret {A : Type} (a : A) : M A := fun d => (a, d).

Definition bind {A B : Type} (m : M A) (k : A -> M B) : M B :=
  fun d => let (a, d') := m d in k a d'.

Declare Scope handler_scope.
Delimit Scope handler_scope with handler.
Notation "x <- m ;; k" := (bind m (fun x => k))
  (at level 61, m at next level, right associativity) : handler_scope.
Notation "m ;; k" := (bind m (fun _ => k))
  (at level 61, right associativity) : handler_scope.
Local Open Scope handler_scope.

(** Read the store. *)
Definition query {A : Type} (f : DB -> A) : M A := fun d => (f d, d).

(** Write the store. *)
Definition exec (f : DB -> DB) : M unit := fun d => (tt, f d).

(** [for (const x of xs) { await body(x) }]. *)
Fixpoint forEach {A : Type} (xs : list A) (body : A -> M unit) : M unit :=
  match xs with
  | [] => ret tt
  | x :: rest => body x ;; forEach rest body
  end.

(** [if (c) { await body }]. *)
Definition when (c : bool) (body : M unit) : M unit :=
  if c then body else ret tt.

(** ** Requests and responses *)

Record SaleItemInput := mkSaleItemInput {
  in_productId : Id;
  in_quantity : Z;
  in_unitPrice : JS.Num;
  in_costPrice : JS.Num;
  in_variantId : option Id;
  in_serialNumber : option string
}.

Record PaymentInput := mkPaymentInput {
  in_method : string;
  in_amount : JS.Num;
  in_reference : option string;
  in_cashGiven : option JS.Num;
  in_change : option JS.Num
}.

(** Body of [POST /api/sales]. *)
Record SaleBody := mkSaleBody {
  body_customerId : option Id;
  body_items : option (list SaleItemInput);
  body_discount : option JS.Num;
  body_tax : option JS.Num;
  body_payments : option (list PaymentInput);
  body_notes : option string
}.

(** The object the two convert-to-sale handlers assemble. *)
Record SaleDataItem := mkSaleDataItem {
  sd_productId : Id;
  sd_variantId : option Id;
  sd_quantity : Z;
  sd_unitPrice : Q;
  sd_costPrice : Q
}.

Record SaleData := mkSaleData {
  sd_customerId : option Id;
  sd_items : list SaleDataItem;
  sd_discount : Q;
  sd_tax : Q;
  sd_payments : option (list PaymentInput);
  sd_notes : string
}.

(** [const { password, ...userWithoutPassword } = user]. *)
Record UserWithoutPassword := mkUserWithoutPassword {
  pub_id : Id;
  pub_email : string;
  pub_name : string;
  pub_role : string;
  pub_isActive : option bool
}.

Definition userWithoutPassword (u : User) : UserWithoutPassword :=
  mkUserWithoutPassword (user_id u) (user_email u) (user_name u) (user_role u)
    (user_isActive u).

Inductive Json :=
| JError (error : string)
| JSale (row : Sale)
| JPurchase (row : option Purchase)
| JRma (row : option Rma)
| JConverted (message : string) (saleData : SaleData)
| JUser (user : UserWithoutPassword).

(** [res.status(code).json(body)]. *)
Record Response := mkResponse {
  status : nat;
  json : Json
}.

(** ** Middleware of [routes/auth.ts] *)

(** [requireAuth]: [req.isAuthenticated()] holds when the session carries a
    user. *)
Definition requireAuth (user : option User) (next : User -> M Response) : M Response :=
  match user with
  | Some u => next u
  | None => ret (mkResponse 401 (JError "Authentication required"))
  end.

Definition includes (roles : list string) (r : string) : bool :=
  existsb (String.eqb r) roles.

(** [requireRole(roles)]. *)
Definition requireRole (roles : list string) (user : option User)
    (next : M Response) : M Response :=
  match user with
  | Some u =>
      if includes roles (user_role u) then next
      else ret (mkResponse 403 (JError "Insufficient permissions"))
  | None => ret (mkResponse 403 (JError "Insufficient permissions"))
  end.

(** ** [POST /api/sales] *)

Module Sales.

Local Open Scope float_scope.

(** [Number(item.unitPrice) * Number(item.quantity)]. *)
Definition line_total (item : SaleItemInput) : JS.Num :=
  in_unitPrice item * JS.Number_of_Z (in_quantity item).

(** [(Number(item.unitPrice) - Number(item.costPrice)) * Number(item.quantity)]. *)
Definition line_profit (item : SaleItemInput) : JS.Num :=
  (in_unitPrice item - in_costPrice item) * JS.Number_of_Z (in_quantity item).

(** The accumulation loop: [subtotal += ...] from [0]. *)
Definition calc_subtotal (items : list SaleItemInput) : JS.Num :=
  fold_left (fun acc item => acc + line_total item) items 0.

Definition calc_profit (items : list SaleItemInput) : JS.Num :=
  fold_left (fun acc item => acc + line_profit item) items 0.

(** [subtotal - Number(discount) + Number(tax)]. *)
Definition calc_total (items : list SaleItemInput) (discount tax : JS.Num) : JS.Num :=
  calc_subtotal items - discount + tax.

(** The row handed to [insert(sales).values(...)], as the columns hold it:
    the five amounts arrive as [x.toString()]. *)
Definition new_sale_row (now : Clock) (uuid : Id) (u : User) (b : SaleBody)
    (items : list SaleItemInput) : Sale :=
  let discount := JS.or_zero (body_discount b) in
  let tax := JS.or_zero (body_tax b) in
  {| sale_id := uuid;
     sale_invoiceNumber := "INV-" ++ string_of_Z (now 0%nat);
     sale_customerId := or_null (body_customerId b);
     sale_userId := user_id u;
     sale_subtotal := Column.of_Number (calc_subtotal items);
     sale_discount := Column.of_Number discount;
     sale_tax := Column.of_Number tax;
     sale_total := Column.of_Number (calc_total items discount tax);
     sale_profit := Column.of_Number (calc_profit items);
     sale_status := "completed";
     sale_paymentStatus := "paid";
     sale_notes := body_notes b;
     sale_createdAt := now 1%nat |}.

Definition new_sale_item (saleId : Id) (item : SaleItemInput) : SaleItem :=
  {| si_saleId := saleId;
     si_productId := in_productId item;
     si_variantId := or_null (in_variantId item);
     si_serialNumber := or_null (in_serialNumber item);
     si_quantity := in_quantity item;
     si_unitPrice := Column.of_Number (in_unitPrice item);
     si_costPrice := Column.of_Number (in_costPrice item);
     si_total := Column.of_Number (line_total item);
     si_profit := Column.of_Number (line_profit item) |}.

(** [set({ stock: sql`stock - quantity`, updatedAt: new Date() })]. *)
Definition take_stock (at_ : Time) (quantity : Z) (p : Product) : Product :=
  {| product_id := product_id p;
     product_name := product_name p;
     product_costPrice := product_costPrice p;
     product_sellingPrice := product_sellingPrice p;
     product_stock := (product_stock p - quantity)%Z;
     product_updatedAt := Some at_ |}.

(** [set({ status: 'sold', saleId, customerId: customerId || null })]. *)
Definition mark_sold (saleId : Id) (customerId : option Id) (s : SerialNumber)
    : SerialNumber :=
  {| sn_id := sn_id s;
     sn_productId := sn_productId s;
     sn_serialNumber := sn_serialNumber s;
     sn_status := "sold";
     sn_saleId := Some saleId;
     sn_customerId := or_null customerId |}.

(** [x ? x.toString() : null] into a [decimal(12,2)] column. *)
Definition optional_amount (x : option JS.Num) : option Q :=
  match x with
  | Some v => if JS.truthy x then Some (Column.of_Number v) else None
  | None => None
  end.

Definition new_payment (at_ : Time) (saleId : Id) (p : PaymentInput) : Payment :=
  {| pay_saleId := saleId;
     pay_method := in_method p;
     pay_amount := Column.of_Number (in_amount p);
     pay_reference := or_null (in_reference p);
     pay_cashGiven := optional_amount (in_cashGiven p);
     pay_change := optional_amount (in_change p);
     pay_createdAt := at_ |}.

(** [set({ totalSpent: sql`totalSpent + ${total}`, lastPurchase: new Date(),
          loyaltyPoints: sql`loyaltyPoints + ${Math.floor(total / 100)}`,
          updatedAt: new Date() })]: the sum is taken by the database on the
    decimal text of [total] and rounded by the column; the points are floored
    from the double. *)
Definition credit_customer (lastPurchase updatedAt : Time) (total : JS.Num)
    (c : Customer) : Customer :=
  {| customer_id := customer_id c;
     customer_name := customer_name c;
     customer_totalSpent :=
       Column.decimal_12_2 (customer_totalSpent c + JS.toString_value total);
     customer_loyaltyPoints :=
       (customer_loyaltyPoints c + Math_floor (total / 100)%float)%Z;
     customer_lastPurchase := Some lastPurchase;
     customer_updatedAt := Some updatedAt |}.

(** Body of the second [for (const item of items)] loop. *)
Definition item_step (at_ : Time) (saleId : Id) (customerId : option Id)
    (item : SaleItemInput) : M unit :=
  exec (on_saleItems (fun t => t ++ [new_sale_item saleId item])) ;;
  exec (on_products
          (update_where (fun p => String.eqb (product_id p) (in_productId item))
             (take_stock at_ (in_quantity item)))) ;;
  when (truthy (in_serialNumber item))
    (exec (on_serialNumbers
             (update_where
                (fun s => opt_eqb (in_serialNumber item) (sn_serialNumber s))
                (mark_sold saleId customerId)))).

Definition payment_step (at_ : Time) (saleId : Id) (p : PaymentInput) : M unit :=
  exec (on_payments (fun t => t ++ [new_payment at_ saleId p])).

(** The readings of the clock after the two of the sale row: one for each
    item's product update, then one for each payment, then two for the
    customer. *)
Definition item_reading (i : nat) : nat := (2 + i)%nat.

Definition payment_reading (items : list SaleItemInput) (j : nat) : nat :=
  (2 + List.length items + j)%nat.

Definition customer_reading (items : list SaleItemInput)
    (payments : option (list PaymentInput)) : nat :=
  (2 + List.length items
   + match payments with Some l => List.length l | None => 0 end)%nat.

(** [router.post('/', requireAuth, async (req, res) => ...)].  The clock is
    read for the invoice number ([now 0]), for the sale's [createdAt]
    ([now 1]), for the product's [updatedAt] at each item, for the
    [createdAt] of each payment and for the customer's [lastPurchase] and
    [updatedAt]. *)
Definition post (now : Clock) (uuid : Id) (user : option User) (b : SaleBody)
    : M Response :=
  requireAuth user (fun u =>
    match body_items b with
    | None | Some [] =>
        ret (mkResponse 400 (JError "Sale items are required"))
    | Some items =>
        let total :=
          calc_total items (JS.or_zero (body_discount b))
            (JS.or_zero (body_tax b)) in
        let newSale := new_sale_row now uuid u b items in
        exec (on_sales (fun t => t ++ [newSale])) ;;
        let saleId := sale_id newSale in
        forEach (indexed items)
          (fun entry =>
             item_step (now (item_reading (fst entry))) saleId (body_customerId b)
               (snd entry)) ;;
        match body_payments b with
        | Some (p :: ps) =>
            forEach (indexed (p :: ps))
              (fun entry =>
                 payment_step (now (payment_reading items (fst entry))) saleId
                   (snd entry))
        | _ => ret tt
        end ;;
        when (truthy (body_customerId b))
          (exec (on_customers
                   (update_where
                      (fun c => opt_eqb (body_customerId b) (customer_id c))
                      (credit_customer
                         (now (customer_reading items (body_payments b)))
                         (now (S (customer_reading items (body_payments b))))
                         total)))) ;;
        ret (mkResponse 201 (JSale newSale))
    end).

End Sales.

(** ** [POST /api/purchases] and [PUT /api/purchases/:id] *)

Module Purchases.

Local Open Scope float_scope.

Record ItemInput := mkItemInput {
  in_productId : Id;
  in_quantity : Z;
  in_unitCost : JS.Num;
  in_variantId : option Id;
  in_serialNumbers : option (list string)
}.

Record Body := mkBody {
  body_supplierId : option Id;
  body_invoiceNumber : option string;
  body_items : option (list ItemInput);
  body_documents : option string
}.

(** Body of [PUT /api/purchases/:id]. *)
Record Update := mkUpdate {
  upd_status : option string;
  upd_paid : option JS.Num;
  upd_documents : option string
}.

(** [Number(item.unitCost) * Number(item.quantity)]. *)
Definition line_total (item : ItemInput) : JS.Num :=
  in_unitCost item * JS.Number_of_Z (in_quantity item).

(** [total += ...] from [0]. *)
Definition calc_total (items : list ItemInput) : JS.Num :=
  fold_left (fun acc item => acc + line_total item) items 0.

(** The row handed to [insert(purchases).values(...)], as the columns hold
    it: [total] and [balance] both arrive as [total.toString()], [paid] as
    ['0']. *)
Definition new_purchase_row (now : Time) (uuid : Id) (u : User) (b : Body)
    (items : list ItemInput) : Purchase :=
  {| purchase_id := uuid;
     purchase_supplierId := body_supplierId b;
     purchase_userId := user_id u;
     purchase_invoiceNumber := body_invoiceNumber b;
     purchase_total := Column.of_Number (calc_total items);
     purchase_paid := 0%Q;
     purchase_balance := Column.of_Number (calc_total items);
     purchase_status := "pending";
     purchase_documents := body_documents b;
     purchase_createdAt := now |}.

Definition new_purchase_item (purchaseId : Id) (item : ItemInput) : PurchaseItem :=
  {| pi_purchaseId := purchaseId;
     pi_productId := in_productId item;
     pi_variantId := or_null (in_variantId item);
     pi_quantity := in_quantity item;
     pi_unitCost := Column.of_Number (in_unitCost item);
     pi_total := Column.of_Number (line_total item);
     pi_serialNumbers := in_serialNumbers item |}.

(** [set({ stock: sql`stock + quantity`, costPrice: item.unitCost.toString(),
          updatedAt: new Date() })]. *)
Definition restock (now : Time) (quantity : Z) (unitCost : JS.Num) (p : Product)
    : Product :=
  {| product_id := product_id p;
     product_name := product_name p;
     product_costPrice := Column.of_Number unitCost;
     product_sellingPrice := product_sellingPrice p;
     product_stock := (product_stock p + quantity)%Z;
     product_updatedAt := Some now |}.

Definition item_step (now : Time) (purchaseId : Id) (item : ItemInput) : M unit :=
  exec (on_purchaseItems (fun t => t ++ [new_purchase_item purchaseId item])) ;;
  exec (on_products
          (update_where (fun p => String.eqb (product_id p) (in_productId item))
             (restock now (in_quantity item) (in_unitCost item)))).

(** [router.post('/', requireAuth, requireRole(['admin', 'manager']), ...)]. *)
Definition post (now : Time) (uuid : Id) (user : option User) (b : Body)
    : M Response :=
  requireAuth user (fun u =>
  requireRole ["admin"; "manager"] user (
    match body_items b with
    | None | Some [] =>
        ret (mkResponse 400 (JError "Purchase items are required"))
    | Some items =>
        let newPurchase := new_purchase_row now uuid u b items in
        exec (on_purchases (fun t => t ++ [newPurchase])) ;;
        forEach items (item_step now (purchase_id newPurchase)) ;;
        ret (mkResponse 201 (JPurchase (Some newPurchase)))
    end)).

(** [set(updateData)]: only the members that were assigned are written (a
    body with none of the three members is outside the model).
    [updateData.paid = paid.toString()],
    [updateData.balance = (Number(purchase[0].total) - Number(paid)).toString()]. *)
Definition apply_update (b : Update) (old : Purchase) (p : Purchase) : Purchase :=
  {| purchase_id := purchase_id p;
     purchase_supplierId := purchase_supplierId p;
     purchase_userId := purchase_userId p;
     purchase_invoiceNumber := purchase_invoiceNumber p;
     purchase_total := purchase_total p;
     purchase_paid :=
       match upd_paid b with
       | Some paid => Column.of_Number paid
       | None => purchase_paid p
       end;
     purchase_balance :=
       match upd_paid b with
       | Some paid =>
           Column.of_Number (Column.to_Number (purchase_total old) - paid)
       | None => purchase_balance p
       end;
     purchase_status :=
       match upd_status b with Some s => s | None => purchase_status p end;
     purchase_documents :=
       match upd_documents b with
       | Some d => Some d
       | None => purchase_documents p
       end;
     purchase_createdAt := purchase_createdAt p |}.

(** [set({ balance: sql`balance - ${paidAmount}`, updatedAt: new Date() })]:
    the difference is taken by the database on the decimal text of
    [paidAmount] and rounded by the column. *)
Definition pay_supplier (now : Time) (paidAmount : JS.Num) (s : Supplier) : Supplier :=
  {| supplier_id := supplier_id s;
     supplier_name := supplier_name s;
     supplier_balance :=
       Column.decimal_12_2 (supplier_balance s - JS.toString_value paidAmount);
     supplier_updatedAt := Some now |}.

(** [router.put('/:id', requireAuth, requireRole(['admin', 'manager']), ...)]. *)
Definition put (now : Time) (user : option User) (id : Id) (b : Update)
    : M Response :=
  requireAuth user (fun _ =>
  requireRole ["admin"; "manager"] user (
    purchase <- query (fun d =>
      limit1 (select_where (fun p => String.eqb (purchase_id p) id) (purchases d))) ;;
    match purchase with
    | [] => ret (mkResponse 404 (JError "Purchase not found"))
    | old :: _ =>
        exec (on_purchases
                (update_where (fun p => String.eqb (purchase_id p) id)
                   (apply_update b old))) ;;
        updatedPurchase <- query (fun d =>
          select_where (fun p => String.eqb (purchase_id p) id) (purchases d)) ;;
        match upd_paid b with
        | Some paid =>
            let paidAmount := paid - Column.to_Number (purchase_paid old) in
            when (negb (paidAmount =? 0))
              (exec (on_suppliers
                       (update_where
                          (fun s => opt_eqb (purchase_supplierId old) (supplier_id s))
                          (pay_supplier now paidAmount))))
        | None => ret tt
        end ;;
        ret (mkResponse 200 (JPurchase (hd_error updatedPurchase)))
    end)).

End Purchases.

(** ** [PUT /api/rma/:id] *)

Module RmaRoutes.

Record Update := mkUpdate {
  upd_status : option string;
  upd_notes : option string
}.

(** What the columns [status varchar(50)] and [notes text] hold of the two
    members, when they accept them. *)
Definition columns (b : Update) : option Update :=
  match upd_status b, upd_notes b with
  | Some s, Some n =>
      match Column.varchar 50 s, Column.text n with
      | Some s', Some n' => Some (mkUpdate (Some s') (Some n'))
      | _, _ => None
      end
  | Some s, None =>
      match Column.varchar 50 s with
      | Some s' => Some (mkUpdate (Some s') None)
      | None => None
      end
  | None, Some n =>
      match Column.text n with
      | Some n' => Some (mkUpdate None (Some n'))
      | None => None
      end
  | None, None => Some b
  end.

(** [set({ status, notes, updatedAt: new Date() })]; a member that is
    [undefined] leaves its column as it is. *)
Definition apply_update (now : Time) (b : Update) (r : Rma) : Rma :=
  {| rma_id := rma_id r;
     rma_serialNumber := rma_serialNumber r;
     rma_status := match upd_status b with Some s => s | None => rma_status r end;
     rma_notes :=
       match upd_notes b with Some n => Some n | None => rma_notes r end;
     rma_updatedAt := Some now |}.

(** [let serialStatus = 'rma'; if (status === 'returned') ... else if
    (status === 'rejected') ...]. *)
Definition serialStatus (status : option string) : string :=
  if opt_eqb status "returned" then "available"
  else if opt_eqb status "rejected" then "sold"
  else "rma".

Definition set_status (st : string) (s : SerialNumber) : SerialNumber :=
  {| sn_id := sn_id s;
     sn_productId := sn_productId s;
     sn_serialNumber := sn_serialNumber s;
     sn_status := st;
     sn_saleId := sn_saleId s;
     sn_customerId := sn_customerId s |}.

Definition failed : Response := mkResponse 500 (JError "Failed to update RMA").

(** [router.put('/:id', requireAuth, async (req, res) => ...)].  The lookup
    throws when the path id is not a uuid, the update when a column refuses
    its value; the [catch] answers 500. *)
Definition put (now : Time) (user : option User) (id : string) (b : Update)
    : M Response :=
  requireAuth user (fun _ =>
    match Column.uuid id with
    | None => ret failed
    | Some key =>
        rma <- query (fun d =>
          limit1 (select_where (fun r => String.eqb (rma_id r) key) (rmas d))) ;;
        match rma with
        | [] => ret (mkResponse 404 (JError "RMA not found"))
        | rma0 :: _ =>
            match columns b with
            | None => ret failed
            | Some held =>
                exec (on_rmas
                        (update_where (fun r => String.eqb (rma_id r) key)
                           (apply_update now held))) ;;
                updatedRMA <- query (fun d =>
                  select_where (fun r => String.eqb (rma_id r) key) (rmas d)) ;;
                when (truthy (rma_serialNumber rma0))
                  (exec (on_serialNumbers
                           (update_where
                              (fun s =>
                                 opt_eqb (rma_serialNumber rma0) (sn_serialNumber s))
                              (set_status (serialStatus (upd_status b)))))) ;;
                ret (mkResponse 200 (JRma (hd_error updatedRMA)))
            end
        end
    end).

End RmaRoutes.

(** ** [POST /api/quotations/:id/convert-to-sale] *)

Module Quotations.

Record ConvertBody := mkConvertBody {
  body_payments : option (list PaymentInput);
  body_notes : option string
}.

(** [from(quoteItems).leftJoin(products, eq(quoteItems.productId, products.id))]:
    one joined row per matching product, or one row with a null product. *)
Definition leftJoin_products (ps : list Product) (qi : QuoteItem)
    : list (QuoteItem * option Product) :=
  match select_where (fun p => String.eqb (qi_productId qi) (product_id p)) ps with
  | [] => [(qi, None)]
  | matches => map (fun p => (qi, Some p)) matches
  end.

Definition select_items (id : Id) (d : DB) : list (QuoteItem * option Product) :=
  select_where (fun row => String.eqb (qi_quoteId (fst row)) id)
    (flat_map (leftJoin_products (products d)) (quoteItems d)).

(** [items.map(item => ({ ..., costPrice: Number(item.product?.costPrice || 0) }))]. *)
Definition to_sale_item (row : QuoteItem * option Product) : SaleDataItem :=
  {| sd_productId := qi_productId (fst row);
     sd_variantId := qi_variantId (fst row);
     sd_quantity := qi_quantity (fst row);
     sd_unitPrice := qi_unitPrice (fst row);
     sd_costPrice :=
       match snd row with Some p => product_costPrice p | None => 0%Q end |}.

Definition sale_data (quote : Quotation) (items : list (QuoteItem * option Product))
    (b : ConvertBody) : SaleData :=
  {| sd_customerId := quotation_customerId quote;
     sd_items := map to_sale_item items;
     sd_discount := quotation_discount quote;
     sd_tax := quotation_tax quote;
     sd_payments := body_payments b;
     sd_notes :=
       or_else (body_notes b)
         ("Converted from Quotation: " ++ quotation_quoteNumber quote) |}.

(** [set({ status: 'converted', updatedAt: new Date() })]. *)
Definition mark_converted (now : Time) (q : Quotation) : Quotation :=
  {| quotation_id := quotation_id q;
     quotation_quoteNumber := quotation_quoteNumber q;
     quotation_customerId := quotation_customerId q;
     quotation_discount := quotation_discount q;
     quotation_tax := quotation_tax q;
     quotation_status := "converted";
     quotation_updatedAt := Some now |}.

(** [router.post('/:id/convert-to-sale', requireAuth, ...)]. *)
Definition convert_to_sale (now : Time) (user : option User) (id : Id)
    (b : ConvertBody) : M Response :=
  requireAuth user (fun _ =>
    quotation <- query (fun d =>
      limit1 (select_where (fun q => String.eqb (quotation_id q) id) (quotations d))) ;;
    match quotation with
    | [] => ret (mkResponse 404 (JError "Quotation not found"))
    | quote :: _ =>
        items <- query (select_items id) ;;
        let saleData := sale_data quote items b in
        exec (on_quotations
                (update_where (fun q => String.eqb (quotation_id q) id)
                   (mark_converted now))) ;;
        ret (mkResponse 200
               (JConverted "Quotation converted to sale successfully" saleData))
    end).

End Quotations.

(** ** [POST /api/pc-builder/:id/convert-to-sale] *)

Module PcBuilder.

Record ConvertBody := mkConvertBody {
  body_discount : option Q;
  body_tax : option Q;
  body_payments : option (list PaymentInput);
  body_notes : option string
}.

(** The loop filling [saleItems]: one product lookup per component, a
    component whose product is missing is skipped. *)
Fixpoint collect_items (components : list Component) : M (list SaleDataItem) :=
  match components with
  | [] => ret []
  | component :: rest =>
      product <- query (fun d =>
        limit1 (select_where
                  (fun p => String.eqb (product_id p) (component_productId component))
                  (products d))) ;;
      tail <- collect_items rest ;;
      ret (match product with
           | p :: _ =>
               {| sd_productId := component_productId component;
                  sd_variantId := None;
                  sd_quantity := component_quantity component;
                  sd_unitPrice := product_sellingPrice p;
                  sd_costPrice := product_costPrice p |} :: tail
           | [] => tail
           end)
  end.

Definition sale_data (build : PcBuild) (items : list SaleDataItem) (b : ConvertBody)
    : SaleData :=
  {| sd_customerId := build_customerId build;
     sd_items := items;
     sd_discount := num_default (body_discount b);
     sd_tax := num_default (body_tax b);
     sd_payments := body_payments b;
     sd_notes :=
       or_else (body_notes b) ("Converted from PC Build: " ++ build_name build) |}.

(** [set({ status: 'purchased', updatedAt: new Date() })]. *)
Definition mark_purchased (now : Time) (p : PcBuild) : PcBuild :=
  {| build_id := build_id p;
     build_name := build_name p;
     build_customerId := build_customerId p;
     build_components := build_components p;
     build_status := "purchased";
     build_updatedAt := Some now |}.

(** [router.post('/:id/convert-to-sale', requireAuth, ...)]. *)
Definition convert_to_sale (now : Time) (user : option User) (id : Id)
    (b : ConvertBody) : M Response :=
  requireAuth user (fun _ =>
    build <- query (fun d =>
      limit1 (select_where (fun p => String.eqb (build_id p) id) (pcBuilds d))) ;;
    match build with
    | [] => ret (mkResponse 404 (JError "PC build not found"))
    | buildData :: _ =>
        let components :=
          match build_components buildData with Some cs => cs | None => [] end in
        saleItems <- collect_items components ;;
        let saleData := sale_data buildData saleItems b in
        exec (on_pcBuilds
                (update_where (fun p => String.eqb (build_id p) id)
                   (mark_purchased now))) ;;
        ret (mkResponse 200
               (JConverted "PC build converted to sale successfully" saleData))
    end).

End PcBuilder.

(** ** Login: the passport strategy of [server/index.ts] and
       [POST /api/auth/login] *)

Module Auth.

(** What the verify callback hands to [done]. *)
Inductive Done :=
| DoneUser (user : User)
| DoneFail (message : option string).

(** The credentials of a login request, as the strategy finds them (in the
    body or, failing that, in the query string). *)
Record Credentials := mkCredentials {
  cred_email : option string;
  cred_password : option string
}.

Section Login.

(** [bcrypt.compare(password, hash)]. *)
Variable bcrypt_compare : string -> string -> bool.

(** [!user[0].isActive] on a nullable boolean. *)
Definition is_active (u : User) : bool :=
  match user_isActive u with Some true => true | _ => false end.

(** The [LocalStrategy] verify callback. *)
Definition verify (email password : string) : M Done :=
  user <- query (fun d =>
    limit1 (select_where (fun u => String.eqb (user_email u) email) (users d))) ;;
  match user with
  | [] => ret (DoneFail (Some "Invalid email or password"))
  | user0 :: _ =>
      if negb (bcrypt_compare password (user_password user0)) then
        ret (DoneFail (Some "Invalid email or password"))
      else if negb (is_active user0) then
        ret (DoneFail (Some "Account is deactivated"))
      else ret (DoneUser user0)
  end.

(** The callback given to [passport.authenticate('local', ...)]. *)
Definition login_callback (outcome : Done) : Response :=
  match outcome with
  | DoneFail info =>
      mkResponse 401 (JError (or_else info "Authentication failed"))
  | DoneUser user => mkResponse 200 (JUser (userWithoutPassword user))
  end.

(** [router.post('/login', ...)] for a request carrying both credentials. *)
Definition login (email password : string) : M Response :=
  outcome <- verify email password ;;
  ret (login_callback outcome).

(** [passport.authenticate('local', ...)]: before it calls the verify
    callback, the strategy looks for the two credentials and fails with
    ['Missing credentials'] when one is absent or empty
    ([if (!username || !password) return this.fail(...)]); the route's
    callback answers that failure like the others. *)
Definition authenticate (c : Credentials) : M Response :=
  match cred_email c, cred_password c with
  | Some email, Some password =>
      if truthy (cred_email c) && truthy (cred_password c)
      then login email password
      else ret (login_callback (DoneFail (Some "Missing credentials")))
  | _, _ => ret (login_callback (DoneFail (Some "Missing credentials")))
  end.

End Login.

End Auth.

(** * Further handlers of the cited route files

    The supplier routes, the RMA intake, the loyalty route, the quotation
    creation and send routes, the PC-build creation and deletion, the
    account routes and
    the sale detail route of [routes/sales.ts], on the same store and under
    the same conventions.  A row keeps the columns of its record; the other
    columns a handler writes are not represented. *)

(** [DELETE FROM t WHERE w]. *)
Definition delete_where {R : Type} (w : R -> bool) (t : list R) : list R :=
  filter (fun r => negb (w r)) t.

(** A [uuid(...).references(...)] column takes a text that denotes the id of
    a row of the table it references, and holds that id. *)
Definition reference {R : Type} (key : R -> Id) (table : list R) (id : string)
    : option Id :=
  match Column.uuid id with
  | Some k => if existsb (fun r => String.eqb (key r) k) table then Some k else None
  | None => None
  end.

Definition refers {R : Type} (key : R -> Id) (table : list R) (id : string) : bool :=
  match reference key table id with Some _ => true | None => false end.

(** Answers of the handlers below: [res.status(code).json(...)] carrying
    [{ error }], [{ message }] or data of the handler's own shape. *)
Inductive Payload (A : Type) : Type :=
| PError (error : string)
| PMessage (message : string)
| PData (data : A).

Arguments PError {A} error.
Arguments PMessage {A} message.
Arguments PData {A} data.

Record Answer (A : Type) : Type := mkAnswer {
  answer_status : nat;
  answer_json : Payload A
}.

Arguments mkAnswer {A} answer_status answer_json.
Arguments answer_status {A} a.
Arguments answer_json {A} a.

(** [requireAuth] and [requireRole] of [routes/auth.ts] in front of a handler
    with any answer shape. *)
Module Middleware.

Definition requireAuth {A : Type} (user : option User)
    (next : User -> M (Answer A)) : M (Answer A) :=
  match user with
  | Some u => next u
  | None => ret (mkAnswer 401 (PError "Authentication required"))
  end.

Definition requireRole {A : Type} (roles : list string) (user : option User)
    (next : M (Answer A)) : M (Answer A) :=
  match user with
  | Some u =>
      if includes roles (user_role u) then next
      else ret (mkAnswer 403 (PError "Insufficient permissions"))
  | None => ret (mkAnswer 403 (PError "Insufficient permissions"))
  end.

End Middleware.

(** ** Suppliers: [POST /api/suppliers], [DELETE /api/suppliers/:id],
       [POST /api/suppliers/:id/payment] *)

Module Suppliers.

Record CreateBody := mkCreateBody {
  body_name : option string
}.

Record PaymentBody := mkPaymentBody {
  body_amount : option JS.Num;
  body_notes : option string
}.

(** What the payment route answers: [{ ...updatedSupplier[0], paymentAmount,
    notes }]. *)
Record PaymentReceipt := mkPaymentReceipt {
  receipt_supplier : option Supplier;
  receipt_paymentAmount : JS.Num;
  receipt_notes : option string
}.

(** [router.post('/', requireAuth, requireRole(['admin', 'manager']), ...)]. *)
Definition post (now : Time) (uuid : Id) (user : option User) (b : CreateBody)
    : M (Answer Supplier) :=
  Middleware.requireAuth user (fun _ =>
  Middleware.requireRole ["admin"; "manager"] user (
    match body_name b with
    | Some name =>
        if truthy (body_name b) then
          let newSupplier :=
            {| supplier_id := uuid;
               supplier_name := name;
               supplier_balance := 0%Q;
               supplier_updatedAt := Some now |} in
          exec (on_suppliers (fun t => t ++ [newSupplier])) ;;
          ret (mkAnswer 201 (PData newSupplier))
        else ret (mkAnswer 400 (PError "Supplier name is required"))
    | None => ret (mkAnswer 400 (PError "Supplier name is required"))
    end)).

(** [router.delete('/:id', requireAuth, requireRole(['admin']), ...)]. *)
Definition delete (user : option User) (id : Id) : M (Answer unit) :=
  Middleware.requireAuth user (fun _ =>
  Middleware.requireRole ["admin"] user (
    supplierPurchases <- query (fun d =>
      limit1 (select_where (fun p => opt_eqb (purchase_supplierId p) id)
                (purchases d))) ;;
    match supplierPurchases with
    | _ :: _ =>
        ret (mkAnswer 400 (PError "Cannot delete supplier with existing purchases"))
    | [] =>
        deletedSupplier <- query (fun d =>
          select_where (fun s => String.eqb (supplier_id s) id) (suppliers d)) ;;
        exec (on_suppliers
                (delete_where (fun s => String.eqb (supplier_id s) id))) ;;
        match deletedSupplier with
        | [] => ret (mkAnswer 404 (PError "Supplier not found"))
        | _ :: _ => ret (mkAnswer 200 (PMessage "Supplier deleted successfully"))
        end
    end)).

(** [set({ balance: newBalance.toString(), updatedAt: new Date() })], as the
    column holds it. *)
Definition set_balance (now : Time) (newBalance : JS.Num) (s : Supplier) : Supplier :=
  {| supplier_id := supplier_id s;
     supplier_name := supplier_name s;
     supplier_balance := Column.of_Number newBalance;
     supplier_updatedAt := Some now |}.

(** [router.post('/:id/payment', requireAuth, requireRole(['admin', 'manager']), ...)]:
    [if (!amount || amount <= 0)], [Number(supplier[0].balance)],
    [if (paymentAmount > currentBalance)], all on doubles. *)
Definition payment (now : Time) (user : option User) (id : Id) (b : PaymentBody)
    : M (Answer PaymentReceipt) :=
  Middleware.requireAuth user (fun _ =>
  Middleware.requireRole ["admin"; "manager"] user (
    match body_amount b with
    | None => ret (mkAnswer 400 (PError "Valid payment amount is required"))
    | Some amount =>
        if negb (JS.truthy (body_amount b)) || (amount <=? 0)%float then
          ret (mkAnswer 400 (PError "Valid payment amount is required"))
        else
          supplier <- query (fun d =>
            limit1 (select_where (fun s => String.eqb (supplier_id s) id)
                      (suppliers d))) ;;
          match supplier with
          | [] => ret (mkAnswer 404 (PError "Supplier not found"))
          | supplier0 :: _ =>
              let currentBalance := Column.to_Number (supplier_balance supplier0) in
              let paymentAmount := amount in
              if (currentBalance <? paymentAmount)%float then
                ret (mkAnswer 400
                       (PError "Payment amount cannot exceed outstanding balance"))
              else
                let newBalance := (currentBalance - paymentAmount)%float in
                exec (on_suppliers
                        (update_where (fun s => String.eqb (supplier_id s) id)
                           (set_balance now newBalance))) ;;
                updatedSupplier <- query (fun d =>
                  select_where (fun s => String.eqb (supplier_id s) id)
                    (suppliers d)) ;;
                ret (mkAnswer 200
                       (PData (mkPaymentReceipt (hd_error updatedSupplier)
                                 paymentAmount (body_notes b))))
          end
    end)).

End Suppliers.

(** ** [POST /api/rma] *)

Module RmaCreate.

Record Body := mkBody {
  body_customerId : option Id;
  body_saleId : option Id;
  body_productId : option Id;
  body_serialNumber : option string;
  body_reason : option string;
  body_notes : option string
}.

(** The row handed to [insert(rmas).values(...)], on the columns of [Rma]. *)
Definition new_rma_row (now : Time) (uuid : Id) (b : Body) : Rma :=
  {| rma_id := uuid;
     rma_serialNumber := or_null (body_serialNumber b);
     rma_status := "under_review";
     rma_notes := body_notes b;
     rma_updatedAt := Some now |}.

(** The three references of the new row: [customerId], [productId] and
    [saleId || null]. *)
Definition references (b : Body) (d : DB) : bool :=
  match body_customerId b, body_productId b with
  | Some customerId, Some productId =>
      refers customer_id (customers d) customerId
      && refers product_id (products d) productId
      && match or_null (body_saleId b) with
         | Some saleId => refers sale_id (sales d) saleId
         | None => true
         end
  | _, _ => false
  end.

(** [router.post('/', requireAuth, async (req, res) => ...)].  The insert
    throws when a reference names no row; the [catch] answers 500. *)
Definition post (now : Time) (uuid : Id) (user : option User) (b : Body)
    : M Response :=
  requireAuth user (fun _ =>
    if negb (truthy (body_customerId b)) || negb (truthy (body_productId b))
       || negb (truthy (body_reason b))
    then ret (mkResponse 400 (JError "Customer, product, and reason are required"))
    else
      accepted <- query (references b) ;;
      if negb accepted then ret (mkResponse 500 (JError "Failed to create RMA"))
      else
        let newRMA := new_rma_row now uuid b in
        exec (on_rmas (fun t => t ++ [newRMA])) ;;
        when (truthy (body_serialNumber b))
          (exec (on_serialNumbers
                   (update_where
                      (fun s => opt_eqb (body_serialNumber b) (sn_serialNumber s))
                      (RmaRoutes.set_status "rma")))) ;;
        ret (mkResponse 201 (JRma (Some newRMA)))).

End RmaCreate.

(** ** [POST /api/customers/:id/loyalty] *)

Module Loyalty.

Record Body := mkBody {
  body_points : Z;
  body_action : option string
}.

Definition failed : Answer (option Customer) :=
  mkAnswer 500 (PError "Failed to update loyalty points").

(** [set({ loyaltyPoints: newPoints, updatedAt: new Date() })]. *)
Definition set_points (now : Time) (newPoints : Z) (c : Customer) : Customer :=
  {| customer_id := customer_id c;
     customer_name := customer_name c;
     customer_totalSpent := customer_totalSpent c;
     customer_loyaltyPoints := newPoints;
     customer_lastPurchase := customer_lastPurchase c;
     customer_updatedAt := Some now |}.

(** The update throws when [newPoints] is outside the [integer] column. *)
Definition write_points (now : Time) (key : Id) (newPoints : Z)
    : M (Answer (option Customer)) :=
  if negb (Column.int4 newPoints) then ret failed
  else
    exec (on_customers
            (update_where (fun c => String.eqb (customer_id c) key)
               (set_points now newPoints))) ;;
    updatedCustomer <- query (fun d =>
      select_where (fun c => String.eqb (customer_id c) key) (customers d)) ;;
    ret (mkAnswer 200 (PData (hd_error updatedCustomer))).

(** [router.post('/:id/loyalty', requireAuth, async (req, res) => ...)].  The
    lookup throws when the path id is not a uuid. *)
Definition post (now : Time) (user : option User) (id : string) (b : Body)
    : M (Answer (option Customer)) :=
  Middleware.requireAuth user (fun _ =>
    match Column.uuid id with
    | None => ret failed
    | Some key =>
        customer <- query (fun d =>
          limit1 (select_where (fun c => String.eqb (customer_id c) key)
                    (customers d))) ;;
        match customer with
        | [] => ret (mkAnswer 404 (PError "Customer not found"))
        | customer0 :: _ =>
            let currentPoints := customer_loyaltyPoints customer0 in
            if opt_eqb (body_action b) "add" then
              write_points now key (currentPoints + body_points b)%Z
            else if opt_eqb (body_action b) "redeem" then
              if (currentPoints <? body_points b)%Z then
                ret (mkAnswer 400 (PError "Insufficient loyalty points"))
              else write_points now key (currentPoints - body_points b)%Z
            else write_points now key currentPoints
        end
    end).

End Loyalty.

(** ** [POST /api/quotations], [POST /api/quotations/:id/send] *)

Module QuotationRoutes.

Record ItemInput := mkItemInput {
  in_productId : Id;
  in_variantId : option Id;
  in_quantity : Z;
  in_unitPrice : JS.Num
}.

Record Body := mkBody {
  body_customerId : option Id;
  body_items : option (list ItemInput);
  body_discount : option JS.Num;
  body_tax : option JS.Num;
  body_notes : option string
}.

Record SendBody := mkSendBody {
  send_method : option string;
  send_recipient : option string
}.

Definition failed : Answer Quotation :=
  mkAnswer 500 (PError "Failed to create quotation").

(** [customerId || null] as the column [customer_id] takes it: [None] when
    the column refuses it. *)
Definition customer_reference (b : Body) (d : DB) : option (option Id) :=
  match or_null (body_customerId b) with
  | None => Some None
  | Some customerId =>
      match reference customer_id (customers d) customerId with
      | Some k => Some (Some k)
      | None => None
      end
  end.

(** The row handed to [insert(quotations).values(...)], on the columns of
    [Quotation] and as they hold it.  The clock is read for the quote number
    ([now 0]), for [createdAt] ([now 1]) and for [updatedAt] ([now 2]). *)
Definition new_quotation_row (now : Clock) (uuid : Id) (customerId : option Id)
    (b : Body) : Quotation :=
  {| quotation_id := uuid;
     quotation_quoteNumber := "QUO-" ++ string_of_Z (now 0%nat);
     quotation_customerId := customerId;
     quotation_discount := Column.of_Number (JS.or_zero (body_discount b));
     quotation_tax := Column.of_Number (JS.or_zero (body_tax b));
     quotation_status := "draft";
     quotation_updatedAt := Some (now 2%nat) |}.

Definition new_quote_item (quotationId productId : Id) (item : ItemInput) : QuoteItem :=
  {| qi_quoteId := quotationId;
     qi_productId := productId;
     qi_variantId := or_null (in_variantId item);
     qi_quantity := in_quantity item;
     qi_unitPrice := Column.of_Number (in_unitPrice item) |}.

Definition on_quoteItems (f : list QuoteItem -> list QuoteItem) (d : DB) : DB :=
  let 'mkDB u su p sn c s si pa pu pi q qi r b := d in
  mkDB u su p sn c s si pa pu pi q (f qi) r b.

(** The loop [for (const item of items) await insert(quoteItems)...]: an
    insert whose product reference names no product throws and ends the
    loop, the rows inserted before it staying in place.  The result tells
    whether the loop ran to its end. *)
Fixpoint insert_items (quotationId : Id) (items : list ItemInput) : M bool :=
  match items with
  | [] => ret true
  | item :: rest =>
      product <- query (fun d =>
        reference product_id (products d) (in_productId item)) ;;
      match product with
      | Some productId =>
          exec (on_quoteItems
                  (fun t => t ++ [new_quote_item quotationId productId item])) ;;
          insert_items quotationId rest
      | None => ret false
      end
  end.

(** [router.post('/', requireAuth, async (req, res) => ...)]. *)
Definition post (now : Clock) (uuid : Id) (user : option User) (b : Body)
    : M (Answer Quotation) :=
  Middleware.requireAuth user (fun _ =>
    match body_items b with
    | None | Some [] => ret (mkAnswer 400 (PError "Quote items are required"))
    | Some items =>
        customer <- query (customer_reference b) ;;
        match customer with
        | None => ret failed
        | Some customerId =>
            let newQuotation := new_quotation_row now uuid customerId b in
            exec (on_quotations (fun t => t ++ [newQuotation])) ;;
            inserted <- insert_items (quotation_id newQuotation) items ;;
            if inserted then ret (mkAnswer 201 (PData newQuotation)) else ret failed
        end
    end).

(** [`${x}`] of a member that may be [undefined]. *)
Definition template (s : option string) : string :=
  match s with Some x => x | None => "undefined" end.

(** [set({ status: 'sent', updatedAt: new Date() })]. *)
Definition mark_sent (now : Time) (q : Quotation) : Quotation :=
  {| quotation_id := quotation_id q;
     quotation_quoteNumber := quotation_quoteNumber q;
     quotation_customerId := quotation_customerId q;
     quotation_discount := quotation_discount q;
     quotation_tax := quotation_tax q;
     quotation_status := "sent";
     quotation_updatedAt := Some now |}.

(** [router.post('/:id/send', requireAuth, async (req, res) => ...)].  The
    update throws when the path id is not a uuid. *)
Definition send (now : Time) (user : option User) (id : string) (b : SendBody)
    : M (Answer unit) :=
  Middleware.requireAuth user (fun _ =>
    match Column.uuid id with
    | None => ret (mkAnswer 500 (PError "Failed to send quotation"))
    | Some key =>
        exec (on_quotations
                (update_where (fun q => String.eqb (quotation_id q) key)
                   (mark_sent now))) ;;
        ret (mkAnswer 200
               (PMessage ("Quotation sent via " ++ template (send_method b)
                          ++ " to " ++ template (send_recipient b))))
    end).

End QuotationRoutes.

(** ** [GET /api/sales/:id] *)

Module SaleDetail.

(** [from(a).leftJoin(b, on)]: one joined row per match, or one with null. *)
Definition leftJoin {A B : Type} (on : A -> B -> bool) (bs : list B) (a : A)
    : list (A * option B) :=
  match select_where (on a) bs with
  | [] => [(a, None)]
  | matches => map (fun b => (a, Some b)) matches
  end.




Definition select_items (id : Id) (d : DB) : list (SaleItem * option Product) :=
  select_where (fun row => String.eqb (si_saleId (fst row)) id)
    (flat_map
       (leftJoin (fun i p => String.eqb (si_productId i) (product_id p))
          (products d))
       (saleItems d)).

Section Get.

(** The two child queries have no [ORDER BY]: [returned] is the order in
    which the database hands back the rows of such a query. *)
Variable returned : forall A : Type, list A -> list A.


End Get.

End SaleDetail.

(** ** PC builds: [POST /api/pc-builder], [DELETE /api/pc-builder/:id] *)

Module PcBuildRoutes.

Record Body := mkBody {
  body_name : string;
  body_customerId : option Id;
  body_components : list Component
}.

(** The loop [total += Number(product[0].sellingPrice) * component.quantity]
    over the components whose product exists. *)
Fixpoint calc_total (components : list Component) (total : Q) : M Q :=
  match components with
  | [] => ret total
  | component :: rest =>
      product <- query (fun d =>
        limit1 (select_where
                  (fun p => String.eqb (product_id p) (component_productId component))
                  (products d))) ;;
      calc_total rest
        (match product with
         | p :: _ =>
             (total + product_sellingPrice p * inject_Z (component_quantity component))%Q
         | [] => total
         end)
  end.

(** The row handed to [insert(pcBuilds).values(...)], on the columns of
    [PcBuild]. *)
Definition new_build_row (now : Time) (uuid : Id) (b : Body) : PcBuild :=
  {| build_id := uuid;
     build_name := body_name b;
     build_customerId := or_null (body_customerId b);
     build_components := Some (body_components b);
     build_status := "draft";
     build_updatedAt := Some now |}.

(** [router.post('/', requireAuth, async (req, res) => ...)]; the answer
    carries the row and the total written with it. *)
Definition post (now : Time) (uuid : Id) (user : option User) (b : Body)
    : M (Answer (PcBuild * Q)) :=
  Middleware.requireAuth user (fun _ =>
    total <- calc_total (body_components b) 0%Q ;;
    let newBuild := new_build_row now uuid b in
    exec (on_pcBuilds (fun t => t ++ [newBuild])) ;;
    ret (mkAnswer 201 (PData (newBuild, total)))).

(** [router.delete('/:id', requireAuth, async (req, res) => ...)].  The
    delete throws when the path id is not a uuid. *)
Definition delete (user : option User) (id : string) : M (Answer unit) :=
  Middleware.requireAuth user (fun _ =>
    match Column.uuid id with
    | None => ret (mkAnswer 500 (PError "Failed to delete PC build"))
    | Some key =>
        deletedBuild <- query (fun d =>
          select_where (fun p => String.eqb (build_id p) key) (pcBuilds d)) ;;
        exec (on_pcBuilds (delete_where (fun p => String.eqb (build_id p) key))) ;;
        match deletedBuild with
        | [] => ret (mkAnswer 404 (PError "PC build not found"))
        | _ :: _ => ret (mkAnswer 200 (PMessage "PC build deleted successfully"))
        end
    end).

End PcBuildRoutes.

(** ** Accounts: [POST /api/auth/register], [PUT /api/auth/users/:id] *)

Module Accounts.

Record RegisterBody := mkRegisterBody {
  body_email : option string;
  body_password : option string;
  body_name : option string;
  body_role : option string
}.

Record UserUpdate := mkUserUpdate {
  upd_name : option string;
  upd_role : option string;
  upd_isActive : option bool
}.

(** [set({ name, phone, role, isActive, updatedAt: new Date() })]; a member
    that is [undefined] leaves its column as it is. *)
Definition apply_update (b : UserUpdate) (u : User) : User :=
  {| user_id := user_id u;
     user_email := user_email u;
     user_password := user_password u;
     user_name := match upd_name b with Some n => n | None => user_name u end;
     user_role := match upd_role b with Some r => r | None => user_role u end;
     user_isActive :=
       match upd_isActive b with Some a => Some a | None => user_isActive u end |}.

Definition on_users (f : list User -> list User) (d : DB) : DB :=
  let 'mkDB u su p sn c s si pa pu pi q qi r b := d in
  mkDB (f u) su p sn c s si pa pu pi q qi r b.

(** [router.put('/users/:id', requireAuth, requireRole(['admin']), ...)]. *)
Definition put_user (user : option User) (id : Id) (b : UserUpdate) : M Response :=
  requireAuth user (fun _ =>
  requireRole ["admin"] user (
    exec (on_users
            (update_where (fun u => String.eqb (user_id u) id) (apply_update b))) ;;
    updatedUser <- query (fun d =>
      select_where (fun u => String.eqb (user_id u) id) (users d)) ;;
    match updatedUser with
    | [] => ret (mkResponse 404 (JError "User not found"))
    | u0 :: _ => ret (mkResponse 200 (JUser (userWithoutPassword u0)))
    end)).

Section Register.

(** [bcrypt.hash(password, 10)]. *)
Variable bcrypt_hash : string -> string.

(** The row handed to [insert(users).values(...)]; [is_active] takes the
    column default [true]. *)
Definition new_user_row (uuid : Id) (email password name : string)
    (role : option string) : User :=
  {| user_id := uuid;
     user_email := email;
     user_password := bcrypt_hash password;
     user_name := name;
     user_role := match role with Some r => r | None => "staff" end;
     user_isActive := Some true |}.

(** [router.post('/register', requireAuth, requireRole(['admin']), ...)]. *)
Definition register (uuid : Id) (user : option User) (b : RegisterBody)
    : M Response :=
  requireAuth user (fun _ =>
  requireRole ["admin"] user (
    match body_email b, body_password b, body_name b with
    | Some email, Some password, Some name =>
        if negb (truthy (body_email b)) || negb (truthy (body_password b))
           || negb (truthy (body_name b))
        then ret (mkResponse 400 (JError "Email, password, and name are required"))
        else
          existingUser <- query (fun d =>
            limit1 (select_where (fun u => String.eqb (user_email u) email)
                      (users d))) ;;
          match existingUser with
          | _ :: _ => ret (mkResponse 400 (JError "User already exists"))
          | [] =>
              let newUser := new_user_row uuid email password name (body_role b) in
              exec (on_users (fun t => t ++ [newUser])) ;;
              ret (mkResponse 201 (JUser (userWithoutPassword newUser)))
          end
    | _, _, _ =>
        ret (mkResponse 400 (JError "Email, password, and name are required"))
    end)).

End Register.

End Accounts.

(** * Vocabulary of the statements *)

(** Sums as the specification writes them. *)
Definition Qsum (l : list Q) : Q := fold_right Qplus 0%Q l.
Definition Zsum (l : list Z) : Z := fold_right Z.add 0%Z l.


Definition exact_profit (items : list SaleItemInput) : Q :=
  Qsum (map (fun i => (JS.value (in_unitPrice i) - JS.value (in_costPrice i))
                      * inject_Z (in_quantity i))%Q items).


(** The same sums as a program adds them up in doubles, from [0] and from
    the first item on. *)
Definition double_sum {A : Type} (f : A -> JS.Num) (l : list A) : JS.Num :=
  fold_left (fun acc x => (acc + f x)%float) l 0%float.

(** [subtotal - discount + tax] in doubles, an absent discount or tax
    counting as [0]. *)
Definition request_total (b : SaleBody) (items : list SaleItemInput) : JS.Num :=
  (double_sum (fun i => in_unitPrice i * JS.Number_of_Z (in_quantity i)) items
   - match body_discount b with Some x => x | None => 0 end
   + match body_tax b with Some x => x | None => 0 end)%float.

(** The items of a sale that name product [pid], and the units they take. *)
Definition sold_quantity (items : list SaleItemInput) (pid : Id) : Z :=
  Zsum (map in_quantity
          (filter (fun item => String.eqb pid (in_productId item)) items)).


(** The products and serial numbers after the item loop of a sale, as folds
    over the items; [entries] are the items with their positions. *)
Definition products_after_sale (now : Clock) (entries : list (nat * SaleItemInput))
    (ps : list Product) : list Product :=
  fold_left
    (fun t entry =>
       update_where (fun p => String.eqb (product_id p) (in_productId (snd entry)))
         (Sales.take_stock (now (Sales.item_reading (fst entry)))
            (in_quantity (snd entry))) t)
    entries ps.

Definition serials_after_sale (saleId : Id) (customerId : option Id)
    (items : list SaleItemInput) (sns : list SerialNumber) : list SerialNumber :=
  fold_left
    (fun t item =>
       if truthy (in_serialNumber item) then
         update_where (fun s => opt_eqb (in_serialNumber item) (sn_serialNumber s))
           (Sales.mark_sold saleId customerId) t
       else t)
    items sns.

Definition payments_of (ps : option (list PaymentInput)) : list PaymentInput :=
  match ps with Some l => l | None => [] end.

(** The payment rows of a sale. *)
Definition payment_rows (now : Clock) (saleId : Id) (items : list SaleItemInput)
    (ps : list PaymentInput) : list Payment :=
  map (fun entry =>
         Sales.new_payment (now (Sales.payment_reading items (fst entry))) saleId
           (snd entry))
    (indexed ps).

(** The customers after the last step of a sale. *)
Definition customers_after_sale (now : Clock) (b : SaleBody)
    (items : list SaleItemInput) (cs : list Customer) : list Customer :=
  if truthy (body_customerId b) then
    update_where (fun c => opt_eqb (body_customerId b) (customer_id c))
      (Sales.credit_customer
         (now (Sales.customer_reading items (body_payments b)))
         (now (S (Sales.customer_reading items (body_payments b))))
         (request_total b items)) cs
  else cs.

(** The store a completed sale leaves behind. *)
Definition store_after_sale (now : Clock) (uuid : Id) (u : User) (b : SaleBody)
    (items : list SaleItemInput) (d : DB) : DB :=
  {| users := users d;
     suppliers := suppliers d;
     products := products_after_sale now (indexed items) (products d);
     serialNumbers :=
       serials_after_sale uuid (body_customerId b) items (serialNumbers d);
     customers := customers_after_sale now b items (customers d);
     sales := sales d ++ [Sales.new_sale_row now uuid u b items];
     saleItems := saleItems d ++ map (Sales.new_sale_item uuid) items;
     payments :=
       payments d ++ payment_rows now uuid items (payments_of (body_payments b));
     purchases := purchases d;
     purchaseItems := purchaseItems d;
     quotations := quotations d;
     quoteItems := quoteItems d;
     rmas := rmas d;
     pcBuilds := pcBuilds d |}.

(** A sale request as the server receives it from an authenticated user. *)
Record SaleRequest := mkSaleRequest {
  req_now : Clock;
  req_uuid : Id;
  req_user : User;
  req_body : SaleBody
}.

Definition serve_sale (r : SaleRequest) (d : DB) : Response * DB :=
  Sales.post (req_now r) (req_uuid r) (Some (req_user r)) (req_body r) d.

(** A sequence of sale requests served one after the other. *)
Definition serve_sales (rs : list SaleRequest) (d : DB) : DB :=
  fold_left (fun d r => snd (serve_sale r d)) rs d.




(** [k] is the whole number of hundreds in the double [t]: what
    [Math.floor(t / 100)] is to be. *)
Definition hundreds_of (t : JS.Num) (k : Z) : Prop :=
  (inject_Z k <= JS.value (t / 100)%float)%Q
  /\ (JS.value (t / 100)%float < inject_Z k + 1)%Q.

(** [n] hundredths, in the form a [decimal(12,2)] column holds them. *)
Definition cents (n : Z) : Q := Qred (inject_Z n / 100).

(** A value of two decimals that is not negative, as a [decimal(12,2)]
    column holds an amount. *)
Definition cents_amount (q : Q) : Prop :=
  exists n : Z, (0 <= n)%Z /\ (q == inject_Z n / 100)%Q.



Definition serial_row_step (saleId : Id) (customerId : option Id)
    (item : SaleItemInput) (s : SerialNumber) : SerialNumber :=
  if truthy (in_serialNumber item)
     && opt_eqb (in_serialNumber item) (sn_serialNumber s)
  then Sales.mark_sold saleId customerId s else s.



Definition products_after_purchase (now : Time) (items : list Purchases.ItemInput)
    (ps : list Product) : list Product :=
  fold_left
    (fun t item =>
       update_where
         (fun p => String.eqb (product_id p) (Purchases.in_productId item))
         (Purchases.restock now (Purchases.in_quantity item)
            (Purchases.in_unitCost item)) t)
    items ps.

(** A purchase request as the server receives it. *)
Record PurchaseRequest := mkPurchaseRequest {
  preq_now : Time;
  preq_uuid : Id;
  preq_user : option User;
  preq_body : Purchases.Body
}.

Definition serve_purchases (rs : list PurchaseRequest) (d : DB) : DB :=
  fold_left
    (fun d r =>
       snd (Purchases.post (preq_now r) (preq_uuid r) (preq_user r) (preq_body r) d))
    rs d.

(** The increase [Number(paid) - Number(purchase[0].paid)] a payment
    recording sees. *)
Definition paid_increase (paid : JS.Num) (old : Purchase) : JS.Num :=
  (paid - Column.to_Number (purchase_paid old))%float.

(** What recording [paid] on purchase [old] does to one supplier row. *)
Definition supplier_pay_row (now : Time) (b : Purchases.Update) (old : Purchase)
    (s : Supplier) : Supplier :=
  match Purchases.upd_paid b with
  | Some paid =>
      if negb (paid_increase paid old =? 0)%float
         && opt_eqb (purchase_supplierId old) (supplier_id s)
      then Purchases.pay_supplier now (paid_increase paid old) s
      else s
  | None => s
  end.

(** Signs of a double, read off its decoding: [s] is the sign bit of a number
    that is not NaN; a positive number, finite or not; a number that is zero
    or negative. *)
Definition signed (s : bool) (x : spec_float) : Prop :=
  match x with
  | S754_zero s' | S754_infinity s' | S754_finite s' _ _ => s' = s
  | S754_nan => False
  end.

Definition is_positive (x : spec_float) : bool :=
  match x with
  | S754_finite false _ _ | S754_infinity false => true
  | _ => false
  end.

Definition not_positive (x : spec_float) : bool :=
  match x with
  | S754_zero _ | S754_finite true _ _ | S754_infinity true => true
  | _ => false
  end.

(** The rows an id designates. *)
Definition find_rma (id : Id) (d : DB) : option Rma :=
  find (fun r => String.eqb (rma_id r) id) (rmas d).

Definition find_quotation (id : Id) (d : DB) : option Quotation :=
  find (fun q => String.eqb (quotation_id q) id) (quotations d).

Definition find_build (id : Id) (d : DB) : option PcBuild :=
  find (fun p => String.eqb (build_id p) id) (pcBuilds d).

Definition find_user (email : string) (d : DB) : option User :=
  find (fun u => String.eqb (user_email u) email) (users d).

Definition find_purchase (id : Id) (d : DB) : option Purchase :=
  find (fun p => String.eqb (purchase_id p) id) (purchases d).

Definition find_supplier (id : Id) (d : DB) : option Supplier :=
  find (fun s => String.eqb (supplier_id s) id) (suppliers d).

Definition find_customer (id : Id) (d : DB) : option Customer :=
  find (fun c => String.eqb (customer_id c) id) (customers d).


(** Every table but [quotations] (resp. [pcBuilds]) is the same in both
    stores. *)
Definition same_but_quotations (d d' : DB) : Prop :=
  users d' = users d /\ suppliers d' = suppliers d /\ products d' = products d
  /\ serialNumbers d' = serialNumbers d /\ customers d' = customers d
  /\ sales d' = sales d /\ saleItems d' = saleItems d /\ payments d' = payments d
  /\ purchases d' = purchases d /\ purchaseItems d' = purchaseItems d
  /\ quoteItems d' = quoteItems d /\ rmas d' = rmas d /\ pcBuilds d' = pcBuilds d.

Definition same_but_pcBuilds (d d' : DB) : Prop :=
  users d' = users d /\ suppliers d' = suppliers d /\ products d' = products d
  /\ serialNumbers d' = serialNumbers d /\ customers d' = customers d
  /\ sales d' = sales d /\ saleItems d' = saleItems d /\ payments d' = payments d
  /\ purchases d' = purchases d /\ purchaseItems d' = purchaseItems d
  /\ quotations d' = quotations d /\ quoteItems d' = quoteItems d
  /\ rmas d' = rmas d.

(** The claim's reading of the conversion: the source record's status is the
    one thing that changes. *)
Definition spec_status_only (status : string) (q : Quotation) : Quotation :=
  {| quotation_id := quotation_id q;
     quotation_quoteNumber := quotation_quoteNumber q;
     quotation_customerId := quotation_customerId q;
     quotation_discount := quotation_discount q;
     quotation_tax := quotation_tax q;
     quotation_status := status;
     quotation_updatedAt := quotation_updatedAt q |}.

Definition spec_convert_quotation (id : Id) (d : DB) : DB :=
  on_quotations
    (update_where (fun q => String.eqb (quotation_id q) id)
       (spec_status_only "converted")) d.

(** The cost price the store holds for a product id, [0] when it holds
    none. *)
Definition cost_of (ps : list Product) (pid : Id) : Q :=
  match find (fun p => String.eqb pid (product_id p)) ps with
  | Some p => product_costPrice p
  | None => 0
  end.


(** ** Worked examples *)

Definition empty_db : DB := mkDB [] [] [] [] [] [] [] [] [] [] [] [] [] [].

(** A clock that reads [t] first and one unit more at each later reading. *)
Definition ticking (t : Time) : Clock := fun k => (t + Z.of_nat k)%Z.

Definition clerk : User :=
  mkUser "u-1" "clerk@shop.test" "hash-1" "Clerk" "staff" (Some true).

Definition manager : User :=
  mkUser "u-2" "manager@shop.test" "hash-2" "Manager" "manager" (Some true).

Definition admin : User :=
  mkUser "u-0" "admin@shop.test" "hash-0" "Admin" "admin" (Some true).

(** The spec's worked example: a product bought at 100, sold at 150, ten in
    stock, and a sale of two units. *)
Definition example_store : DB :=
  on_products (fun _ => [mkProduct "p-1" "cpu" 100 150 10%Z None]) empty_db.

Definition example_sale : SaleBody :=
  mkSaleBody None (Some [mkSaleItemInput "p-1" 2%Z 150 100 None None])
    None None None None.

(** A sale of 300 paid with a single payment of 1. *)
Definition underpaid_sale : SaleBody :=
  mkSaleBody None (Some [mkSaleItemInput "p-1" 2%Z 150 100 None None])
    None None (Some [mkPaymentInput "cash" 1 None None None]) None.

(** A sale with a serial-numbered unit for a known customer. *)
Definition serial_store : DB :=
  on_customers (fun _ => [mkCustomer "c-1" "Dana" 50 3%Z None None])
    (on_serialNumbers
       (fun _ => [mkSerialNumber "sn-row-1" (Some "p-1") "SN-001" "available" None None;
                  mkSerialNumber "sn-row-2" (Some "p-1") "SN-002" "available" None None])
       example_store).

Definition serial_item : SaleItemInput :=
  mkSaleItemInput "p-1" 1%Z 150 100 None (Some "SN-001").

Definition serial_sale : SaleBody :=
  mkSaleBody (Some "c-1") (Some [serial_item]) None None None None.

(** A supplier that is owed nothing, one product, and a purchase of ten
    units at 90 followed by five units at 80 of the same product. *)
Definition supplier_store : DB :=
  on_suppliers (fun _ => [mkSupplier "sup-1" "Parts Ltd" 0 None]) example_store.

Definition restock_items : list Purchases.ItemInput :=
  [ Purchases.mkItemInput "p-1" 10%Z 90 None None;
    Purchases.mkItemInput "p-1" 5%Z 80 None None ].

Definition restock_body : Purchases.Body :=
  Purchases.mkBody (Some "sup-1") (Some "PO-7") (Some restock_items) None.

(** That purchase, once created. *)
Definition owed_store : DB :=
  snd (Purchases.post 1700%Z "po-1" (Some manager) restock_body supplier_store).

(** A draft quotation for customer c-1, last touched at time 1000. *)
Definition quote_store : DB :=
  on_quotations
    (fun _ => [mkQuotation "q-1" "QUO-1000" (Some "c-1") 10 5 "draft" (Some 1000%Z)])
    (mkDB [] [] [mkProduct "p-1" "cpu" 100 150 10%Z None] []
       [mkCustomer "c-1" "Dana" 50 3%Z None None] [] [] [] [] [] []
       [mkQuoteItem "q-1" "p-1" None 2%Z 150; mkQuoteItem "q-1" "p-9" None 1%Z 20]
       []
       [mkPcBuild "b-1" "Gaming rig" (Some "c-1")
          (Some [mkComponent "p-1" 1%Z; mkComponent "p-9" 4%Z]) "draft"
          (Some 1000%Z)]).

(** A store with an active clerk and a deactivated account; in the examples
    the stored hash of a password is the password itself and the comparison
    is string equality. *)
Definition login_store : DB :=
  mkDB [ clerk;
         mkUser "u-3" "former@shop.test" "hash-3" "Former" "staff" (Some false) ]
    [] [] [] [] [] [] [] [] [] [] [] [] [].

(** A build request with one component the store holds and one it does not. *)
Definition build_request : PcBuildRoutes.Body :=
  PcBuildRoutes.mkBody "Office box" (Some "c-1")
    [mkComponent "p-1" 2%Z; mkComponent "p-9" 1%Z].

(** ** A shop with ids as the database prints them

    A cashier and a buyer, a supplier that is owed 100, a product with two
    serial-numbered units, a customer with 3 points who has spent 50, a
    converted quotation and a PC build. *)
Definition cashier_id : Id := "10000000-0000-4000-8000-000000000001".
Definition buyer_id : Id := "10000000-0000-4000-8000-000000000002".
Definition product_a : Id := "a0000000-0000-4000-8000-00000000000a".
Definition customer_c : Id := "c0000000-0000-4000-8000-00000000000c".
Definition supplier_f : Id := "f0000000-0000-4000-8000-00000000000f".
Definition quote_e : Id := "e0000000-0000-4000-8000-00000000000e".
Definition build_b : Id := "b0000000-0000-4000-8000-00000000000b".

(** Ids of rows the requests below create, and an id no row carries. *)
Definition sale_5 : Id := "50000000-0000-4000-8000-000000000005".
Definition purchase_7 : Id := "70000000-0000-4000-8000-000000000007".
Definition rma_1 : Id := "d0000000-0000-4000-8000-000000000001".
Definition nobody : Id := "99999999-0000-4000-8000-000000000009".

Definition cashier : User :=
  mkUser cashier_id "cashier@shop.test" "hash-c" "Cashier" "staff" (Some true).

Definition buyer : User :=
  mkUser buyer_id "buyer@shop.test" "hash-b" "Buyer" "manager" (Some true).

Definition shop : DB :=
  mkDB [cashier; buyer]
    [mkSupplier supplier_f "Parts Ltd" 100 None]
    [mkProduct product_a "cpu" 100 150 10%Z None]
    [mkSerialNumber "5e000000-0000-4000-8000-000000000001" (Some product_a)
       "SN-001" "available" None None;
     mkSerialNumber "5e000000-0000-4000-8000-000000000002" (Some product_a)
       "SN-002" "available" None None]
    [mkCustomer customer_c "Dana" 50 3%Z None None]
    [] [] [] [] []
    [mkQuotation quote_e "QUO-1000" (Some customer_c) 10 5 "converted" (Some 1000%Z)]
    [mkQuoteItem quote_e product_a None 2%Z 150]
    []
    [mkPcBuild build_b "Gaming rig" (Some customer_c)
       (Some [mkComponent product_a 1%Z]) "draft" (Some 1000%Z)].

(** A sale of the unit SN-001 to the customer, paid 150 in cash out of 200
    given, and the shop after it. *)
Definition unit_item : SaleItemInput :=
  mkSaleItemInput product_a 1%Z 150 100 None (Some "SN-001").

Definition unit_sale : SaleBody :=
  mkSaleBody (Some customer_c) (Some [unit_item]) None None
    (Some [mkPaymentInput "cash" 150 None (Some 200%float) (Some 50%float)])
    None.

Definition shop_after_sale : DB :=
  snd (Sales.post (ticking 1700) sale_5 (Some cashier) unit_sale shop).







(** Two sales for the customer (totals 150 and 300) and one walk-in sale. *)
Definition loyal_requests : list SaleRequest :=
  [ mkSaleRequest (ticking 1700) sale_5 cashier unit_sale;
    mkSaleRequest (ticking 1800) "50000000-0000-4000-8000-000000000006" cashier
      (mkSaleBody None (Some [mkSaleItemInput product_a 2%Z 150 100 None None])
         None None None None);
    mkSaleRequest (ticking 1900) "50000000-0000-4000-8000-000000000007" cashier
      (mkSaleBody (Some customer_c)
         (Some [mkSaleItemInput product_a 2%Z 150 100 None None])
         None None None None) ].

(** A purchase of ten units at 90 followed by five units at 80 from the
    supplier, and the shop after it. *)
Definition stock_items : list Purchases.ItemInput :=
  [ Purchases.mkItemInput product_a 10%Z 90 None None;
    Purchases.mkItemInput product_a 5%Z 80 None None ].

Definition stock_body : Purchases.Body :=
  Purchases.mkBody (Some supplier_f) (Some "PO-7") (Some stock_items) None.

Definition shop_after_purchase : DB :=
  snd (Purchases.post 1700%Z purchase_7 (Some buyer) stock_body shop).



(** A quotation request for the customer: two units at 149.995, a discount
    of 10 and no tax member. *)
Definition quote_items : list QuotationRoutes.ItemInput :=
  [ QuotationRoutes.mkItemInput product_a None 2%Z 149.995 ].

Definition quote_request : QuotationRoutes.Body :=
  QuotationRoutes.mkBody (Some customer_c) (Some quote_items) (Some 10%float) None
    None.

Definition quote_9 : Id := "e0000000-0000-4000-8000-000000000009".

(** An RMA for the unit SN-001 after its sale, already closed as
    'returned'. *)
Definition rma_shop : DB :=
  on_rmas (fun _ => [mkRma rma_1 (Some "SN-001") "returned" None None])
    shop_after_sale.


(** An RMA request for the unit SN-001 after its sale. *)
Definition rma_request : RmaCreate.Body :=
  RmaCreate.mkBody (Some customer_c) (Some sale_5) (Some product_a) (Some "SN-001")
    (Some "does not boot") None.

(** * Properties *)

(** ** Generic facts: row-wise updates, lookups *)

(** A fold of row-wise rewrites over a table is one row-wise rewrite. *)
Lemma fold_left_map_rows {A R : Type} (g : A -> R -> R) (xs : list A) (t : list R) :
  fold_left (fun t x => map (g x) t) xs t
  = map (fun r => fold_left (fun r x => g x r) xs r) t.
Proof.
  revert t; induction xs as [|x xs IH]; intros t; simpl.
  - symmetry; apply map_id.
  - rewrite IH, map_map. reflexivity.
Qed.

Lemma Forall2_map_self {A B : Type} (P : A -> B -> Prop) (f : A -> B) (t : list A) :
  (forall r, P r (f r)) -> Forall2 P t (map f t).
Proof. intros H; induction t; simpl; constructor; auto. Qed.

Lemma run_bind {A B : Type} (m : M A) (k : A -> M B) (d : DB) :
  bind m k d = k (fst (m d)) (snd (m d)).
Proof. unfold bind. destruct (m d); reflexivity. Qed.

(** The row [select().from(t).where(w).limit(1)] returns, if any. *)
Lemma limit1_select_find {R : Type} (w : R -> bool) (t : list R) :
  limit1 (select_where w t)
  = match find w t with Some r => [r] | None => [] end.
Proof.
  unfold limit1, select_where.
  induction t as [|r t IH]; cbn [filter find]; [reflexivity|].
  destruct (w r); [reflexivity | exact IH].
Qed.

Lemma hd_error_select_update {R : Type} (w : R -> bool) (f : R -> R)
    (t : list R) (r : R) :
  (forall x, w (f x) = w x) ->
  find w t = Some r ->
  hd_error (select_where w (update_where w f t)) = Some (f r).
Proof.
  intros Hw. unfold select_where, update_where.
  induction t as [|x t IH]; cbn [find map filter]; [discriminate|].
  destruct (w x) eqn:E.
  - intros [= ->]. rewrite Hw, E. reflexivity.
  - intros H. rewrite E. apply IH, H.
Qed.

Lemma find_none_select {R : Type} (w : R -> bool) (t : list R) :
  find w t = None -> select_where w t = [].
Proof.
  unfold select_where. induction t as [|r t IH]; cbn [find filter]; [reflexivity|].
  destruct (w r); [discriminate | exact IH].
Qed.

Lemma find_none_update {R : Type} (w : R -> bool) (f : R -> R) (t : list R) :
  find w t = None -> update_where w f t = t.
Proof.
  unfold update_where. induction t as [|r t IH]; cbn [find map]; [reflexivity|].
  destruct (w r); [discriminate|]. intros H. rewrite (IH H). reflexivity.
Qed.

Lemma find_update_same {R : Type} (w : R -> bool) (f : R -> R) (t : list R) (r : R) :
  (forall x, w (f x) = w x) ->
  find w t = Some r ->
  find w (update_where w f t) = Some (f r).
Proof.
  intros Hw. unfold update_where.
  induction t as [|x t IH]; cbn [find map]; [discriminate|].
  destruct (w x) eqn:E.
  - intros [= ->]. rewrite Hw, E. reflexivity.
  - intros H. rewrite E. apply IH, H.
Qed.

Lemma find_app_fresh {R : Type} (w : R -> bool) (t : list R) (r : R) :
  find w t = None -> w r = true -> find w (t ++ [r]) = Some r.
Proof.
  induction t as [|x t IH]; cbn [find app]; intros Hnone Hr.
  - rewrite Hr. reflexivity.
  - destruct (w x); [discriminate|]. apply IH; assumption.
Qed.

Lemma find_app_last {R : Type} (w : R -> bool) (t : list R) (r : R) :
  w r = true -> exists x, find w (t ++ [r]) = Some x.
Proof.
  intros Hr. induction t as [|y t IH]; cbn [find app].
  - rewrite Hr. eexists; reflexivity.
  - destruct (w y); [eexists; reflexivity | exact IH].
Qed.

Lemma find_delete_where {R : Type} (w : R -> bool) (t : list R) :
  find w (delete_where w t) = None.
Proof.
  unfold delete_where. induction t as [|r t IH]; cbn [filter find]; [reflexivity|].
  destruct (w r) eqn:E; cbn [negb find]; [exact IH|]. rewrite E. exact IH.
Qed.




Lemma truthy_nonempty s : s <> "" -> truthy (Some s) = true.
Proof. intros Hs. destruct s; [congruence | reflexivity]. Qed.

(** With unique product ids a lookup by id selects at most one product. *)
Lemma select_unique_product ps pid :
  NoDup (map product_id ps) ->
  select_where (fun p => String.eqb pid (product_id p)) ps
  = match find (fun p => String.eqb pid (product_id p)) ps with
    | Some p => [p]
    | None => []
    end.
Proof.
  unfold select_where. induction ps as [|p ps IH]; cbn [map filter find];
    [reflexivity|].
  intros Hnd. inversion Hnd as [|? ? Hnotin Hnd']; subst.
  destruct (String.eqb_spec pid (product_id p)) as [->|Hneq].
  - f_equal. clear IH Hnd Hnd'.
    induction ps as [|x xs IHx]; cbn [filter]; [reflexivity|].
    destruct (String.eqb_spec (product_id p) (product_id x)) as [E|_].
    + exfalso. apply Hnotin. left. symmetry. exact E.
    + apply IHx. intros Hin. apply Hnotin. right. exact Hin.
  - apply IH, Hnd'.
Qed.

(** ** Projections of a written store *)

Lemma rmas_on_rmas f d : rmas (on_rmas f d) = f (rmas d).
Proof. destruct d; reflexivity. Qed.

Lemma rmas_on_serialNumbers f d : rmas (on_serialNumbers f d) = rmas d.
Proof. destruct d; reflexivity. Qed.

Lemma serialNumbers_on_serialNumbers f d :
  serialNumbers (on_serialNumbers f d) = f (serialNumbers d).
Proof. destruct d; reflexivity. Qed.

Lemma serialNumbers_on_rmas f d : serialNumbers (on_rmas f d) = serialNumbers d.
Proof. destruct d; reflexivity. Qed.

Lemma quotations_on_quotations f d :
  quotations (on_quotations f d) = f (quotations d).
Proof. destruct d; reflexivity. Qed.

Lemma pcBuilds_on_pcBuilds f d : pcBuilds (on_pcBuilds f d) = f (pcBuilds d).
Proof. destruct d; reflexivity. Qed.

Lemma products_on_purchases f d : products (on_purchases f d) = products d.
Proof. destruct d; reflexivity. Qed.

Lemma products_on_products f d : products (on_products f d) = f (products d).
Proof. destruct d; reflexivity. Qed.

Lemma products_on_purchaseItems f d : products (on_purchaseItems f d) = products d.
Proof. destruct d; reflexivity. Qed.

Lemma purchases_on_purchases f d : purchases (on_purchases f d) = f (purchases d).
Proof. destruct d; reflexivity. Qed.

Lemma purchases_on_products f d : purchases (on_products f d) = purchases d.
Proof. destruct d; reflexivity. Qed.

Lemma purchases_on_purchaseItems f d :
  purchases (on_purchaseItems f d) = purchases d.
Proof. destruct d; reflexivity. Qed.

Lemma purchases_on_suppliers f d : purchases (on_suppliers f d) = purchases d.
Proof. destruct d; reflexivity. Qed.

Lemma suppliers_on_purchases f d : suppliers (on_purchases f d) = suppliers d.
Proof. destruct d; reflexivity. Qed.

Lemma suppliers_on_products f d : suppliers (on_products f d) = suppliers d.
Proof. destruct d; reflexivity. Qed.

Lemma suppliers_on_purchaseItems f d :
  suppliers (on_purchaseItems f d) = suppliers d.
Proof. destruct d; reflexivity. Qed.

Lemma suppliers_on_suppliers f d : suppliers (on_suppliers f d) = f (suppliers d).
Proof. destruct d; reflexivity. Qed.

Lemma customers_on_customers f d : customers (on_customers f d) = f (customers d).
Proof. destruct d; reflexivity. Qed.

Lemma users_on_users f d : users (Accounts.on_users f d) = f (users d).
Proof. destruct d; reflexivity. Qed.

Create Rewrite HintDb store.
#[global] Hint Rewrite
  rmas_on_rmas rmas_on_serialNumbers serialNumbers_on_serialNumbers
  serialNumbers_on_rmas quotations_on_quotations pcBuilds_on_pcBuilds
  products_on_purchases products_on_products products_on_purchaseItems
  purchases_on_purchases purchases_on_products purchases_on_purchaseItems
  purchases_on_suppliers suppliers_on_purchases suppliers_on_products
  suppliers_on_purchaseItems suppliers_on_suppliers customers_on_customers
  users_on_users
  : store.

(** Read a table off a store built by the [on_] writers. *)
Ltac read_store := autorewrite with store.

(** Run the leading steps of a handler on the store at hand. *)
Ltac run_steps := repeat rewrite run_bind; unfold query, exec, ret; cbn [fst snd].

(** ** Rounding to two decimals *)



Lemma Qfloor_nonneg (q : Q) : 0 <= q -> (0 <= Qfloor q)%Z.
Proof.
  intros H. change 0%Z with (Qfloor 0). apply Qfloor_resp_le, H.
Qed.

Lemma Qceiling_nonneg (q : Q) : 0 <= q -> (0 <= Qceiling q)%Z.
Proof.
  intros H. change 0%Z with (Qceiling 0). apply Qceiling_resp_le, H.
Qed.

Lemma decimal_12_2_comp (p q : Q) :
  p == q -> Column.decimal_12_2 p = Column.decimal_12_2 q.
Proof.
  intros H. unfold Column.decimal_12_2. apply Qred_complete.
  assert (Hr : Column.round_half_away (p * 100) = Column.round_half_away (q * 100)).
  { unfold Column.round_half_away.
    assert (Hb : Qle_bool 0 (p * 100) = Qle_bool 0 (q * 100)).
    { destruct (Qle_bool 0 (p * 100)) eqn:E1, (Qle_bool 0 (q * 100)) eqn:E2;
        try reflexivity.
      - apply Qle_bool_iff in E1. rewrite H in E1. apply Qle_bool_iff in E1.
        congruence.
      - apply Qle_bool_iff in E2. rewrite <- H in E2. apply Qle_bool_iff in E2.
        congruence. }
    rewrite Hb. destruct (Qle_bool 0 (q * 100)).
    - apply Qfloor_comp. rewrite H. reflexivity.
    - f_equal. apply Qfloor_comp. rewrite H. reflexivity. }
  rewrite Hr. reflexivity.
Qed.

Lemma decimal_12_2_value (q : Q) :
  0 <= q ->
  Column.decimal_12_2 q == inject_Z (Qfloor (q * 100 + (1 # 2))) / 100.
Proof.
  intros H. unfold Column.decimal_12_2, Column.round_half_away.
  assert (Hb : Qle_bool 0 (q * 100) = true).
  { apply Qle_bool_iff. apply Qmult_le_0_compat; [exact H | discriminate]. }
  rewrite Hb. apply Qred_correct.
Qed.

(** A non-negative amount is stored as a non-negative amount of two
    decimals. *)
Lemma decimal_12_2_cents (q : Q) : 0 <= q -> cents_amount (Column.decimal_12_2 q).
Proof.
  intros H. exists (Qfloor (q * 100 + (1 # 2))). split.
  - apply Qfloor_nonneg.
    apply (Qle_trans _ (q * 100 + 0)).
    + rewrite Qplus_0_r. apply Qmult_le_0_compat; [exact H | discriminate].
    + apply Qplus_le_r. discriminate.
  - apply decimal_12_2_value, H.
Qed.

Lemma cents_amount_nonneg (q : Q) : cents_amount q -> 0 <= q.
Proof.
  intros (n & Hn & ->). apply Qle_shift_div_l; [reflexivity|].
  rewrite Qmult_0_l. change 0 with (inject_Z 0). rewrite <- Zle_Qle. exact Hn.
Qed.


Lemma decimal_12_2_nonneg (q : Q) : 0 <= q -> 0 <= Column.decimal_12_2 q.
Proof. intros H. apply cents_amount_nonneg, decimal_12_2_cents, H. Qed.

(** ** Sale creation: the store after a completed sale *)

Lemma map_snd_indexed_from {A : Type} (l : list A) (start : nat) :
  map snd (combine (seq start (List.length l)) l) = l.
Proof.
  revert start. induction l as [|x l IH]; intros start; [reflexivity|].
  cbn. rewrite IH. reflexivity.
Qed.

Lemma map_snd_indexed {A : Type} (l : list A) : map snd (indexed l) = l.
Proof. apply map_snd_indexed_from. Qed.

Lemma sale_item_loop now saleId cust entries d :
  snd (forEach entries
         (fun entry =>
            Sales.item_step (now (Sales.item_reading (fst entry))) saleId cust
              (snd entry)) d)
  = on_saleItems (fun t => t ++ map (Sales.new_sale_item saleId) (map snd entries))
      (on_products (products_after_sale now entries)
         (on_serialNumbers (serials_after_sale saleId cust (map snd entries)) d)).
Proof.
  revert d; induction entries as [|[i item] entries IH]; intros d.
  - destruct d; simpl. rewrite app_nil_r. reflexivity.
  - cbn [forEach]. rewrite run_bind, IH. clear IH.
    unfold Sales.item_step, when, products_after_sale, serials_after_sale.
    destruct d; cbn [fold_left map fst snd].
    destruct (truthy (in_serialNumber item));
      cbn [bind exec ret fst snd on_saleItems on_products on_serialNumbers];
      rewrite <- app_assoc; reflexivity.
Qed.

Lemma payment_loop now saleId items entries d :
  snd (forEach entries
         (fun entry =>
            Sales.payment_step (now (Sales.payment_reading items (fst entry))) saleId
              (snd entry)) d)
  = on_payments
      (fun t =>
         t ++ map (fun entry =>
                     Sales.new_payment (now (Sales.payment_reading items (fst entry)))
                       saleId (snd entry))
                entries) d.
Proof.
  revert d; induction entries as [|[j p] entries IH]; intros d.
  - destruct d; simpl. rewrite app_nil_r. reflexivity.
  - cbn [forEach]. rewrite run_bind, IH. unfold Sales.payment_step.
    destruct d; cbn [exec snd fst on_payments map].
    rewrite <- app_assoc. reflexivity.
Qed.

(** A request from an authenticated user with at least one item answers 201
    with the inserted row and leaves [store_after_sale]. *)
Lemma post_sale_created now uuid u b item rest d :
  body_items b = Some (item :: rest) ->
  Sales.post now uuid (Some u) b d
  = (mkResponse 201 (JSale (Sales.new_sale_row now uuid u b (item :: rest))),
     store_after_sale now uuid u b (item :: rest) d).
Proof.
  intros Hitems. unfold Sales.post, requireAuth. rewrite Hitems.
  set (items := item :: rest).
  rewrite run_bind. rewrite run_bind.
  rewrite sale_item_loop, map_snd_indexed.
  rewrite run_bind.
  assert (Hpay : forall d0,
    snd ((match body_payments b with
          | Some (p :: ps) =>
              forEach (indexed (p :: ps))
                (fun entry =>
                   Sales.payment_step (now (Sales.payment_reading items (fst entry)))
                     (sale_id (Sales.new_sale_row now uuid u b items)) (snd entry))
          | _ => ret tt
          end) d0)
    = on_payments
        (fun t => t ++ payment_rows now uuid items (payments_of (body_payments b)))
        d0).
  { intros d0. unfold payment_rows.
    destruct (body_payments b) as [[|p ps]|]; cbn [payments_of].
    - destruct d0; cbn [ret snd on_payments map indexed combine]. 
      rewrite app_nil_r. reflexivity.
    - apply payment_loop.
    - destruct d0; cbn [ret snd on_payments map indexed combine].
      rewrite app_nil_r. reflexivity. }
  rewrite Hpay. rewrite run_bind.
  unfold store_after_sale, customers_after_sale, when.
  destruct d;
    cbn [exec ret fst snd on_sales on_saleItems on_products on_serialNumbers
         on_payments on_customers users suppliers products serialNumbers
         customers sales saleItems payments purchases purchaseItems quotations
         quoteItems rmas pcBuilds].
  destruct (truthy (body_customerId b));
    cbn [exec ret fst snd on_customers]; reflexivity.
Qed.

Example example_sale_outcome :
  let out := Sales.post (ticking 1700) "s-1" (Some clerk) example_sale example_store in
  status (fst out) = 201%nat
  /\ map product_stock (products (snd out)) = [8%Z]
  /\ map sale_total (sales (snd out)) = [300%Q]
  /\ map sale_profit (sales (snd out)) = [100%Q].
Proof. vm_compute. repeat split. Qed.




(** C3. A sale request whose item list is empty or absent is answered in the
    400 class (400 "Sale items are required" once authenticated) and leaves
    every table of the store as it was. *)
Theorem empty_sale_rejected now uuid user b d :
  body_items b = None \/ body_items b = Some [] ->
  let out := Sales.post now uuid user b d in
  (400 <= status (fst out) < 500)%nat
  /\ snd out = d
  /\ (forall u, user = Some u ->
        fst out = mkResponse 400 (JError "Sale items are required")).
Proof.
  intros Hitems out. subst out. unfold Sales.post, requireAuth.
  destruct user as [u|].
  - destruct Hitems as [-> | ->]; cbn [ret fst snd status];
      repeat split; try lia; auto.
  - cbn [ret fst snd status]. repeat split; try lia. intros u Hu; discriminate.
Qed.

Lemma empty_sale_rejected_witness :
  let out :=
    Sales.post (ticking 1700) "s-1" (Some clerk)
      (mkSaleBody (Some "c-1") (Some []) None None None None) example_store in
  (400 <= status (fst out) < 500)%nat
  /\ snd out = example_store
  /\ (forall u, Some clerk = Some u ->
        fst out = mkResponse 400 (JError "Sale items are required")).
Proof.
  apply (empty_sale_rejected (ticking 1700) "s-1" (Some clerk)
           (mkSaleBody (Some "c-1") (Some []) None None None None) example_store).
  right; reflexivity.
Defined.

(** C10. Every created sale row has status 'completed' and paymentStatus
    'paid', whatever the request's payments member is: absent, empty, or with
    amounts unrelated to the total. *)
Theorem sale_row_always_paid now uuid u b items d :
  body_items b = Some items ->
  items <> [] ->
  let out := Sales.post now uuid (Some u) b d in
  exists row,
    fst out = mkResponse 201 (JSale row)
    /\ sales (snd out) = sales d ++ [row]
    /\ sale_status row = "completed"
    /\ sale_paymentStatus row = "paid".
Proof.
  intros Hitems Hne out. subst out.
  destruct items as [|item rest]; [congruence|].
  rewrite (post_sale_created _ _ _ _ _ _ _ Hitems).
  exists (Sales.new_sale_row now uuid u b (item :: rest)).
  repeat split.
Qed.

Lemma sale_row_always_paid_witness :
  let out := Sales.post (ticking 1700) "s-1" (Some clerk) underpaid_sale example_store in
  exists row,
    fst out = mkResponse 201 (JSale row)
    /\ sales (snd out) = sales example_store ++ [row]
    /\ sale_status row = "completed"
    /\ sale_paymentStatus row = "paid".
Proof.
  apply (sale_row_always_paid (ticking 1700) "s-1" clerk underpaid_sale
           [mkSaleItemInput "p-1" 2%Z 150 100 None None] example_store).
  - reflexivity.
  - discriminate.
Defined.

Example underpaid_sale_recorded_paid :
  let out := Sales.post (ticking 1700) "s-1" (Some clerk) underpaid_sale example_store in
  map sale_total (sales (snd out)) = [300%Q]
  /\ map pay_amount (payments (snd out)) = [1%Q]
  /\ map sale_paymentStatus (sales (snd out)) = ["paid"].
Proof. vm_compute. repeat split. Qed.

(** ** Sale creation: stock and serial numbers *)

Lemma products_after_sale_rows now entries ps :
  products_after_sale now entries ps
  = map (fun p =>
           fold_left
             (fun p entry =>
                if String.eqb (product_id p) (in_productId (snd entry))
                then Sales.take_stock (now (Sales.item_reading (fst entry)))
                       (in_quantity (snd entry)) p
                else p)
             entries p) ps.
Proof.
  unfold products_after_sale, update_where.
  apply (fold_left_map_rows
           (fun (entry : nat * SaleItemInput) p =>
              if String.eqb (product_id p) (in_productId (snd entry))
              then Sales.take_stock (now (Sales.item_reading (fst entry)))
                     (in_quantity (snd entry)) p
              else p)).
Qed.

Lemma stock_row_after_sale (now : Clock) (entries : list (nat * SaleItemInput)) p :
  let p' :=
    fold_left
      (fun p entry =>
         if String.eqb (product_id p) (in_productId (snd entry))
         then Sales.take_stock (now (Sales.item_reading (fst entry)))
                (in_quantity (snd entry)) p
         else p)
      entries p in
  product_id p' = product_id p
  /\ product_stock p'
     = (product_stock p - sold_quantity (map snd entries) (product_id p))%Z
  /\ product_costPrice p' = product_costPrice p
  /\ product_sellingPrice p' = product_sellingPrice p.
Proof.
  revert p; induction entries as [|[i item] entries IH]; intros p;
    cbn [fold_left map fst snd].
  - unfold sold_quantity; cbn. repeat split. lia.
  - unfold sold_quantity. cbn [filter].
    destruct (String.eqb (product_id p) (in_productId item)) eqn:E.
    + specialize (IH (Sales.take_stock (now (Sales.item_reading i))
                        (in_quantity item) p)).
      cbn zeta in IH. destruct IH as (Hid & Hst & Hc & Hs).
      rewrite Hid, Hst, Hc, Hs. unfold sold_quantity, Zsum. cbn. repeat split. lia.
    + specialize (IH p). cbn zeta in IH. exact IH.
Qed.


Lemma serials_after_sale_rows saleId cust items sns :
  serials_after_sale saleId cust items sns
  = map (fun s => fold_left (fun s item => serial_row_step saleId cust item s) items s)
      sns.
Proof.
  unfold serials_after_sale.
  rewrite <- (fold_left_map_rows (serial_row_step saleId cust)).
  revert sns; induction items as [|item items IH]; intros sns; cbn [fold_left].
  - reflexivity.
  - rewrite <- IH. f_equal. unfold serial_row_step, update_where.
    destruct (truthy (in_serialNumber item)); cbn [andb].
    + reflexivity.
    + symmetry; apply map_id.
Qed.

Lemma serial_row_number saleId cust items s :
  sn_serialNumber
    (fold_left (fun s item => serial_row_step saleId cust item s) items s)
  = sn_serialNumber s.
Proof.
  revert s; induction items as [|item items IH]; intros s; cbn [fold_left].
  - reflexivity.
  - rewrite IH. unfold serial_row_step.
    destruct (truthy (in_serialNumber item) && _); reflexivity.
Qed.





Example serial_sale_outcome :
  let d' :=
    snd (Sales.post (ticking 1700) "s-1" (Some clerk) serial_sale serial_store) in
  map product_stock (products d') = [9%Z]
  /\ map (fun s => (sn_serialNumber s, sn_status s, sn_saleId s, sn_customerId s))
       (serialNumbers d')
     = [("SN-001", "sold", Some "s-1", Some "c-1");
        ("SN-002", "available", None, None)].
Proof. vm_compute. split; reflexivity. Qed.

(** Three units sold out of a stock of one: the sale completes and the stock
    is -2. *)
Example sale_oversells :
  let out :=
    Sales.post (ticking 1700) "s-1" (Some clerk)
      (mkSaleBody None (Some [mkSaleItemInput "p-1" 3%Z 150 100 None None])
         None None None None)
      (on_products (fun _ => [mkProduct "p-1" "cpu" 100 150 1%Z None]) empty_db) in
  status (fst out) = 201%nat
  /\ map product_stock (products (snd out)) = [(-2)%Z].
Proof. vm_compute. split; reflexivity. Qed.

(** ** The decimal text of a double *)

Lemma Qpower_pos_lt (a : Q) (z : Z) : 0 < a -> 0 < Qpower a z.
Proof. intros H. apply Qpower_0_lt, H. Qed.

Lemma pick_nonneg closed lo hi v n q :
  0 <= v -> 0 < hi -> JS.pick closed lo hi v n = Some q -> 0 <= q.
Proof.
  intros Hv Hhi. unfold JS.pick. cbv zeta.
  set (unit := Qpower 10 n).
  assert (Hu : 0 < unit) by (apply Qpower_pos_lt; reflexivity).
  set (kmax := if closed then Qfloor _ else _).
  set (kmin := if closed then Qceiling _ else _).
  destruct (kmax <? kmin)%Z; [discriminate|].
  set (near := match (_ ?= _)%Q with
               | Lt => Qfloor _
               | Gt => Qceiling _
               | Eq => if Z.even _ then Qfloor _ else Qceiling _
               end).
  intros [= <-].
  assert (Ht : 0 <= v / unit).
  { apply Qle_shift_div_l; [exact Hu|]. rewrite Qmult_0_l. exact Hv. }
  assert (Hnear : (0 <= near)%Z).
  { subst near. pose proof (Qfloor_nonneg _ Ht). pose proof (Qceiling_nonneg _ Ht).
    destruct (_ ?= _)%Q; [destruct (Z.even _)| |]; assumption. }
  assert (Hk : (0 <= Qfloor (hi / unit))%Z).
  { apply Qfloor_nonneg. apply Qle_shift_div_l; [exact Hu|].
    rewrite Qmult_0_l. apply Qlt_le_weak, Hhi. }
  assert (Hkmax : (0 <= kmax)%Z).
  { subst kmax. destruct closed; [exact Hk|].
    destruct (Qeq_bool _ hi) eqn:E; [|exact Hk].
    apply Qeq_bool_iff in E.
    assert (H0 : (0 < Qfloor (hi / unit))%Z); [|lia].
    rewrite Zlt_Qlt. 
    apply (Qmult_lt_r _ _ unit Hu). rewrite Qmult_0_l, E. exact Hhi. }
  apply Qmult_le_0_compat; [|apply Qlt_le_weak, Hu].
  change 0 with (inject_Z 0). rewrite <- Zle_Qle. lia.
Qed.

Lemma shortest_nonneg fuel closed lo hi v n :
  0 <= v -> 0 < hi -> 0 <= JS.shortest fuel closed lo hi v n.
Proof.
  intros Hv Hhi. revert n. induction fuel as [|fuel IH]; intros n; cbn [JS.shortest].
  - exact Hv.
  - destruct (JS.pick closed lo hi v n) as [q|] eqn:E.
    + apply (pick_nonneg _ _ _ _ _ _ Hv Hhi E).
    + apply IH.
Qed.

Lemma mantissa_value_pos (m : positive) (e : Z) : 0 < inject_Z (Zpos m) * Qpower 2 e.
Proof.
  apply Qmult_lt_0_compat; [reflexivity | apply Qpower_pos_lt; reflexivity].
Qed.

(** The text of a double that is not negative denotes a number that is not
    negative. *)
Lemma toString_value_nonneg (x : JS.Num) :
  0 <= JS.value x -> 0 <= JS.toString_value x.
Proof.
  unfold JS.value, JS.toString_value.
  destruct (Prim2SF x) as [s|s| |s m e]; try (intros _; discriminate).
  pose proof (mantissa_value_pos m e) as Hv.
  destruct s.
  - intros H. exfalso. 
    apply (Qlt_irrefl 0). eapply Qlt_le_trans; [exact Hv|].
    apply Qopp_le_compat in H. rewrite Qopp_involutive in H. exact H.
  - intros _. apply shortest_nonneg.
    + apply Qlt_le_weak, Hv.
    + apply (Qlt_le_trans _ (inject_Z (Zpos m) * Qpower 2 e + 0)).
      * rewrite Qplus_0_r. exact Hv.
      * apply Qplus_le_r. apply Qle_shift_div_l; [reflexivity|].
        rewrite Qmult_0_l. apply Qlt_le_weak, Qpower_pos_lt. reflexivity.
Qed.

Lemma of_Number_cents (x : JS.Num) : 0 <= JS.value x -> cents_amount (Column.of_Number x).
Proof. intros H. apply decimal_12_2_cents, toString_value_nonneg, H. Qed.

(** ** Sale creation: customer statistics *)


Lemma hundreds_of_Math_floor (t : JS.Num) : hundreds_of t (Math_floor (t / 100)%float).
Proof.
  split.
  - apply Qfloor_le.
  - pose proof (Qlt_floor (JS.value (t / 100)%float)) as H.
    rewrite inject_Z_plus in H. exact H.
Qed.








Example loyal_requests_outcome :
  map (fun c => (customer_totalSpent c, customer_loyaltyPoints c,
                 customer_lastPurchase c))
    (customers (serve_sales loyal_requests shop))
  = [(500%Q, 7%Z, Some 1903%Z)].
Proof. vm_compute. reflexivity. Qed.

(** ** Purchase creation *)

Lemma purchase_item_loop now purchaseId items d :
  snd (forEach items (Purchases.item_step now purchaseId) d)
  = on_purchaseItems
      (fun t => t ++ map (Purchases.new_purchase_item purchaseId) items)
      (on_products (products_after_purchase now items) d).
Proof.
  revert d; induction items as [|item items IH]; intros d.
  - destruct d; simpl. rewrite app_nil_r. reflexivity.
  - cbn [forEach]. rewrite run_bind, IH. clear IH.
    unfold Purchases.item_step, products_after_purchase.
    destruct d; cbn [bind exec fst snd on_purchaseItems on_products fold_left map].
    rewrite <- app_assoc. reflexivity.
Qed.

Lemma post_purchase_created now uuid u b item rest d :
  Purchases.body_items b = Some (item :: rest) ->
  includes ["admin"; "manager"] (user_role u) = true ->
  Purchases.post now uuid (Some u) b d
  = (mkResponse 201
       (JPurchase (Some (Purchases.new_purchase_row now uuid u b (item :: rest)))),
     on_purchaseItems
       (fun t => t ++ map (Purchases.new_purchase_item uuid) (item :: rest))
       (on_products (products_after_purchase now (item :: rest))
          (on_purchases
             (fun t => t ++ [Purchases.new_purchase_row now uuid u b (item :: rest)])
             d))).
Proof.
  intros Hitems Hrole. unfold Purchases.post, requireAuth, requireRole.
  rewrite Hrole, Hitems.
  rewrite run_bind, run_bind, purchase_item_loop. reflexivity.
Qed.







Example restock_outcome :
  let out := Purchases.post 1700%Z "po-1" (Some manager) restock_body supplier_store in
  map (fun p => (product_stock p, product_costPrice p)) (products (snd out))
  = [(25%Z, 80%Q)]
  /\ map purchase_total (purchases (snd out)) = [1300%Q].
Proof. vm_compute. split; reflexivity. Qed.

(** ** Purchases and the supplier's balance *)

Lemma post_purchase_suppliers now uuid user b d :
  suppliers (snd (Purchases.post now uuid user b d)) = suppliers d.
Proof.
  unfold Purchases.post, requireAuth, requireRole.
  destruct user as [u|]; [|reflexivity].
  destruct (includes _ _); [|reflexivity].
  destruct (Purchases.body_items b) as [[|item rest]|]; try reflexivity.
  rewrite run_bind, run_bind, purchase_item_loop. unfold exec, ret; cbn [snd].
  read_store. reflexivity.
Qed.

(** C7 (the code departs from it). Creating a purchase never writes the
    suppliers table: the purchase for supplier sup-1 below is created with a
    balance of 1300 on the purchase row while the supplier's balance stays 0;
    recording its payment through [PUT /api/purchases/:id] then takes the
    supplier's balance to -1300. *)
Theorem purchase_creation_skips_supplier :
  (forall now uuid user b d,
     suppliers (snd (Purchases.post now uuid user b d)) = suppliers d)
  /\ (let created :=
        Purchases.post 1700%Z "po-1" (Some manager) restock_body supplier_store in
      let paid :=
        Purchases.put 1800%Z (Some manager) "po-1"
          (Purchases.mkUpdate None (Some 1300%float) None) (snd created) in
      status (fst created) = 201%nat
      /\ map purchase_supplierId (purchases (snd created)) = [Some "sup-1"]
      /\ map purchase_balance (purchases (snd created)) = [1300%Q]
      /\ map supplier_balance (suppliers supplier_store) = [0%Q]
      /\ map supplier_balance (suppliers (snd created)) = [0%Q]
      /\ status (fst paid) = 200%nat
      /\ map (fun s => Qred (supplier_balance s)) (suppliers (snd paid))
         = [(-1300)%Q]).
Proof.
  split.
  - apply post_purchase_suppliers.
  - vm_compute. repeat split; reflexivity.
Qed.

(** ** RMA status updates *)

Lemma varchar_fits n s :
  (String.length s <= n)%nat -> Column.has_nul s = false -> Column.varchar n s = Some s.
Proof.
  intros Hlen Hnul. unfold Column.varchar. rewrite Hnul.
  apply Nat.leb_le in Hlen. rewrite Hlen. reflexivity.
Qed.

Lemma text_fits s : Column.has_nul s = false -> Column.text s = Some s.
Proof. intros Hnul. unfold Column.text. rewrite Hnul. reflexivity. Qed.

Lemma put_rma_found now u id key b held d rma0 :
  Column.uuid id = Some key ->
  find_rma key d = Some rma0 ->
  RmaRoutes.columns b = Some held ->
  RmaRoutes.put now (Some u) id b d
  = (mkResponse 200 (JRma (Some (RmaRoutes.apply_update now held rma0))),
     (if truthy (rma_serialNumber rma0)
      then on_serialNumbers
             (update_where
                (fun s => opt_eqb (rma_serialNumber rma0) (sn_serialNumber s))
                (RmaRoutes.set_status (RmaRoutes.serialStatus (RmaRoutes.upd_status b))))
      else fun d => d)
       (on_rmas
          (update_where (fun r => String.eqb (rma_id r) key)
             (RmaRoutes.apply_update now held)) d)).
Proof.
  intros Hkey Hfind Hheld. unfold find_rma in Hfind.
  unfold RmaRoutes.put, requireAuth. rewrite Hkey.
  rewrite run_bind. unfold query at 1. cbn [fst snd].
  rewrite limit1_select_find, Hfind, Hheld.
  run_steps. read_store.
  rewrite (hd_error_select_update _ _ _ rma0); [|reflexivity|exact Hfind].
  unfold when. destruct (truthy (rma_serialNumber rma0)); reflexivity.
Qed.

Lemma columns_accept b s :
  RmaRoutes.upd_status b = Some s ->
  (String.length s <= 50)%nat ->
  Column.has_nul s = false ->
  (forall n, RmaRoutes.upd_notes b = Some n -> Column.has_nul n = false) ->
  RmaRoutes.columns b = Some b.
Proof.
  intros Hs Hlen Hnul Hnotes. destruct b as [st notes]. cbn in Hs, Hnotes. subst st.
  unfold RmaRoutes.columns. cbn [RmaRoutes.upd_status RmaRoutes.upd_notes].
  rewrite (varchar_fits 50 s Hlen Hnul).
  destruct notes as [n|]; [|reflexivity].
  rewrite (text_fits n (Hnotes n eq_refl)). reflexivity.
Qed.




(** Transitions out of a terminal state and to a status outside the state
    machine are both accepted. *)
Example rma_any_status_accepted :
  let run s :=
    let out :=
      RmaRoutes.put 1900%Z (Some cashier) rma_1 (RmaRoutes.mkUpdate (Some s) None)
        rma_shop in
    (status (fst out), map rma_status (rmas (snd out)),
     map sn_status (serialNumbers (snd out))) in
  run "under_review" = (200%nat, ["under_review"], ["rma"; "available"])
  /\ run "rejected" = (200%nat, ["rejected"], ["sold"; "available"])
  /\ run "returned" = (200%nat, ["returned"], ["available"; "available"])
  /\ run "no such state" = (200%nat, ["no such state"], ["rma"; "available"]).
Proof. vm_compute. repeat split; reflexivity. Qed.

(** ** Convert-to-sale *)

Lemma collect_items_reads components d :
  snd (PcBuilder.collect_items components d) = d.
Proof.
  revert d; induction components as [|c cs IH]; intros d; cbn [PcBuilder.collect_items].
  - reflexivity.
  - rewrite run_bind. unfold query at 1. cbn [fst snd].
    rewrite run_bind, IH. reflexivity.
Qed.

Lemma convert_quotation_found now u id b d quote :
  find_quotation id d = Some quote ->
  Quotations.convert_to_sale now (Some u) id b d
  = (mkResponse 200
       (JConverted "Quotation converted to sale successfully"
          (Quotations.sale_data quote (Quotations.select_items id d) b)),
     on_quotations
       (update_where (fun q => String.eqb (quotation_id q) id)
          (Quotations.mark_converted now)) d).
Proof.
  intros Hfind. unfold find_quotation in Hfind.
  unfold Quotations.convert_to_sale, requireAuth.
  rewrite run_bind. unfold query at 1. cbn [fst snd].
  rewrite limit1_select_find, Hfind. reflexivity.
Qed.

Lemma convert_build_found now u id b d build :
  find_build id d = Some build ->
  PcBuilder.convert_to_sale now (Some u) id b d
  = (mkResponse 200
       (JConverted "PC build converted to sale successfully"
          (PcBuilder.sale_data build
             (fst (PcBuilder.collect_items
                     (match build_components build with
                      | Some cs => cs
                      | None => []
                      end) d)) b)),
     on_pcBuilds
       (update_where (fun p => String.eqb (build_id p) id)
          (PcBuilder.mark_purchased now)) d).
Proof.
  intros Hfind. unfold find_build in Hfind.
  unfold PcBuilder.convert_to_sale, requireAuth.
  rewrite run_bind. unfold query at 1. cbn [fst snd].
  rewrite limit1_select_find, Hfind.
  rewrite run_bind, collect_items_reads. reflexivity.
Qed.

(** C9 as stated fails: converting quotation q-1 at time 1700 also moves the
    row's updatedAt from 1000 to 1700, so the store differs from the one in
    which the status alone has changed. *)
Lemma convert_changes_more_than_status :
  let out :=
    Quotations.convert_to_sale 1700%Z (Some clerk) "q-1"
      (Quotations.mkConvertBody None None) quote_store in
  status (fst out) = 200%nat
  /\ snd out <> spec_convert_quotation "q-1" quote_store
  /\ map quotation_updatedAt (quotations quote_store) = [Some 1000%Z]
  /\ map quotation_updatedAt (quotations (snd out)) = [Some 1700%Z].
Proof.
  cbn zeta. split; [reflexivity|]. split; [|split; reflexivity].
  intros H. apply (f_equal quotations) in H. vm_compute in H. discriminate H.
Qed.

(** C9 (amended). Converting an existing quotation or PC build answers 200
    with the assembled sale payload and writes nothing but the source row:
    every other table, and every other row of the source table, is unchanged,
    and the source row changes in its status ('converted', resp. 'purchased')
    and its updatedAt timestamp only. *)
Theorem convert_to_sale_frame :
  (forall now u id b d quote,
     find_quotation id d = Some quote ->
     let out := Quotations.convert_to_sale now (Some u) id b d in
     fst out
     = mkResponse 200
         (JConverted "Quotation converted to sale successfully"
            (Quotations.sale_data quote (Quotations.select_items id d) b))
     /\ same_but_quotations d (snd out)
     /\ Forall2
          (fun q q' =>
             if String.eqb (quotation_id q) id
             then quotation_status q' = "converted"
                  /\ quotation_id q' = quotation_id q
                  /\ quotation_quoteNumber q' = quotation_quoteNumber q
                  /\ quotation_customerId q' = quotation_customerId q
                  /\ quotation_discount q' = quotation_discount q
                  /\ quotation_tax q' = quotation_tax q
                  /\ quotation_updatedAt q' = Some now
             else q' = q)
          (quotations d) (quotations (snd out)))
  /\ (forall now u id b d build,
        find_build id d = Some build ->
        let out := PcBuilder.convert_to_sale now (Some u) id b d in
        fst out
        = mkResponse 200
            (JConverted "PC build converted to sale successfully"
               (PcBuilder.sale_data build
                  (fst (PcBuilder.collect_items
                          (match build_components build with
                           | Some cs => cs
                           | None => []
                           end) d)) b))
        /\ same_but_pcBuilds d (snd out)
        /\ Forall2
             (fun p p' =>
                if String.eqb (build_id p) id
                then build_status p' = "purchased"
                     /\ build_id p' = build_id p
                     /\ build_name p' = build_name p
                     /\ build_customerId p' = build_customerId p
                     /\ build_components p' = build_components p
                     /\ build_updatedAt p' = Some now
                else p' = p)
             (pcBuilds d) (pcBuilds (snd out))).
Proof.
  split.
  - intros now u id b d quote Hfind out. subst out.
    rewrite (convert_quotation_found _ _ _ _ _ _ Hfind). cbn [fst snd].
    split; [reflexivity|]. split.
    + destruct d; repeat split.
    + read_store.
      apply Forall2_map_self. intros q.
      destruct (String.eqb (quotation_id q) id); repeat split.
  - intros now u id b d build Hfind out. subst out.
    rewrite (convert_build_found _ _ _ _ _ _ Hfind). cbn [fst snd].
    split; [reflexivity|]. split.
    + destruct d; repeat split.
    + read_store.
      apply Forall2_map_self. intros p.
      destruct (String.eqb (build_id p) id); repeat split.
Qed.

Lemma convert_to_sale_frame_witness :
  (let out :=
     Quotations.convert_to_sale 1700%Z (Some clerk) "q-1"
       (Quotations.mkConvertBody None None) quote_store in
   same_but_quotations quote_store (snd out)
   /\ map quotation_status (quotations (snd out)) = ["converted"])
  /\ (let out :=
        PcBuilder.convert_to_sale 1700%Z (Some clerk) "b-1"
          (PcBuilder.mkConvertBody None None None None) quote_store in
      same_but_pcBuilds quote_store (snd out)
      /\ map build_status (pcBuilds (snd out)) = ["purchased"]).
Proof.
  split.
  - split; [|reflexivity].
    apply (proj1 convert_to_sale_frame 1700%Z clerk "q-1"
             (Quotations.mkConvertBody None None) quote_store
             (mkQuotation "q-1" "QUO-1000" (Some "c-1") 10 5 "draft" (Some 1000%Z))).
    reflexivity.
  - split; [|reflexivity].
    apply (proj2 convert_to_sale_frame 1700%Z clerk "b-1"
             (PcBuilder.mkConvertBody None None None None) quote_store
             (mkPcBuild "b-1" "Gaming rig" (Some "c-1")
                (Some [mkComponent "p-1" 1%Z; mkComponent "p-9" 4%Z]) "draft"
                (Some 1000%Z))).
    reflexivity.
Defined.

(** The payload of the two conversions of [quote_store]: the quotation keeps
    the line for the unknown product p-9 at cost 0, the PC build drops it. *)
Example convert_payloads :
  json (fst (Quotations.convert_to_sale 1700%Z (Some clerk) "q-1"
               (Quotations.mkConvertBody None None) quote_store))
  = JConverted "Quotation converted to sale successfully"
      (mkSaleData (Some "c-1")
         [mkSaleDataItem "p-1" None 2%Z 150 100;
          mkSaleDataItem "p-9" None 1%Z 20 0]
         10 5 None "Converted from Quotation: QUO-1000")
  /\ json (fst (PcBuilder.convert_to_sale 1700%Z (Some clerk) "b-1"
                  (PcBuilder.mkConvertBody None None None None) quote_store))
     = JConverted "PC build converted to sale successfully"
         (mkSaleData (Some "c-1") [mkSaleDataItem "p-1" None 1%Z 150 100]
            0 0 None "Converted from PC Build: Gaming rig").
Proof. split; vm_compute; reflexivity. Qed.

(** ** Login failures *)

Lemma login_found compare email password d user0 :
  find_user email d = Some user0 ->
  Auth.login compare email password d
  = (Auth.login_callback
       (if negb (compare password (user_password user0))
        then Auth.DoneFail (Some "Invalid email or password")
        else if negb (Auth.is_active user0)
             then Auth.DoneFail (Some "Account is deactivated")
             else Auth.DoneUser user0),
     d).
Proof.
  intros Hfind. unfold find_user in Hfind.
  unfold Auth.login, Auth.verify, bind, query, ret.
  rewrite limit1_select_find, Hfind.
  destruct (negb (compare password (user_password user0))); [reflexivity|].
  destruct (negb (Auth.is_active user0)); reflexivity.
Qed.

Lemma authenticate_both compare email password d :
  email <> "" -> password <> "" ->
  Auth.authenticate compare (Auth.mkCredentials (Some email) (Some password)) d
  = Auth.login compare email password d.
Proof.
  intros He Hp. unfold Auth.authenticate. cbn [Auth.cred_email Auth.cred_password].
  rewrite (truthy_nonempty _ He), (truthy_nonempty _ Hp). reflexivity.
Qed.

(** C6 as stated fails: an unknown email and a deactivated account presented
    with its own password are both refused with 401, with different
    messages; a request without a password is refused with a third. *)
Lemma login_failures_distinguishable :
  let attempt email password :=
    Auth.authenticate String.eqb (Auth.mkCredentials (Some email) password)
      login_store in
  let unknown := attempt "nobody@shop.test" (Some "hash-3") in
  let inactive := attempt "former@shop.test" (Some "hash-3") in
  let missing := attempt "former@shop.test" None in
  status (fst unknown) = 401%nat
  /\ status (fst inactive) = 401%nat
  /\ status (fst missing) = 401%nat
  /\ json (fst unknown) = JError "Invalid email or password"
  /\ json (fst inactive) = JError "Account is deactivated"
  /\ json (fst missing) = JError "Missing credentials"
  /\ json (fst unknown) <> json (fst inactive).
Proof.
  cbn zeta. repeat split. vm_compute. discriminate.
Qed.

(** C6 (amended). A login refused because the email is unknown or because
    the password does not match answers 401 with the one message "Invalid
    email or password", whether or not the account is active; a login refused
    because the account is inactive, the password being right, answers 401
    with the different message "Account is deactivated"; a login without an
    email or without a password (absent or empty) answers 401 with the
    message "Missing credentials".  No refusal writes the store.  (The email
    is a text the database accepts: it holds no NUL character.) *)
Theorem login_failure_messages :
  (forall compare c d,
     truthy (Auth.cred_email c) = false \/ truthy (Auth.cred_password c) = false ->
     Auth.authenticate compare c d
     = (mkResponse 401 (JError "Missing credentials"), d))
  /\ (forall compare email password d,
        email <> "" -> password <> "" -> Column.has_nul email = false ->
        find_user email d = None ->
        Auth.authenticate compare (Auth.mkCredentials (Some email) (Some password)) d
        = (mkResponse 401 (JError "Invalid email or password"), d))
  /\ (forall compare email password d user0,
        email <> "" -> password <> "" -> Column.has_nul email = false ->
        find_user email d = Some user0 ->
        compare password (user_password user0) = false ->
        Auth.authenticate compare (Auth.mkCredentials (Some email) (Some password)) d
        = (mkResponse 401 (JError "Invalid email or password"), d))
  /\ (forall compare email password d user0,
        email <> "" -> password <> "" -> Column.has_nul email = false ->
        find_user email d = Some user0 ->
        compare password (user_password user0) = true ->
        Auth.is_active user0 = false ->
        Auth.authenticate compare (Auth.mkCredentials (Some email) (Some password)) d
        = (mkResponse 401 (JError "Account is deactivated"), d)).
Proof.
  split; [|split; [|split]].
  - intros compare c d H. unfold Auth.authenticate.
    destruct (Auth.cred_email c) as [email|]; [|reflexivity].
    destruct (Auth.cred_password c) as [password|]; [|reflexivity].
    destruct H as [-> | ->]; [reflexivity|].
    rewrite andb_false_r. reflexivity.
  - intros compare email password d He Hp _ Hfind.
    rewrite (authenticate_both _ _ _ _ He Hp). unfold find_user in Hfind.
    unfold Auth.login, Auth.verify, bind, query, ret.
    rewrite limit1_select_find, Hfind. reflexivity.
  - intros compare email password d user0 He Hp _ Hfind Hcmp.
    rewrite (authenticate_both _ _ _ _ He Hp), (login_found _ _ _ _ _ Hfind), Hcmp.
    reflexivity.
  - intros compare email password d user0 He Hp _ Hfind Hcmp Hact.
    rewrite (authenticate_both _ _ _ _ He Hp), (login_found _ _ _ _ _ Hfind), Hcmp,
      Hact.
    reflexivity.
Qed.

Lemma login_failure_messages_witness :
  let attempt email password :=
    Auth.authenticate String.eqb (Auth.mkCredentials email password) login_store in
  attempt (Some "former@shop.test") (Some "")
  = (mkResponse 401 (JError "Missing credentials"), login_store)
  /\ attempt (Some "nobody@shop.test") (Some "hash-3")
     = (mkResponse 401 (JError "Invalid email or password"), login_store)
  /\ attempt (Some "former@shop.test") (Some "guess")
     = (mkResponse 401 (JError "Invalid email or password"), login_store)
  /\ attempt (Some "former@shop.test") (Some "hash-3")
     = (mkResponse 401 (JError "Account is deactivated"), login_store).
Proof.
  cbn zeta. split; [|split; [|split]].
  - apply (proj1 login_failure_messages String.eqb
             (Auth.mkCredentials (Some "former@shop.test") (Some "")) login_store).
    right. reflexivity.
  - apply (proj1 (proj2 login_failure_messages) String.eqb "nobody@shop.test"
             "hash-3" login_store).
    + discriminate.
    + discriminate.
    + reflexivity.
    + reflexivity.
  - apply (proj1 (proj2 (proj2 login_failure_messages)) String.eqb
             "former@shop.test" "guess" login_store
             (mkUser "u-3" "former@shop.test" "hash-3" "Former" "staff" (Some false))).
    + discriminate.
    + discriminate.
    + reflexivity.
    + reflexivity.
    + reflexivity.
  - apply (proj2 (proj2 (proj2 login_failure_messages)) String.eqb
             "former@shop.test" "hash-3" login_store
             (mkUser "u-3" "former@shop.test" "hash-3" "Former" "staff" (Some false))).
    + discriminate.
    + discriminate.
    + reflexivity.
    + reflexivity.
    + reflexivity.
    + reflexivity.
Defined.

Example login_succeeds :
  fst (Auth.authenticate String.eqb
         (Auth.mkCredentials (Some "clerk@shop.test") (Some "hash-1")) login_store)
  = mkResponse 200 (JUser (userWithoutPassword clerk)).
Proof. vm_compute. reflexivity. Qed.

(** ** Signs of doubles *)

Lemma shr_1_nonneg mrs : (0 <= shr_m mrs)%Z -> (0 <= shr_m (shr_1 mrs))%Z.
Proof.
  destruct mrs as [m r s]. cbn [shr_m].
  destruct m as [|[p|p|]|p]; cbn; lia.
Qed.

Lemma iter_pos_nonneg n mrs :
  (0 <= shr_m mrs)%Z -> (0 <= shr_m (iter_pos shr_1 n mrs))%Z.
Proof.
  revert mrs. induction n as [n IH|n IH|]; intros mrs H; cbn [iter_pos].
  - apply IH, IH, shr_1_nonneg, H.
  - apply IH, IH, H.
  - apply shr_1_nonneg, H.
Qed.

Lemma shr_fexp_nonneg m e l :
  (0 <= m)%Z -> (0 <= shr_m (fst (shr_fexp prec emax m e l)))%Z.
Proof.
  intros H. unfold shr_fexp, shr.
  assert (H0 : (0 <= shr_m (shr_record_of_loc m l))%Z).
  { destruct l as [|[]]; exact H. }
  destruct (_ - e)%Z; cbn [fst]; try exact H0.
  apply iter_pos_nonneg, H0.
Qed.

Lemma round_nearest_even_nonneg m l :
  (0 <= m)%Z -> (0 <= round_nearest_even m l)%Z.
Proof.
  intros H. destruct l as [|[]]; cbn; try lia. destruct (Z.even m); lia.
Qed.

Lemma binary_round_aux_signed sx mx ex lx :
  (0 <= mx)%Z -> signed sx (binary_round_aux prec emax sx mx ex lx).
Proof.
  intros H. unfold binary_round_aux.
  pose proof (shr_fexp_nonneg mx ex lx H) as H1.
  destruct (shr_fexp prec emax mx ex lx) as [mrs' e'] eqn:E1. cbn [fst] in H1.
  pose proof (shr_fexp_nonneg _ e' loc_Exact
                (round_nearest_even_nonneg _ (loc_of_shr_record mrs') H1)) as H2.
  destruct (shr_fexp prec emax _ e' loc_Exact) as [mrs'' e''] eqn:E2. cbn [fst] in H2.
  destruct (shr_m mrs'') as [|p|p]; cbn.
  - reflexivity.
  - destruct (Z.leb _ _); reflexivity.
  - lia.
Qed.

(** Rounding a number that is not negative gives a double that is not
    negative. *)
Lemma binary_normalize_signed m e :
  (0 <= m)%Z -> signed false (binary_normalize prec emax m e false).
Proof.
  intros H. destruct m as [|p|p]; cbn [binary_normalize]; [reflexivity| |lia].
  unfold binary_round. destruct (shl_align _ _ _) as [mz ez].
  apply binary_round_aux_signed. lia.
Qed.

Lemma SFdiv_signed x y :
  signed false x ->
  (exists m e, y = S754_finite false m e) ->
  signed false (SFdiv prec emax x y).
Proof.
  intros Hx (my & ey & ->).
  destruct x as [s|s| |s mx ex]; cbn in Hx; try contradiction; subst s; cbn [SFdiv xorb].
  - reflexivity.
  - reflexivity.
  - unfold SFdiv_core_binary.
    set (m' := match _ with Z0 => _ | Zpos _ => _ | Zneg _ => _ end).
    assert (Hm' : (0 <= m')%Z).
    { subst m'. destruct (_ - _ - _)%Z; try lia. apply Z.shiftl_nonneg. lia. }
    pose proof (Z.div_eucl_eq m' (Zpos my)) as Hq.
    pose proof (Z_div_mod m' (Zpos my) eq_refl) as Hd.
    destruct (Z.div_eucl m' (Zpos my)) as [q r].
    apply binary_round_aux_signed.
    destruct Hd as [Hd1 Hd2]. nia.
Qed.

Lemma of_uint63_div_signed n : signed false (Prim2SF (of_uint63 n / 100)).
Proof.
  rewrite FloatAxioms.div_spec, FloatAxioms.of_uint63_spec.
  apply SFdiv_signed.
  - apply binary_normalize_signed. pose proof (Uint63.to_Z_bounded n). lia.
  - eexists _, _. vm_compute. reflexivity.
Qed.

Lemma Prim2SF_zero : Prim2SF 0 = S754_zero false.
Proof. reflexivity. Qed.

(** [Number(column)] of an amount that is not positive is not positive. *)
Lemma to_Number_not_positive (q : Q) :
  q <= 0 -> not_positive (Prim2SF (Column.to_Number q)) = true.
Proof.
  intros Hq. unfold Column.to_Number.
  assert (Hf : (Qfloor (q * 100) <= 0)%Z).
  { change 0%Z with (Qfloor 0). apply Qfloor_resp_le.
    rewrite <- (Qmult_0_l 100). apply Qmult_le_compat_r; [exact Hq | discriminate]. }
  destruct (Qfloor (q * 100)) as [|n|n]; [reflexivity | lia |].
  rewrite FloatAxioms.opp_spec.
  pose proof (of_uint63_div_signed (Uint63.of_Z (Zpos n))) as H.
  destruct (Prim2SF _) as [s|s| |s m e]; cbn in H; try contradiction; subst s;
    reflexivity.
Qed.

(** [0 < x] on doubles. *)
Lemma zero_ltb (a : JS.Num) : (0 <? a)%float = is_positive (Prim2SF a).
Proof.
  rewrite FloatAxioms.ltb_spec, Prim2SF_zero.
  destruct (Prim2SF a) as [[]|[]| |[] m e]; reflexivity.
Qed.

(** [!amount || amount <= 0] holds of every double but the positive ones. *)
Lemma payment_guard (a : JS.Num) :
  negb (JS.truthy (Some a)) || (a <=? 0)%float = negb (0 <? a)%float.
Proof.
  rewrite zero_ltb. unfold JS.truthy, is_nan.
  rewrite !FloatAxioms.eqb_spec, FloatAxioms.leb_spec, Prim2SF_zero.
  destruct (Prim2SF a) as [[]|[]| |[] m e]; try reflexivity.
  - unfold SFeqb, SFleb; cbn [SFcompare].
    rewrite Z.compare_refl, Pos.compare_cont_refl. reflexivity.
  - unfold SFeqb, SFleb; cbn [SFcompare].
    rewrite Z.compare_refl, Pos.compare_cont_refl. reflexivity.
Qed.

Lemma ltb_of_signs (c a : JS.Num) :
  not_positive (Prim2SF c) = true -> is_positive (Prim2SF a) = true ->
  (c <? a)%float = true.
Proof.
  rewrite FloatAxioms.ltb_spec.
  destruct (Prim2SF c) as [[]|[]| |[] mc ec]; try discriminate;
    destruct (Prim2SF a) as [[]|[]| |[] m e]; try discriminate; reflexivity.
Qed.

Lemma digits2_pos_bounds (m : positive) :
  (2 ^ (Zpos (digits2_pos m) - 1) <= Zpos m < 2 ^ Zpos (digits2_pos m))%Z.
Proof.
  induction m as [m IH|m IH|]; cbn [digits2_pos].
  - rewrite Pos2Z.inj_succ.
    replace (Z.succ (Zpos (digits2_pos m)) - 1)%Z
      with (Z.succ (Zpos (digits2_pos m) - 1)) by lia.
    rewrite !Z.pow_succ_r by lia. lia.
  - rewrite Pos2Z.inj_succ.
    replace (Z.succ (Zpos (digits2_pos m)) - 1)%Z
      with (Z.succ (Zpos (digits2_pos m) - 1)) by lia.
    rewrite !Z.pow_succ_r by lia. lia.
  - cbn. lia.
Qed.

(** Of two decoded doubles the one with the greater exponent has the greater
    aligned mantissa. *)
Lemma aligned_mantissas mx ex my ey :
  bounded prec emax mx ex = true -> bounded prec emax my ey = true ->
  (ey < ex)%Z ->
  (Zpos my <= Zpos (fst (shl_align mx ex ey)))%Z.
Proof.
  unfold bounded, canonical_mantissa, fexp, SpecFloat.emin.
  intros Hx Hy Hlt.
  apply andb_prop in Hx. destruct Hx as [Hx _].
  apply andb_prop in Hy. destruct Hy as [Hy _].
  apply Z.eqb_eq in Hx. apply Z.eqb_eq in Hy.
  change prec with 53%Z in *. change emax with 1024%Z in *.
  pose proof (digits2_pos_bounds mx) as [Bx _].
  pose proof (digits2_pos_bounds my) as [_ By].
  assert (Dx : Zpos (digits2_pos mx) = 53%Z) by lia.
  assert (Dy : (Zpos (digits2_pos my) <= 53)%Z) by lia.
  rewrite Dx in Bx.
  assert (By' : (Zpos my < 2 ^ 53)%Z).
  { eapply Z.lt_le_trans; [exact By|]. apply Z.pow_le_mono_r; lia. }
  unfold shl_align. destruct (ey - ex)%Z as [|d|d] eqn:E; try lia.
  cbn [fst]. change (Pos.iter xO mx d) with (shift_pos d mx).
  rewrite shift_pos_correct, Zpower_pos_nat, Zpower_nat_Z.
  assert (Hd : (2 ^ 1 <= 2 ^ Z.of_nat (Pos.to_nat d))%Z)
    by (apply Z.pow_le_mono_r; lia).
  change (2 ^ (53 - 1))%Z with 4503599627370496%Z in Bx.
  change (2 ^ 53)%Z with 9007199254740992%Z in By'.
  change (2 ^ 1)%Z with 2%Z in Hd.
  nia.
Qed.

(** [x - y] is not negative when [y] is positive and [x < y] is false. *)
Lemma sub_not_less (x y : JS.Num) :
  is_positive (Prim2SF y) = true -> (x <? y)%float = false ->
  0 <= JS.value (x - y)%float.
Proof.
  rewrite FloatAxioms.ltb_spec. unfold JS.value.
  rewrite FloatAxioms.sub_spec. unfold SF64sub.
  pose proof (FloatAxioms.Prim2SF_valid x) as Vx.
  pose proof (FloatAxioms.Prim2SF_valid y) as Vy.
  destruct (Prim2SF y) as [[]|[]| |[] my ey]; try discriminate; intros _.
  - destruct (Prim2SF x) as [[]|[]| |[] mx ex]; intros _; apply Qle_refl.
  - destruct (Prim2SF x) as [sx|sx| |sx mx ex]; intros Hcmp.
    + destruct sx; discriminate Hcmp.
    + destruct sx; [discriminate Hcmp | apply Qle_refl].
    + apply Qle_refl.
    + destruct sx; [discriminate Hcmp|].
      unfold SFltb in Hcmp; cbn [SFcompare] in Hcmp. cbn [SFsub cond_Zopp].
      cbn [SpecFloat.valid_binary] in Vx, Vy.
      set (ez := Z.min ex ey).
      assert (Hm : (0 <= Zpos (fst (shl_align mx ex ez))
                         - Zpos (fst (shl_align my ey ez)))%Z).
      { subst ez. destruct (ex ?= ey)%Z eqn:E; [| discriminate |].
        - apply Z.compare_eq in E. subst ey. rewrite Z.min_id.
          unfold shl_align. rewrite Z.sub_diag. cbn [fst].
          destruct (Pos.compare_cont Eq mx my) eqn:C; try discriminate.
          + apply Pos.compare_eq in C. subst. lia.
          + change (Pos.compare_cont Eq mx my) with (Pos.compare mx my) in C.
            apply Pos.compare_gt_iff in C. lia.
        - apply Z.compare_gt_iff in E. rewrite Z.min_r by lia.
          pose proof (aligned_mantissas mx ex my ey Vx Vy E) as H.
          unfold shl_align at 2. rewrite Z.sub_diag. cbn [fst]. lia. }
      pose proof (binary_normalize_signed _ ez Hm) as Hs.
      destruct (binary_normalize _ _ _ _ _) as [s|s| |s m e]; cbn in Hs;
        try discriminate.
      subst s. apply Qlt_le_weak, mantissa_value_pos.
Qed.

(** * Further properties *)

(** ** Sale creation: what it leaves alone, and the child rows *)

(** X1. Whatever it answers, POST /api/sales never writes the users,
    suppliers, purchases, purchase items, quotations, quote items, RMAs or PC
    builds; it only appends to sales, sale items and payments; and it neither
    adds, removes nor renames a product, serial or customer row. *)
Theorem sale_post_frame now uuid user b d :
  let d' := snd (Sales.post now uuid user b d) in
  (users d' = users d /\ suppliers d' = suppliers d
   /\ purchases d' = purchases d /\ purchaseItems d' = purchaseItems d
   /\ quotations d' = quotations d /\ quoteItems d' = quoteItems d
   /\ rmas d' = rmas d /\ pcBuilds d' = pcBuilds d)
  /\ (exists new, sales d' = sales d ++ new)
  /\ (exists new, saleItems d' = saleItems d ++ new)
  /\ (exists new, payments d' = payments d ++ new)
  /\ map product_id (products d') = map product_id (products d)
  /\ map sn_serialNumber (serialNumbers d') = map sn_serialNumber (serialNumbers d)
  /\ map customer_id (customers d') = map customer_id (customers d).
Proof.
  cbn zeta.
  assert (Hsame : forall r : Response,
    let d' := snd (r, d) in
    (users d' = users d /\ suppliers d' = suppliers d
     /\ purchases d' = purchases d /\ purchaseItems d' = purchaseItems d
     /\ quotations d' = quotations d /\ quoteItems d' = quoteItems d
     /\ rmas d' = rmas d /\ pcBuilds d' = pcBuilds d)
    /\ (exists new, sales d' = sales d ++ new)
    /\ (exists new, saleItems d' = saleItems d ++ new)
    /\ (exists new, payments d' = payments d ++ new)
    /\ map product_id (products d') = map product_id (products d)
    /\ map sn_serialNumber (serialNumbers d') = map sn_serialNumber (serialNumbers d)
    /\ map customer_id (customers d') = map customer_id (customers d)).
  { intros r. cbn. repeat split; try (exists []; rewrite app_nil_r; reflexivity). }
  destruct user as [u|]; [|apply Hsame].
  destruct (body_items b) as [[|item rest]|] eqn:Hitems.
  - unfold Sales.post, requireAuth. rewrite Hitems. apply Hsame.
  - rewrite (post_sale_created _ _ _ _ _ _ _ Hitems).
    cbn [snd store_after_sale users suppliers purchases purchaseItems quotations
         quoteItems rmas pcBuilds sales saleItems payments products
         serialNumbers customers].
    repeat split; try (eexists; reflexivity).
    + rewrite products_after_sale_rows, map_map. apply map_ext. intros p.
      apply (stock_row_after_sale now (indexed (item :: rest)) p).
    + rewrite serials_after_sale_rows, map_map. apply map_ext. intros s.
      apply serial_row_number.
    + unfold customers_after_sale, update_where.
      destruct (truthy (body_customerId b)); [|reflexivity].
      rewrite map_map. apply map_ext. intros c.
      destruct (opt_eqb (body_customerId b) (customer_id c)); reflexivity.
  - unfold Sales.post, requireAuth. rewrite Hitems. apply Hsame.
Qed.




(** ** Purchases: child rows, payment recording *)



Lemma on_suppliers_rows (g : Supplier -> Supplier) d :
  (forall s, In s (suppliers d) -> g s = s) -> on_suppliers (map g) d = d.
Proof.
  intros H. destruct d; cbn in *. f_equal.
  induction suppliers0 as [|s t IH]; cbn; [reflexivity|].
  rewrite H by (left; reflexivity). f_equal. apply IH. intros x Hx. apply H. right; exact Hx.
Qed.

Lemma put_purchase_found now u id b d old :
  includes ["admin"; "manager"] (user_role u) = true ->
  find_purchase id d = Some old ->
  Purchases.put now (Some u) id b d
  = (mkResponse 200 (JPurchase (Some (Purchases.apply_update b old old))),
     on_suppliers (map (supplier_pay_row now b old))
       (on_purchases
          (update_where (fun p => String.eqb (purchase_id p) id)
             (Purchases.apply_update b old)) d)).
Proof.
  intros Hrole Hfind. unfold find_purchase in Hfind.
  unfold Purchases.put, requireAuth, requireRole. rewrite Hrole.
  rewrite run_bind. unfold query at 1. cbn [fst snd].
  rewrite limit1_select_find, Hfind.
  run_steps. read_store.
  rewrite (hd_error_select_update _ _ _ old); [|reflexivity|exact Hfind].
  f_equal. unfold supplier_pay_row, paid_increase, when.
  destruct (Purchases.upd_paid b) as [paid|].
  - destruct (negb (paid - Column.to_Number (purchase_paid old) =? 0)%float);
      cbn [andb fst snd].
    + reflexivity.
    + symmetry. apply on_suppliers_rows. reflexivity.
  - cbn [snd]. symmetry. apply on_suppliers_rows. reflexivity.
Qed.

(** X4. A PUT /api/purchases/:id with a finite paid = p on an existing
    purchase that is answered 200 has written, rounded to two decimals from
    their decimal texts, paid := p and balance := the double Number(total) -
    p on the purchase, with no check that p stays within the total.  When
    the double increase p - Number(previous paid) is not 0, the balance of
    the purchase's supplier has become its old balance less the decimal text
    of that increase, rounded to two decimals; otherwise no supplier row is
    written.  Every other purchase and supplier row is unchanged. *)
Theorem purchase_payment_recorded now u id b p d old row :
  includes ["admin"; "manager"] (user_role u) = true ->
  find_purchase id d = Some old ->
  Purchases.upd_paid b = Some p ->
  JS.is_finite p = true ->
  let out := Purchases.put now (Some u) id b d in
  let increase := (p - Column.to_Number (purchase_paid old))%float in
  fst out = mkResponse 200 (JPurchase (Some row)) ->
  (purchase_paid row = Column.of_Number p
   /\ purchase_balance row
      = Column.of_Number (Column.to_Number (purchase_total old) - p)%float)
  /\ Forall2
       (fun r r' =>
          if String.eqb (purchase_id r) id
          then purchase_paid r' = Column.of_Number p
               /\ purchase_balance r'
                  = Column.of_Number (Column.to_Number (purchase_total old) - p)%float
               /\ purchase_total r' = purchase_total r
               /\ purchase_supplierId r' = purchase_supplierId r
          else r' = r)
       (purchases d) (purchases (snd out))
  /\ Forall2
       (fun s s' =>
          if opt_eqb (purchase_supplierId old) (supplier_id s)
             && negb (increase =? 0)%float
          then supplier_id s' = supplier_id s
               /\ supplier_name s' = supplier_name s
               /\ supplier_balance s'
                  = Column.decimal_12_2
                      (supplier_balance s - JS.toString_value increase)
          else s' = s)
       (suppliers d) (suppliers (snd out)).
Proof.
  intros Hrole Hfind Hp _ out increase. subst out increase.
  rewrite (put_purchase_found _ _ _ _ _ _ Hrole Hfind). cbn [fst snd].
  intros [= <-]. split; [|split].
  - unfold Purchases.apply_update; cbn. rewrite Hp. split; reflexivity.
  - read_store.
    apply Forall2_map_self. intros r.
    destruct (String.eqb (purchase_id r) id); [|reflexivity].
    unfold Purchases.apply_update; cbn. rewrite Hp. repeat split.
  - read_store.
    apply Forall2_map_self. intros s.
    unfold supplier_pay_row, paid_increase. rewrite Hp.
    rewrite andb_comm.
    destruct (negb (_ =? 0)%float && opt_eqb _ _); repeat split.
Qed.

Lemma purchase_payment_recorded_witness :
  let b := Purchases.mkUpdate None (Some 500.005%float) None in
  let old := Purchases.new_purchase_row 1700%Z purchase_7 buyer stock_body stock_items in
  let out := Purchases.put 1800%Z (Some buyer) purchase_7 b shop_after_purchase in
  let increase := (500.005 - Column.to_Number (purchase_paid old))%float in
  ((purchase_paid (Purchases.apply_update b old old) = Column.of_Number 500.005
    /\ purchase_balance (Purchases.apply_update b old old)
       = Column.of_Number (Column.to_Number (purchase_total old) - 500.005)%float)
   /\ Forall2
        (fun r r' =>
           if String.eqb (purchase_id r) purchase_7
           then purchase_paid r' = Column.of_Number 500.005
                /\ purchase_balance r'
                   = Column.of_Number
                       (Column.to_Number (purchase_total old) - 500.005)%float
                /\ purchase_total r' = purchase_total r
                /\ purchase_supplierId r' = purchase_supplierId r
           else r' = r)
        (purchases shop_after_purchase) (purchases (snd out))
   /\ Forall2
        (fun s s' =>
           if opt_eqb (purchase_supplierId old) (supplier_id s)
              && negb (increase =? 0)%float
           then supplier_id s' = supplier_id s
                /\ supplier_name s' = supplier_name s
                /\ supplier_balance s'
                   = Column.decimal_12_2
                       (supplier_balance s - JS.toString_value increase)
           else s' = s)
        (suppliers shop_after_purchase) (suppliers (snd out)))
  /\ map (fun r => (purchase_total r, purchase_paid r, purchase_balance r))
       (purchases (snd out))
     = [(1300, cents 50001, 800)]
  /\ map supplier_balance (suppliers shop_after_purchase) = [100]
  /\ map supplier_balance (suppliers (snd out)) = [cents (-40001)].
Proof.
  split; [|split; [|split]].
  - apply (purchase_payment_recorded 1800%Z buyer purchase_7
             (Purchases.mkUpdate None (Some 500.005%float) None) 500.005%float
             shop_after_purchase
             (Purchases.new_purchase_row 1700%Z purchase_7 buyer stock_body
                stock_items)).
    + reflexivity.
    + reflexivity.
    + reflexivity.
    + reflexivity.
    + reflexivity.
  - vm_compute. reflexivity.
  - vm_compute. reflexivity.
  - vm_compute. reflexivity.
Defined.

(** X5. When payments with finite amounts are recorded twice in a row on the
    same purchase and both are answered 200, the paid and balance columns of
    the purchase are those of the second recording, whatever the first
    wrote: paid := p2 and balance := the double Number(total) - p2, both
    rounded to two decimals from their decimal texts, the total being
    untouched.  The supplier's balance does not compose that way: recording
    paid = 0.005 twice on a purchase with nothing paid leaves the purchase
    at paid 0.01 and takes a supplier balance of 100.00 to 100.00 and then
    to 100.01. *)
Theorem purchase_payments_compose :
  (forall now1 now2 u1 u2 id b1 b2 p1 p2 d old,
     includes ["admin"; "manager"] (user_role u1) = true ->
     includes ["admin"; "manager"] (user_role u2) = true ->
     find_purchase id d = Some old ->
     Purchases.upd_paid b1 = Some p1 -> JS.is_finite p1 = true ->
     Purchases.upd_paid b2 = Some p2 -> JS.is_finite p2 = true ->
     let out1 := Purchases.put now1 (Some u1) id b1 d in
     let out2 := Purchases.put now2 (Some u2) id b2 (snd out1) in
     status (fst out1) = 200%nat /\ status (fst out2) = 200%nat ->
     Forall2
       (fun r r' =>
          if String.eqb (purchase_id r) id
          then purchase_paid r' = Column.of_Number p2
               /\ purchase_balance r'
                  = Column.of_Number (Column.to_Number (purchase_total old) - p2)%float
               /\ purchase_total r' = purchase_total r
          else r' = r)
       (purchases d) (purchases (snd out2)))
  /\ (let put now d :=
        Purchases.put now (Some buyer) purchase_7
          (Purchases.mkUpdate None (Some 0.005%float) None) d in
      let out1 := put 1800%Z shop_after_purchase in
      let out2 := put 1900%Z (snd out1) in
      status (fst out1) = 200%nat
      /\ status (fst out2) = 200%nat
      /\ map purchase_paid (purchases shop_after_purchase) = [0]
      /\ map purchase_paid (purchases (snd out1)) = [cents 1]
      /\ map purchase_paid (purchases (snd out2)) = [cents 1]
      /\ map supplier_balance (suppliers shop_after_purchase) = [100]
      /\ map supplier_balance (suppliers (snd out1)) = [100]
      /\ map supplier_balance (suppliers (snd out2)) = [cents 10001]).
Proof.
  split.
  - intros now1 now2 u1 u2 id b1 b2 p1 p2 d old Hr1 Hr2 Hfind Hp1 _ Hp2 _
      out1 out2 _. subst out2 out1.
    rewrite (put_purchase_found _ _ _ _ _ _ Hr1 Hfind). cbn [snd].
    set (old1 := Purchases.apply_update b1 old old).
    assert (Hfind1 :
      find_purchase id
        (on_suppliers (map (supplier_pay_row now1 b1 old))
           (on_purchases
              (update_where (fun p => String.eqb (purchase_id p) id)
                 (Purchases.apply_update b1 old)) d))
      = Some old1).
    { unfold find_purchase. read_store.
      apply find_update_same; [reflexivity | exact Hfind]. }
    rewrite (put_purchase_found _ _ _ _ _ _ Hr2 Hfind1). cbn [snd].
    read_store. unfold update_where. rewrite map_map.
    apply Forall2_map_self. intros r.
    destruct (String.eqb (purchase_id r) id) eqn:E.
    + cbn [Purchases.apply_update purchase_id]. rewrite E.
      unfold Purchases.apply_update, old1; cbn. rewrite Hp2. repeat split.
    + rewrite E. reflexivity.
  - vm_compute. repeat split; reflexivity.
Qed.

Lemma purchase_payments_compose_witness :
  let old := Purchases.new_purchase_row 1700%Z purchase_7 buyer stock_body stock_items in
  let out1 :=
    Purchases.put 1800%Z (Some buyer) purchase_7
      (Purchases.mkUpdate None (Some 500.005%float) None) shop_after_purchase in
  let out2 :=
    Purchases.put 1900%Z (Some buyer) purchase_7
      (Purchases.mkUpdate (Some "paid") (Some 1300%float) None) (snd out1) in
  Forall2
    (fun r r' =>
       if String.eqb (purchase_id r) purchase_7
       then purchase_paid r' = Column.of_Number 1300
            /\ purchase_balance r'
               = Column.of_Number (Column.to_Number (purchase_total old) - 1300)%float
            /\ purchase_total r' = purchase_total r
       else r' = r)
    (purchases shop_after_purchase) (purchases (snd out2))
  /\ map (fun r => (purchase_total r, purchase_paid r, purchase_balance r,
                    purchase_status r))
       (purchases (snd out2))
     = [(1300, 1300, 0, "paid")].
Proof.
  split.
  - apply (proj1 purchase_payments_compose 1800%Z 1900%Z buyer buyer purchase_7
             (Purchases.mkUpdate None (Some 500.005%float) None)
             (Purchases.mkUpdate (Some "paid") (Some 1300%float) None)
             500.005%float 1300%float shop_after_purchase
             (Purchases.new_purchase_row 1700%Z purchase_7 buyer stock_body
                stock_items)).
    + reflexivity.
    + reflexivity.
    + reflexivity.
    + reflexivity.
    + reflexivity.
    + reflexivity.
    + reflexivity.
    + split; reflexivity.
  - vm_compute. reflexivity.
Defined.

(** ** Role gates and unknown ids *)

(** X6. The manager-only and admin-only routes (purchase creation and
    update, supplier creation, deletion and payment, user registration and
    user update) refuse everyone else before touching the store: without a
    session user they answer 401 "Authentication required", and for a user
    whose role is not listed they answer 403 "Insufficient permissions"; in
    both cases the store is left as it was, whatever the request says. *)
Theorem role_gates_write_nothing :
  (forall hash now uuid id b upd cb pb rb ub d,
     Purchases.post now uuid None b d
     = (mkResponse 401 (JError "Authentication required"), d)
     /\ Purchases.put now None id upd d
        = (mkResponse 401 (JError "Authentication required"), d)
     /\ Suppliers.post now uuid None cb d
        = (mkAnswer 401 (PError "Authentication required"), d)
     /\ Suppliers.payment now None id pb d
        = (mkAnswer 401 (PError "Authentication required"), d)
     /\ Suppliers.delete None id d
        = (mkAnswer 401 (PError "Authentication required"), d)
     /\ Accounts.register hash uuid None rb d
        = (mkResponse 401 (JError "Authentication required"), d)
     /\ Accounts.put_user None id ub d
        = (mkResponse 401 (JError "Authentication required"), d))
  /\ (forall now uuid id u b upd cb pb d,
        includes ["admin"; "manager"] (user_role u) = false ->
        Purchases.post now uuid (Some u) b d
        = (mkResponse 403 (JError "Insufficient permissions"), d)
        /\ Purchases.put now (Some u) id upd d
           = (mkResponse 403 (JError "Insufficient permissions"), d)
        /\ Suppliers.post now uuid (Some u) cb d
           = (mkAnswer 403 (PError "Insufficient permissions"), d)
        /\ Suppliers.payment now (Some u) id pb d
           = (mkAnswer 403 (PError "Insufficient permissions"), d))
  /\ (forall hash uuid id u rb ub d,
        includes ["admin"] (user_role u) = false ->
        Suppliers.delete (Some u) id d
        = (mkAnswer 403 (PError "Insufficient permissions"), d)
        /\ Accounts.register hash uuid (Some u) rb d
           = (mkResponse 403 (JError "Insufficient permissions"), d)
        /\ Accounts.put_user (Some u) id ub d
           = (mkResponse 403 (JError "Insufficient permissions"), d)).
Proof.
  split; [|split].
  - intros hash now uuid id b upd cb pb rb ub d. repeat split.
  - intros now uuid id u b upd cb pb d H. repeat split.
    + unfold Purchases.post, requireAuth, requireRole. rewrite H. reflexivity.
    + unfold Purchases.put, requireAuth, requireRole. rewrite H. reflexivity.
    + unfold Suppliers.post, Middleware.requireAuth, Middleware.requireRole.
      rewrite H. reflexivity.
    + unfold Suppliers.payment, Middleware.requireAuth, Middleware.requireRole.
      rewrite H. reflexivity.
  - intros hash uuid id u rb ub d H. repeat split.
    + unfold Suppliers.delete, Middleware.requireAuth, Middleware.requireRole.
      rewrite H. reflexivity.
    + unfold Accounts.register, requireAuth, requireRole. rewrite H. reflexivity.
    + unfold Accounts.put_user, requireAuth, requireRole. rewrite H. reflexivity.
Qed.

Lemma role_gates_write_nothing_witness :
  Purchases.post 1700%Z purchase_7 (Some cashier) stock_body shop
  = (mkResponse 403 (JError "Insufficient permissions"), shop)
  /\ Suppliers.delete (Some buyer) supplier_f shop
     = (mkAnswer 403 (PError "Insufficient permissions"), shop)
  /\ Suppliers.payment 1700%Z None supplier_f
       (Suppliers.mkPaymentBody (Some 40%float) None) shop
     = (mkAnswer 401 (PError "Authentication required"), shop).
Proof.
  split; [|split].
  - apply (proj1 (proj2 role_gates_write_nothing) 1700%Z purchase_7 purchase_7
             cashier stock_body (Purchases.mkUpdate None None None)
             (Suppliers.mkCreateBody None) (Suppliers.mkPaymentBody None None) shop).
    reflexivity.
  - apply (proj2 (proj2 role_gates_write_nothing) (fun s => s) nobody supplier_f
             buyer (Accounts.mkRegisterBody None None None None)
             (Accounts.mkUserUpdate None None None) shop).
    reflexivity.
  - apply (proj1 role_gates_write_nothing (fun s => s) 1700%Z purchase_7 supplier_f
             stock_body (Purchases.mkUpdate None None None)
             (Suppliers.mkCreateBody None)
             (Suppliers.mkPaymentBody (Some 40%float) None)
             (Accounts.mkRegisterBody None None None None)
             (Accounts.mkUserUpdate None None None) shop).
Defined.




(** ** Supplier payments and deletion *)

Lemma supplier_payment_accepted now u id amount notes d s0 :
  includes ["admin"; "manager"] (user_role u) = true ->
  find_supplier id d = Some s0 ->
  (0 <? amount)%float = true ->
  (Column.to_Number (supplier_balance s0) <? amount)%float = false ->
  let newBalance := (Column.to_Number (supplier_balance s0) - amount)%float in
  Suppliers.payment now (Some u) id (Suppliers.mkPaymentBody (Some amount) notes) d
  = (mkAnswer 200
       (PData (Suppliers.mkPaymentReceipt
                 (Some (Suppliers.set_balance now newBalance s0)) amount notes)),
     on_suppliers
       (update_where (fun s => String.eqb (supplier_id s) id)
          (Suppliers.set_balance now newBalance)) d).
Proof.
  intros Hrole Hfind Hpos Hle newBalance. unfold find_supplier in Hfind.
  unfold Suppliers.payment, Middleware.requireAuth, Middleware.requireRole.
  rewrite Hrole. cbn [Suppliers.body_amount Suppliers.body_notes].
  rewrite payment_guard, Hpos. cbn [negb].
  rewrite run_bind. unfold query at 1. cbn [fst snd].
  rewrite limit1_select_find, Hfind, Hle. run_steps. read_store.
  rewrite (hd_error_select_update _ _ _ s0); [|reflexivity|exact Hfind].
  reflexivity.
Qed.

Lemma supplier_payment_refused now u id amt notes d s0 :
  includes ["admin"; "manager"] (user_role u) = true ->
  find_supplier id d = Some s0 ->
  amt = None
  \/ (exists amount,
        amt = Some amount
        /\ ((0 <? amount)%float = false
            \/ (Column.to_Number (supplier_balance s0) <? amount)%float = true)) ->
  exists msg,
    Suppliers.payment now (Some u) id (Suppliers.mkPaymentBody amt notes) d
    = (mkAnswer 400 (PError msg), d).
Proof.
  intros Hrole Hfind Hbad. unfold find_supplier in Hfind.
  unfold Suppliers.payment, Middleware.requireAuth, Middleware.requireRole.
  rewrite Hrole. cbn [Suppliers.body_amount Suppliers.body_notes].
  destruct Hbad as [-> | (amount & -> & Hbad)]; [eexists; reflexivity|].
  rewrite payment_guard.
  destruct Hbad as [Hle | Hlt].
  - rewrite Hle. eexists; reflexivity.
  - destruct (negb (0 <? amount)%float); [eexists; reflexivity|].
    unfold bind, query. rewrite limit1_select_find, Hfind, Hlt.
    eexists; reflexivity.
Qed.

(** X8. POST /api/suppliers/:id/payment on an existing supplier accepts
    exactly the amounts that, as doubles, are positive and not greater than
    Number(balance).  An accepted payment that is answered 200 has written as
    the supplier's balance the double Number(balance) - amount, rounded to
    two decimals from its decimal text, which is never negative, and has
    touched no other row.  An absent amount, one that is not positive (zero,
    negative, NaN) or one greater than Number(balance) is answered 400 and
    nothing is written. *)
Theorem supplier_payment_guard now u id b d s0 :
  Column.uuid id = Some id ->
  includes ["admin"; "manager"] (user_role u) = true ->
  find_supplier id d = Some s0 ->
  let out := Suppliers.payment now (Some u) id b d in
  let currentBalance := Column.to_Number (supplier_balance s0) in
  (forall amount row,
     Suppliers.body_amount b = Some amount ->
     (0 <? amount)%float = true ->
     (currentBalance <? amount)%float = false ->
     fst out
     = mkAnswer 200
         (PData (Suppliers.mkPaymentReceipt (Some row) amount
                   (Suppliers.body_notes b))) ->
     (supplier_id row = supplier_id s0
      /\ supplier_balance row = Column.of_Number (currentBalance - amount)%float)
     /\ Forall2
          (fun s s' =>
             if String.eqb (supplier_id s) id
             then supplier_id s' = supplier_id s
                  /\ supplier_name s' = supplier_name s
                  /\ supplier_balance s'
                     = Column.of_Number (currentBalance - amount)%float
                  /\ 0 <= supplier_balance s'
             else s' = s)
          (suppliers d) (suppliers (snd out)))
  /\ (forall amount,
        Suppliers.body_amount b = Some amount ->
        (0 <? amount)%float = true ->
        (currentBalance <? amount)%float = false ->
        answer_status (fst out) <> 400%nat)
  /\ (Suppliers.body_amount b = None
      \/ (exists amount,
            Suppliers.body_amount b = Some amount
            /\ ((0 <? amount)%float = false
                \/ (currentBalance <? amount)%float = true)) ->
      answer_status (fst out) = 400%nat /\ snd out = d).
Proof.
  intros _ Hrole Hfind out currentBalance. subst out currentBalance.
  destruct b as [amt notes]. cbn [Suppliers.body_amount Suppliers.body_notes].
  split; [|split].
  - intros amount row Hb Hpos Hle. subst amt.
    rewrite (supplier_payment_accepted _ _ _ _ _ _ _ Hrole Hfind Hpos Hle).
    cbn [fst snd]. intros [= <-]. split.
    + split; reflexivity.
    + read_store. apply Forall2_map_self. intros s.
      destruct (String.eqb (supplier_id s) id); [|reflexivity].
      cbn [Suppliers.set_balance supplier_id supplier_name supplier_balance].
      repeat split.
      apply cents_amount_nonneg, of_Number_cents, sub_not_less; [|exact Hle].
      rewrite <- zero_ltb. exact Hpos.
  - intros amount Hb Hpos Hle. subst amt.
    rewrite (supplier_payment_accepted _ _ _ _ _ _ _ Hrole Hfind Hpos Hle).
    cbn [fst answer_status]. discriminate.
  - intros Hbad.
    destruct (supplier_payment_refused now u id amt notes d s0 Hrole Hfind Hbad)
      as [msg ->].
    split; reflexivity.
Qed.

Lemma supplier_payment_guard_witness :
  let b := Suppliers.mkPaymentBody (Some 40.005%float) None in
  let out := Suppliers.payment 1700%Z (Some buyer) supplier_f b shop in
  let row := mkSupplier supplier_f "Parts Ltd" (cents 6000) (Some 1700%Z) in
  ((supplier_id row = supplier_f
    /\ supplier_balance row = Column.of_Number (Column.to_Number 100 - 40.005)%float)
   /\ Forall2
        (fun s s' =>
           if String.eqb (supplier_id s) supplier_f
           then supplier_id s' = supplier_id s
                /\ supplier_name s' = supplier_name s
                /\ supplier_balance s'
                   = Column.of_Number (Column.to_Number 100 - 40.005)%float
                /\ 0 <= supplier_balance s'
           else s' = s)
        (suppliers shop) (suppliers (snd out)))
  /\ map supplier_balance (suppliers (snd out)) = [60]
  /\ (let refused :=
        Suppliers.payment 1700%Z (Some buyer) supplier_f
          (Suppliers.mkPaymentBody (Some 100.01%float) None) shop in
      answer_status (fst refused) = 400%nat /\ snd refused = shop).
Proof.
  split; [|split].
  - apply (proj1 (supplier_payment_guard 1700%Z buyer supplier_f
                    (Suppliers.mkPaymentBody (Some 40.005%float) None) shop
                    (mkSupplier supplier_f "Parts Ltd" 100 None)
                    eq_refl eq_refl eq_refl) 40.005%float).
    + reflexivity.
    + reflexivity.
    + reflexivity.
    + vm_compute. reflexivity.
  - vm_compute. reflexivity.
  - apply (proj2 (proj2 (supplier_payment_guard 1700%Z buyer supplier_f
                           (Suppliers.mkPaymentBody (Some 100.01%float) None) shop
                           (mkSupplier supplier_f "Parts Ltd" 100 None)
                           eq_refl eq_refl eq_refl))).
    right. exists 100.01%float. split; [reflexivity|]. right. reflexivity.
Defined.

Lemma serve_purchases_suppliers rs d :
  suppliers (serve_purchases rs d) = suppliers d.
Proof.
  unfold serve_purchases. revert d.
  induction rs as [|r rs IH]; intros d; cbn [fold_left]; [reflexivity|].
  rewrite IH. apply post_purchase_suppliers.
Qed.

(** X9. Purchases never make a supplier payable: if no supplier is owed
    anything (as after POST /api/suppliers, which writes balance 0), then
    after any sequence of purchase creations every request to
    POST /api/suppliers/:id/payment is refused and writes nothing. *)
Theorem purchases_never_become_payable rs now user id b d :
  (forall s, In s (suppliers d) -> supplier_balance s <= 0) ->
  let d1 := serve_purchases rs d in
  let out := Suppliers.payment now user id b d1 in
  answer_status (fst out) <> 200%nat /\ snd out = d1.
Proof.
  intros Hzero d1 out. subst out.
  assert (Hz1 : forall s, In s (suppliers d1) -> supplier_balance s <= 0).
  { subst d1. rewrite serve_purchases_suppliers. exact Hzero. }
  clearbody d1. clear Hzero.
  unfold Suppliers.payment, Middleware.requireAuth, Middleware.requireRole.
  destruct user as [u|]; [|split; [discriminate | reflexivity]].
  destruct (includes _ _); [|split; [discriminate | reflexivity]].
  destruct b as [[amount|] notes]; cbn [Suppliers.body_amount Suppliers.body_notes];
    [|split; [discriminate | reflexivity]].
  rewrite payment_guard.
  destruct (0 <? amount)%float eqn:Hamt; cbn [negb];
    [|split; [discriminate | reflexivity]].
  unfold bind, query. rewrite limit1_select_find.
  destruct (find _ (suppliers d1)) as [s0|] eqn:Hfind;
    [|split; [discriminate | reflexivity]].
  assert (Hlt : (Column.to_Number (supplier_balance s0) <? amount)%float = true).
  { apply ltb_of_signs.
    - apply to_Number_not_positive. apply find_some in Hfind.
      destruct Hfind as [Hin _]. apply Hz1, Hin.
    - rewrite <- zero_ltb. exact Hamt. }
  rewrite Hlt. split; [discriminate | reflexivity].
Qed.

Lemma purchases_never_become_payable_witness :
  let d1 :=
    serve_purchases
      [mkPurchaseRequest 1700%Z "po-1" (Some manager) restock_body] supplier_store in
  let out :=
    Suppliers.payment 1800%Z (Some manager) "sup-1"
      (Suppliers.mkPaymentBody (Some 1300%float) None) d1 in
  answer_status (fst out) <> 200%nat /\ snd out = d1.
Proof.
  apply (purchases_never_become_payable
           [mkPurchaseRequest 1700%Z "po-1" (Some manager) restock_body]
           1800%Z (Some manager) "sup-1"
           (Suppliers.mkPaymentBody (Some 1300%float) None) supplier_store).
  intros s [<- | []]. unfold Qle; simpl; lia.
Defined.

(** X10. A supplier named by a purchase cannot be deleted: once a purchase
    with supplierId = sid has been created, DELETE /api/suppliers/sid answers
    400 and writes nothing.  A supplier no purchase names is deleted (200),
    after which no row with that id is left and the other rows are kept. *)
Theorem supplier_delete_guard :
  (forall now uuid u admin_user sid b items d,
     Purchases.body_items b = Some items -> items <> [] ->
     Purchases.body_supplierId b = Some sid ->
     includes ["admin"; "manager"] (user_role u) = true ->
     includes ["admin"] (user_role admin_user) = true ->
     let d1 := snd (Purchases.post now uuid (Some u) b d) in
     Suppliers.delete (Some admin_user) sid d1
     = (mkAnswer 400 (PError "Cannot delete supplier with existing purchases"), d1))
  /\ (forall admin_user sid d s0,
        includes ["admin"] (user_role admin_user) = true ->
        find (fun p => opt_eqb (purchase_supplierId p) sid) (purchases d) = None ->
        find_supplier sid d = Some s0 ->
        let out := Suppliers.delete (Some admin_user) sid d in
        fst out = mkAnswer 200 (PMessage "Supplier deleted successfully")
        /\ find_supplier sid (snd out) = None
        /\ suppliers (snd out)
           = filter (fun s => negb (String.eqb (supplier_id s) sid)) (suppliers d)
        /\ purchases (snd out) = purchases d).
Proof.
  split.
  - intros now uuid u admin_user sid b items d Hitems Hne Hsid Hrole Hadmin d1.
    subst d1. destruct items as [|item rest]; [congruence|].
    rewrite (post_purchase_created _ _ _ _ _ _ _ Hitems Hrole). cbn [snd].
    unfold Suppliers.delete, Middleware.requireAuth, Middleware.requireRole.
    rewrite Hadmin. unfold bind, query. rewrite limit1_select_find.
    read_store.
    destruct (find_app_last (fun p => opt_eqb (purchase_supplierId p) sid)
                (purchases d)
                (Purchases.new_purchase_row now uuid u b (item :: rest)))
      as [x Hx].
    { cbn. rewrite Hsid. cbn. apply String.eqb_refl. }
    rewrite Hx. reflexivity.
  - intros admin_user sid d s0 Hadmin Hnone Hfind out. subst out.
    unfold find_supplier in *.
    assert (Heq :
      Suppliers.delete (Some admin_user) sid d
      = (mkAnswer 200 (PMessage "Supplier deleted successfully"),
         on_suppliers (delete_where (fun s => String.eqb (supplier_id s) sid)) d)).
    { unfold Suppliers.delete, Middleware.requireAuth, Middleware.requireRole.
      rewrite Hadmin. rewrite run_bind. unfold query at 1. cbn [fst snd].
      rewrite limit1_select_find, Hnone.
      run_steps.
      assert (Hsel : exists x xs,
        select_where (fun s => String.eqb (supplier_id s) sid) (suppliers d) = x :: xs).
      { unfold select_where. clear Hnone.
        induction (suppliers d) as [|y t IH]; cbn [find filter] in *; [discriminate|].
        destruct (String.eqb (supplier_id y) sid); [eauto | apply IH, Hfind]. }
      destruct Hsel as (x & xs & ->). reflexivity. }
    rewrite Heq. cbn [fst snd]. rewrite suppliers_on_suppliers.
    split; [reflexivity|]. split; [apply find_delete_where|].
    split; [reflexivity|]. destruct d; reflexivity.
Qed.

Lemma supplier_delete_guard_witness :
  Suppliers.delete (Some admin) "sup-1" owed_store
  = (mkAnswer 400 (PError "Cannot delete supplier with existing purchases"),
     owed_store)
  /\ (let out := Suppliers.delete (Some admin) "sup-1" supplier_store in
      fst out = mkAnswer 200 (PMessage "Supplier deleted successfully")
      /\ find_supplier "sup-1" (snd out) = None
      /\ suppliers (snd out)
         = filter (fun s => negb (String.eqb (supplier_id s) "sup-1"))
             (suppliers supplier_store)
      /\ purchases (snd out) = purchases supplier_store).
Proof.
  split.
  - apply (proj1 supplier_delete_guard 1700%Z "po-1" manager admin "sup-1"
             restock_body restock_items supplier_store).
    + reflexivity.
    + discriminate.
    + reflexivity.
    + reflexivity.
    + reflexivity.
  - apply (proj2 supplier_delete_guard admin "sup-1" supplier_store
             (mkSupplier "sup-1" "Parts Ltd" 0 None)).
    + reflexivity.
    + reflexivity.
    + reflexivity.
Defined.

(** ** RMA intake and life cycle *)

Lemma post_rma_outcome now uuid u b d :
  truthy (RmaCreate.body_customerId b) = true ->
  truthy (RmaCreate.body_productId b) = true ->
  truthy (RmaCreate.body_reason b) = true ->
  RmaCreate.post now uuid (Some u) b d
  = if RmaCreate.references b d then
      (mkResponse 201 (JRma (Some (RmaCreate.new_rma_row now uuid b))),
       (if truthy (RmaCreate.body_serialNumber b)
        then on_serialNumbers
               (update_where
                  (fun s => opt_eqb (RmaCreate.body_serialNumber b) (sn_serialNumber s))
                  (RmaRoutes.set_status "rma"))
        else fun d => d)
         (on_rmas (fun t => t ++ [RmaCreate.new_rma_row now uuid b]) d))
    else (mkResponse 500 (JError "Failed to create RMA"), d).
Proof.
  intros Hc Hp Hr. unfold RmaCreate.post, requireAuth. rewrite Hc, Hp, Hr.
  cbn [negb orb]. rewrite run_bind. unfold query at 1. cbn [fst snd].
  destruct (RmaCreate.references b d); cbn [negb]; [|reflexivity].
  run_steps. unfold when.
  destruct (truthy (RmaCreate.body_serialNumber b)); reflexivity.
Qed.

(** X11. POST /api/rma refuses a request without customer, product or reason
    (400, nothing written).  A request that is answered 201 has filed the RMA
    as 'under_review' and put the unit with the given serial number in status
    'rma'; a later status update of that RMA that the database accepts (a
    status of at most 50 characters) moves the unit to 'available'
    (returned), 'sold' (rejected) or 'rma' (anything else), and neither step
    changes the saleId or customerId recorded on the unit. *)
Theorem rma_intake_then_update :
  (forall now uuid u b d,
     truthy (RmaCreate.body_customerId b) = false
     \/ truthy (RmaCreate.body_productId b) = false
     \/ truthy (RmaCreate.body_reason b) = false ->
     RmaCreate.post now uuid (Some u) b d
     = (mkResponse 400 (JError "Customer, product, and reason are required"), d))
  /\ (forall now1 now2 uuid id u1 u2 b sn upd s d,
        truthy (RmaCreate.body_customerId b) = true ->
        truthy (RmaCreate.body_productId b) = true ->
        truthy (RmaCreate.body_reason b) = true ->
        RmaCreate.body_serialNumber b = Some sn -> sn <> "" ->
        find_rma uuid d = None ->
        Column.uuid id = Some uuid ->
        RmaRoutes.upd_status upd = Some s ->
        (String.length s <= 50)%nat ->
        Column.has_nul s = false ->
        (forall n, RmaRoutes.upd_notes upd = Some n -> Column.has_nul n = false) ->
        let out1 := RmaCreate.post now1 uuid (Some u1) b d in
        let out2 := RmaRoutes.put now2 (Some u2) id upd (snd out1) in
        status (fst out1) = 201%nat ->
        (exists row, find_rma uuid (snd out1) = Some row
                     /\ rma_status row = "under_review"
                     /\ rma_serialNumber row = Some sn)
        /\ Forall2
             (fun x x1 =>
                if String.eqb sn (sn_serialNumber x)
                then sn_status x1 = "rma"
                     /\ sn_serialNumber x1 = sn_serialNumber x
                     /\ sn_saleId x1 = sn_saleId x
                     /\ sn_customerId x1 = sn_customerId x
                else x1 = x)
             (serialNumbers d) (serialNumbers (snd out1))
        /\ status (fst out2) = 200%nat
        /\ Forall2
             (fun x x2 =>
                if String.eqb sn (sn_serialNumber x)
                then sn_serialNumber x2 = sn_serialNumber x
                     /\ sn_saleId x2 = sn_saleId x
                     /\ sn_customerId x2 = sn_customerId x
                     /\ (s = "returned" -> sn_status x2 = "available")
                     /\ (s = "rejected" -> sn_status x2 = "sold")
                     /\ (s <> "returned" -> s <> "rejected" -> sn_status x2 = "rma")
                else x2 = x)
             (serialNumbers d) (serialNumbers (snd out2))).
Proof.
  split.
  - intros now uuid u b d H. unfold RmaCreate.post, requireAuth.
    destruct H as [-> | [-> | ->]]; cbn [negb orb];
      repeat rewrite orb_true_r; reflexivity.
  - intros now1 now2 uuid id u1 u2 b sn upd s d Hc Hp Hr Hsn Hne Hfresh Hid Hs
      Hlen Hnul Hnotes out1 out2. subst out2 out1.
    pose proof (truthy_nonempty sn Hne) as Ht.
    rewrite (post_rma_outcome _ _ _ _ _ Hc Hp Hr). rewrite Hsn, Ht.
    destruct (RmaCreate.references b d); [|discriminate]. cbn [fst snd].
    intros _.
    set (row := RmaCreate.new_rma_row now1 uuid b).
    assert (Hrow : rma_serialNumber row = Some sn).
    { unfold row, RmaCreate.new_rma_row; cbn. rewrite Hsn. unfold or_null.
      rewrite Ht. reflexivity. }
    assert (Hfind1 :
      find_rma uuid
        (on_serialNumbers
           (update_where (fun x => opt_eqb (Some sn) (sn_serialNumber x))
              (RmaRoutes.set_status "rma"))
           (on_rmas (fun t => t ++ [row]) d))
      = Some row).
    { unfold find_rma. read_store. apply find_app_fresh; [exact Hfresh|].
      cbn. apply String.eqb_refl. }
    split; [exists row; repeat split; assumption|].
    split.
    + read_store. apply Forall2_map_self. intros x. cbn [opt_eqb].
      destruct (String.eqb sn (sn_serialNumber x)); repeat split.
    + rewrite (put_rma_found _ _ _ _ _ _ _ _ Hid Hfind1
                 (columns_accept upd s Hs Hlen Hnul Hnotes)).
      cbn [fst snd status]. split; [reflexivity|].
      rewrite Hrow, Ht, Hs. read_store.
      unfold update_where. rewrite map_map.
      apply Forall2_map_self. intros x. cbn [opt_eqb].
      destruct (String.eqb sn (sn_serialNumber x)) eqn:E.
      * cbn [RmaRoutes.set_status sn_serialNumber]. rewrite E.
        unfold RmaRoutes.serialStatus; cbn.
        split; [reflexivity|]. split; [reflexivity|]. split; [reflexivity|].
        split; [|split].
        -- intros ->. reflexivity.
        -- intros ->. reflexivity.
        -- intros H1 H2.
           destruct (String.eqb_spec s "returned"); [contradiction|].
           destruct (String.eqb_spec s "rejected"); [contradiction|].
           reflexivity.
      * rewrite E. reflexivity.
Qed.

Lemma rma_intake_then_update_witness :
  let upd := RmaRoutes.mkUpdate (Some "returned") None in
  let out1 := RmaCreate.post 1800%Z rma_1 (Some cashier) rma_request shop_after_sale in
  let out2 := RmaRoutes.put 1900%Z (Some cashier) rma_1 upd (snd out1) in
  ((exists row, find_rma rma_1 (snd out1) = Some row
                /\ rma_status row = "under_review"
                /\ rma_serialNumber row = Some "SN-001")
   /\ Forall2
        (fun x x1 =>
           if String.eqb "SN-001" (sn_serialNumber x)
           then sn_status x1 = "rma"
                /\ sn_serialNumber x1 = sn_serialNumber x
                /\ sn_saleId x1 = sn_saleId x
                /\ sn_customerId x1 = sn_customerId x
           else x1 = x)
        (serialNumbers shop_after_sale) (serialNumbers (snd out1))
   /\ status (fst out2) = 200%nat
   /\ Forall2
        (fun x x2 =>
           if String.eqb "SN-001" (sn_serialNumber x)
           then sn_serialNumber x2 = sn_serialNumber x
                /\ sn_saleId x2 = sn_saleId x
                /\ sn_customerId x2 = sn_customerId x
                /\ ("returned" = "returned" -> sn_status x2 = "available")
                /\ ("returned" = "rejected" -> sn_status x2 = "sold")
                /\ ("returned" <> "returned" -> "returned" <> "rejected" ->
                    sn_status x2 = "rma")
           else x2 = x)
        (serialNumbers shop_after_sale) (serialNumbers (snd out2)))
  /\ map (fun s => (sn_serialNumber s, sn_status s, sn_saleId s, sn_customerId s))
       (serialNumbers (snd out2))
     = [("SN-001", "available", Some sale_5, Some customer_c);
        ("SN-002", "available", None, None)]
  /\ status
       (fst (RmaCreate.post 1800%Z rma_1 (Some cashier) rma_request shop))
     = 500%nat.
Proof.
  split; [|split].
  - apply (proj2 rma_intake_then_update 1800%Z 1900%Z rma_1 rma_1 cashier cashier
             rma_request "SN-001" (RmaRoutes.mkUpdate (Some "returned") None)
             "returned" shop_after_sale).
    + reflexivity.
    + reflexivity.
    + reflexivity.
    + reflexivity.
    + discriminate.
    + reflexivity.
    + reflexivity.
    + reflexivity.
    + vm_compute. lia.
    + reflexivity.
    + intros n H. discriminate H.
    + vm_compute. reflexivity.
  - vm_compute. reflexivity.
  - vm_compute. reflexivity.
Defined.

(** ** Loyalty points *)

Lemma loyalty_written now key pts d c0 :
  find_customer key d = Some c0 ->
  Column.int4 pts = true ->
  Loyalty.write_points now key pts d
  = (mkAnswer 200 (PData (Some (Loyalty.set_points now pts c0))),
     on_customers
       (update_where (fun c => String.eqb (customer_id c) key)
          (Loyalty.set_points now pts)) d).
Proof.
  intros Hfind Hpts. unfold find_customer in Hfind. unfold Loyalty.write_points.
  rewrite Hpts. cbn [negb].
  run_steps. read_store.
  rewrite (hd_error_select_update _ _ _ c0); [|reflexivity|exact Hfind].
  reflexivity.
Qed.

Lemma loyalty_found now u id key b d c0 :
  Column.uuid id = Some key ->
  find_customer key d = Some c0 ->
  Loyalty.post now (Some u) id b d
  = (if opt_eqb (Loyalty.body_action b) "add" then
       Loyalty.write_points now key
         (customer_loyaltyPoints c0 + Loyalty.body_points b)%Z d
     else if opt_eqb (Loyalty.body_action b) "redeem" then
       if (customer_loyaltyPoints c0 <? Loyalty.body_points b)%Z then
         (mkAnswer 400 (PError "Insufficient loyalty points"), d)
       else Loyalty.write_points now key
              (customer_loyaltyPoints c0 - Loyalty.body_points b)%Z d
     else Loyalty.write_points now key (customer_loyaltyPoints c0) d).
Proof.
  intros Hkey Hfind. unfold find_customer in Hfind.
  unfold Loyalty.post, Middleware.requireAuth. rewrite Hkey.
  rewrite run_bind. unfold query at 1. cbn [fst snd].
  rewrite limit1_select_find, Hfind.
  destruct (opt_eqb (Loyalty.body_action b) "add"); [reflexivity|].
  destruct (opt_eqb (Loyalty.body_action b) "redeem"); [|reflexivity].
  destruct (customer_loyaltyPoints c0 <? Loyalty.body_points b)%Z; reflexivity.
Qed.

Lemma redeem_is_not_add : String.eqb "redeem" "add" = false.
Proof. reflexivity. Qed.

(** X12. Redeeming loyalty points never overdraws: a 'redeem' of more points
    than the customer holds is answered 400 and writes nothing; otherwise,
    the difference fitting the integer column, it answers 200 and the
    customer holds the difference, which is not negative; a difference that
    does not fit the column is answered 500 and nothing is written. *)
Theorem loyalty_redeem_guard now u id key b d c0 :
  Column.uuid id = Some key ->
  find_customer key d = Some c0 ->
  Loyalty.body_action b = Some "redeem" ->
  let out := Loyalty.post now (Some u) id b d in
  let left := (customer_loyaltyPoints c0 - Loyalty.body_points b)%Z in
  ((customer_loyaltyPoints c0 < Loyalty.body_points b)%Z ->
   fst out = mkAnswer 400 (PError "Insufficient loyalty points") /\ snd out = d)
  /\ ((Loyalty.body_points b <= customer_loyaltyPoints c0)%Z ->
      Column.int4 left = true ->
      answer_status (fst out) = 200%nat
      /\ exists c1,
           find_customer key (snd out) = Some c1
           /\ customer_loyaltyPoints c1 = left
           /\ (0 <= customer_loyaltyPoints c1)%Z
           /\ customer_totalSpent c1 = customer_totalSpent c0)
  /\ ((Loyalty.body_points b <= customer_loyaltyPoints c0)%Z ->
      Column.int4 left = false ->
      answer_status (fst out) = 500%nat /\ snd out = d).
Proof.
  intros Hkey Hfind Hact out left. subst out left.
  rewrite (loyalty_found _ _ _ _ _ _ _ Hkey Hfind). rewrite Hact. cbn [opt_eqb].
  rewrite redeem_is_not_add, String.eqb_refl.
  split; [|split].
  - intros Hlt. apply Z.ltb_lt in Hlt. rewrite Hlt. split; reflexivity.
  - intros Hle Hfit. apply Z.ltb_ge in Hle. rewrite Hle.
    rewrite (loyalty_written _ _ _ _ _ Hfind Hfit). cbn [fst snd].
    split; [reflexivity|].
    exists (Loyalty.set_points now
              (customer_loyaltyPoints c0 - Loyalty.body_points b)%Z c0).
    split.
    + unfold find_customer. read_store.
      apply find_update_same; [reflexivity | exact Hfind].
    + cbn. apply Z.ltb_ge in Hle. repeat split. lia.
  - intros Hle Hfit. apply Z.ltb_ge in Hle. rewrite Hle.
    unfold Loyalty.write_points. rewrite Hfit. split; reflexivity.
Qed.

Lemma loyalty_redeem_guard_witness :
  let b := Loyalty.mkBody 2%Z (Some "redeem") in
  let out := Loyalty.post 1700%Z (Some cashier) customer_c b shop in
  ((2 <= 3)%Z ->
   Column.int4 (3 - 2) = true ->
   answer_status (fst out) = 200%nat
   /\ exists c1,
        find_customer customer_c (snd out) = Some c1
        /\ customer_loyaltyPoints c1 = (3 - 2)%Z
        /\ (0 <= customer_loyaltyPoints c1)%Z
        /\ customer_totalSpent c1 = 50)
  /\ map customer_loyaltyPoints (customers (snd out)) = [1%Z]
  /\ (let refused :=
        Loyalty.post 1700%Z (Some cashier) customer_c
          (Loyalty.mkBody 4%Z (Some "redeem")) shop in
      fst refused = mkAnswer 400 (PError "Insufficient loyalty points")
      /\ snd refused = shop).
Proof.
  split; [|split].
  - apply (proj1 (proj2 (loyalty_redeem_guard 1700%Z cashier customer_c customer_c
                           (Loyalty.mkBody 2%Z (Some "redeem")) shop
                           (mkCustomer customer_c "Dana" 50 3%Z None None)
                           eq_refl eq_refl eq_refl))).
  - vm_compute. reflexivity.
  - apply (proj1 (loyalty_redeem_guard 1700%Z cashier customer_c customer_c
                    (Loyalty.mkBody 4%Z (Some "redeem")) shop
                    (mkCustomer customer_c "Dana" 50 3%Z None None)
                    eq_refl eq_refl eq_refl)).
    cbn. lia.
Defined.

(** X13. Adding points and then redeeming the same number gives the customer
    back the points held before, provided that number was not negative to
    begin with and that the points held before and after the addition fit the
    integer column; both requests then answer 200. *)
Theorem loyalty_add_then_redeem now1 now2 u1 u2 id key p d c0 :
  Column.uuid id = Some key ->
  find_customer key d = Some c0 ->
  (0 <= customer_loyaltyPoints c0)%Z ->
  Column.int4 (customer_loyaltyPoints c0) = true ->
  Column.int4 (customer_loyaltyPoints c0 + p) = true ->
  let first := Loyalty.post now1 (Some u1) id (Loyalty.mkBody p (Some "add")) d in
  let second :=
    Loyalty.post now2 (Some u2) id (Loyalty.mkBody p (Some "redeem")) (snd first) in
  answer_status (fst first) = 200%nat
  /\ answer_status (fst second) = 200%nat
  /\ exists c2,
       find_customer key (snd second) = Some c2
       /\ customer_loyaltyPoints c2 = customer_loyaltyPoints c0
       /\ customer_totalSpent c2 = customer_totalSpent c0
       /\ customer_lastPurchase c2 = customer_lastPurchase c0.
Proof.
  intros Hkey Hfind Hpos Hfit0 Hfit1 first second. subst second first.
  rewrite (loyalty_found _ _ _ _ _ _ _ Hkey Hfind). cbn [Loyalty.body_action opt_eqb].
  rewrite String.eqb_refl. cbn [Loyalty.body_points].
  rewrite (loyalty_written _ _ _ _ _ Hfind Hfit1). cbn [fst snd].
  set (c1 := Loyalty.set_points now1 (customer_loyaltyPoints c0 + p)%Z c0).
  assert (Hfind1 :
    find_customer key
      (on_customers
         (update_where (fun c => String.eqb (customer_id c) key)
            (Loyalty.set_points now1 (customer_loyaltyPoints c0 + p)%Z)) d)
    = Some c1).
  { unfold find_customer. read_store.
    apply find_update_same; [reflexivity | exact Hfind]. }
  rewrite (loyalty_found _ _ _ _ _ _ _ Hkey Hfind1). cbn [Loyalty.body_action opt_eqb].
  rewrite redeem_is_not_add, String.eqb_refl.
  cbn [Loyalty.body_points].
  change (customer_loyaltyPoints c1) with (customer_loyaltyPoints c0 + p)%Z.
  assert (Hge : ((customer_loyaltyPoints c0 + p <? p) = false)%Z)
    by (apply Z.ltb_ge; lia).
  assert (Hback : (customer_loyaltyPoints c0 + p - p = customer_loyaltyPoints c0)%Z)
    by lia.
  rewrite Hge, Hback.
  rewrite (loyalty_written _ _ _ _ _ Hfind1 Hfit0). cbn [fst snd].
  split; [reflexivity|]. split; [reflexivity|].
  eexists. split.
  - unfold find_customer. rewrite customers_on_customers.
    apply find_update_same; [reflexivity | exact Hfind1].
  - cbn. repeat split.
Qed.

Lemma loyalty_add_then_redeem_witness :
  let first :=
    Loyalty.post 1700%Z (Some cashier) customer_c (Loyalty.mkBody 10%Z (Some "add"))
      shop in
  let second :=
    Loyalty.post 1800%Z (Some cashier) customer_c (Loyalty.mkBody 10%Z (Some "redeem"))
      (snd first) in
  (answer_status (fst first) = 200%nat
   /\ answer_status (fst second) = 200%nat
   /\ exists c2,
        find_customer customer_c (snd second) = Some c2
        /\ customer_loyaltyPoints c2 = 3%Z
        /\ customer_totalSpent c2 = 50
        /\ customer_lastPurchase c2 = None)
  /\ map customer_loyaltyPoints (customers (snd first)) = [13%Z]
  /\ map customer_loyaltyPoints (customers (snd second)) = [3%Z].
Proof.
  split; [|split].
  - apply (loyalty_add_then_redeem 1700%Z 1800%Z cashier cashier customer_c
             customer_c 10%Z shop (mkCustomer customer_c "Dana" 50 3%Z None None)).
    + reflexivity.
    + reflexivity.
    + cbn. lia.
    + reflexivity.
    + reflexivity.
  - vm_compute. reflexivity.
  - vm_compute. reflexivity.
Defined.

(** ** Quotations: send *)

Lemma on_rows_unchanged_quotations f d :
  f (quotations d) = quotations d -> on_quotations f d = d.
Proof. destruct d; cbn. intros ->. reflexivity. Qed.

(** X14. POST /api/quotations/:id/send does not check that the quotation
    exists or which status it has: for a path id that is a well-formed uuid
    it answers 200, a quotation with that id ends in status 'sent' whatever
    it was before (a converted one included), and with no such quotation the
    store is unchanged.  A path id that is not a uuid is answered 500 and
    nothing is written. *)
Theorem quotation_send_unchecked now u id b d :
  let out := QuotationRoutes.send now (Some u) id b d in
  (forall key,
     Column.uuid id = Some key ->
     answer_status (fst out) = 200%nat
     /\ Forall2
          (fun q q' =>
             if String.eqb (quotation_id q) key
             then quotation_status q' = "sent"
                  /\ quotation_id q' = quotation_id q
                  /\ quotation_customerId q' = quotation_customerId q
                  /\ quotation_discount q' = quotation_discount q
                  /\ quotation_tax q' = quotation_tax q
             else q' = q)
          (quotations d) (quotations (snd out))
     /\ same_but_quotations d (snd out)
     /\ (find_quotation key d = None -> snd out = d))
  /\ (Column.uuid id = None ->
      out = (mkAnswer 500 (PError "Failed to send quotation"), d)).
Proof.
  cbn zeta. unfold QuotationRoutes.send, Middleware.requireAuth. split.
  - intros key ->. run_steps. split; [reflexivity|]. split; [|split].
    + read_store. apply Forall2_map_self. intros q.
      destruct (String.eqb (quotation_id q) key); repeat split.
    + destruct d; repeat split.
    + intros Hnone. apply on_rows_unchanged_quotations.
      apply find_none_update, Hnone.
  - intros ->. reflexivity.
Qed.

Lemma quotation_send_unchecked_witness :
  let out :=
    QuotationRoutes.send 1800%Z (Some cashier) quote_e
      (QuotationRoutes.mkSendBody (Some "email") None) shop in
  (answer_status (fst out) = 200%nat
   /\ Forall2
        (fun q q' =>
           if String.eqb (quotation_id q) quote_e
           then quotation_status q' = "sent"
                /\ quotation_id q' = quotation_id q
                /\ quotation_customerId q' = quotation_customerId q
                /\ quotation_discount q' = quotation_discount q
                /\ quotation_tax q' = quotation_tax q
           else q' = q)
        (quotations shop) (quotations (snd out))
   /\ same_but_quotations shop (snd out)
   /\ (find_quotation quote_e shop = None -> snd out = shop))
  /\ map quotation_status (quotations shop) = ["converted"]
  /\ fst out = mkAnswer 200 (PMessage "Quotation sent via email to undefined")
  /\ map quotation_status (quotations (snd out)) = ["sent"]
  /\ QuotationRoutes.send 1800%Z (Some cashier) "q-1"
       (QuotationRoutes.mkSendBody (Some "email") None) shop
     = (mkAnswer 500 (PError "Failed to send quotation"), shop).
Proof.
  split; [|split; [|split; [|split]]].
  - apply (proj1 (quotation_send_unchecked 1800%Z cashier quote_e
                    (QuotationRoutes.mkSendBody (Some "email") None) shop)
             quote_e).
    reflexivity.
  - reflexivity.
  - vm_compute. reflexivity.
  - vm_compute. reflexivity.
  - apply (proj2 (quotation_send_unchecked 1800%Z cashier "q-1"
                    (QuotationRoutes.mkSendBody (Some "email") None) shop)).
    reflexivity.
Defined.

(** ** Quotations: create and convert *)

Lemma leftJoin_unique_product ps qi :
  NoDup (map product_id ps) ->
  Quotations.leftJoin_products ps qi
  = [(qi, find (fun p => String.eqb (qi_productId qi) (product_id p)) ps)].
Proof.
  intros Hnd. unfold Quotations.leftJoin_products.
  rewrite (select_unique_product ps (qi_productId qi) Hnd).
  destruct (find _ ps); reflexivity.
Qed.

Lemma joined_items_other_quote ps id qis :
  Forall (fun qi => qi_quoteId qi <> id) qis ->
  select_where (fun row : QuoteItem * option Product =>
                  String.eqb (qi_quoteId (fst row)) id)
    (flat_map (Quotations.leftJoin_products ps) qis)
  = [].
Proof.
  unfold select_where. induction 1 as [|qi qis Hqi _ IH]; [reflexivity|].
  cbn [flat_map]. rewrite filter_app, IH, app_nil_r.
  unfold Quotations.leftJoin_products.
  destruct (select_where _ ps) as [|p l].
  - cbn. destruct (String.eqb_spec (qi_quoteId qi) id); [contradiction | reflexivity].
  - induction (p :: l) as [|x xs IHx]; [reflexivity|].
    cbn. destruct (String.eqb_spec (qi_quoteId qi) id); [contradiction | exact IHx].
Qed.

Lemma joined_quote_items ps id rows :
  NoDup (map product_id ps) ->
  Forall (fun row => qi_quoteId row = id) rows ->
  select_where (fun row : QuoteItem * option Product =>
                  String.eqb (qi_quoteId (fst row)) id)
    (flat_map (Quotations.leftJoin_products ps) rows)
  = map (fun row =>
           (row, find (fun p => String.eqb (qi_productId row) (product_id p)) ps))
      rows.
Proof.
  intros Hnd. unfold select_where.
  induction 1 as [|row rows Hrow _ IH]; [reflexivity|].
  cbn [map flat_map]. rewrite filter_app, IH.
  rewrite (leftJoin_unique_product ps _ Hnd). cbn.
  rewrite Hrow, String.eqb_refl. reflexivity.
Qed.

Lemma Forall2_map_right {A B C : Type} (P : A -> C -> Prop) (g : B -> C)
    (l : list A) (l' : list B) :
  Forall2 (fun a b => P a (g b)) l l' -> Forall2 P l (map g l').
Proof. induction 1; cbn; constructor; assumption. Qed.

Lemma reference_uuid {R : Type} (key : R -> Id) (table : list R) (id : string) (k : Id) :
  reference key table id = Some k -> Column.uuid id = Some k.
Proof.
  unfold reference. destruct (Column.uuid id) as [k'|]; [|discriminate].
  destruct (existsb _ table); [|discriminate]. intros [= ->]. reflexivity.
Qed.

(** The item loop of a quotation, when it runs to its end. *)
Lemma insert_items_done qid items d :
  fst (QuotationRoutes.insert_items qid items d) = true ->
  exists rows,
    snd (QuotationRoutes.insert_items qid items d)
    = QuotationRoutes.on_quoteItems (fun t => t ++ rows) d
    /\ Forall2
         (fun item row =>
            row = QuotationRoutes.new_quote_item qid (qi_productId row) item
            /\ Column.uuid (QuotationRoutes.in_productId item)
               = Some (qi_productId row))
         items rows.
Proof.
  revert d. induction items as [|item items IH]; intros d.
  - intros _. exists []. split; [|constructor].
    destruct d; cbn. rewrite app_nil_r. reflexivity.
  - cbn [QuotationRoutes.insert_items]. rewrite run_bind.
    unfold query. cbn [fst snd].
    destruct (reference product_id (products d) (QuotationRoutes.in_productId item))
      as [k|] eqn:Hk; [|discriminate].
    rewrite run_bind. unfold exec. cbn [fst snd].
    intros Hdone. destruct (IH _ Hdone) as (rows & Hsnd & Hrows).
    exists (QuotationRoutes.new_quote_item qid k item :: rows). split.
    + rewrite Hsnd. destruct d; cbn. rewrite <- app_assoc. reflexivity.
    + constructor; [|exact Hrows].
      split; [reflexivity|]. cbn. apply (reference_uuid _ _ _ _ Hk).
Qed.

Lemma post_quotation_outcome now uuid u b item rest d :
  QuotationRoutes.body_items b = Some (item :: rest) ->
  QuotationRoutes.post now uuid (Some u) b d
  = match QuotationRoutes.customer_reference b d with
    | Some customerId =>
        let row := QuotationRoutes.new_quotation_row now uuid customerId b in
        let r :=
          QuotationRoutes.insert_items uuid (item :: rest)
            (on_quotations (fun t => t ++ [row]) d) in
        (if fst r then mkAnswer 201 (PData row) else QuotationRoutes.failed, snd r)
    | None => (QuotationRoutes.failed, d)
    end.
Proof.
  intros Hitems. unfold QuotationRoutes.post, Middleware.requireAuth.
  rewrite Hitems. rewrite run_bind. unfold query. cbn [fst snd].
  destruct (QuotationRoutes.customer_reference b d) as [cust|]; [|reflexivity].
  rewrite run_bind. unfold exec. cbn [fst snd]. rewrite run_bind.
  cbn zeta. change (quotation_id (QuotationRoutes.new_quotation_row now uuid cust b))
    with uuid.
  destruct (fst (QuotationRoutes.insert_items uuid (item :: rest) _)); reflexivity.
Qed.

(** X15. A quotation comes back out as it went in: when a quotation request
    is answered 201 under a fresh id, converting that quotation answers 200
    with a payload that carries the request's customer, its discount and tax
    as the quotation row holds them (rounded to two decimals from their
    decimal texts, 0 when absent) and, in the order in which the database
    returns them, one line per request item with the item's product and
    quantity, its unit price rounded the same way and the cost price the
    store holds for that product, the product ids being unique. *)
Theorem quotation_create_then_convert now1 now2 uuid u1 u2 b items cb d :
  QuotationRoutes.body_items b = Some items ->
  items <> [] ->
  find_quotation uuid d = None ->
  Forall (fun qi => qi_quoteId qi <> uuid) (quoteItems d) ->
  NoDup (map product_id (products d)) ->
  let created := QuotationRoutes.post now1 uuid (Some u1) b d in
  let converted := Quotations.convert_to_sale now2 (Some u2) uuid cb (snd created) in
  answer_status (fst created) = 201%nat ->
  exists payload lines,
    fst converted
    = mkResponse 200
        (JConverted "Quotation converted to sale successfully" payload)
    /\ match sd_customerId payload with
       | Some k =>
           exists c,
             or_null (QuotationRoutes.body_customerId b) = Some c
             /\ Column.uuid c = Some k
       | None => or_null (QuotationRoutes.body_customerId b) = None
       end
    /\ sd_discount payload
       = Column.of_Number
           (match QuotationRoutes.body_discount b with
            | Some x => x
            | None => 0%float
            end)
    /\ sd_tax payload
       = Column.of_Number
           (match QuotationRoutes.body_tax b with Some x => x | None => 0%float end)
    /\ sd_payments payload = Quotations.body_payments cb
    /\ sd_notes payload
       = or_else (Quotations.body_notes cb)
           ("Converted from Quotation: " ++ "QUO-" ++ string_of_Z (now1 0%nat))
    /\ Permutation lines (sd_items payload)
    /\ Forall2
         (fun item line =>
            Column.uuid (QuotationRoutes.in_productId item) = Some (sd_productId line)
            /\ sd_quantity line = QuotationRoutes.in_quantity item
            /\ sd_unitPrice line
               = Column.of_Number (QuotationRoutes.in_unitPrice item)
            /\ sd_costPrice line = cost_of (products d) (sd_productId line))
         items lines.
Proof.
  intros Hitems Hne Hfresh Hother Hnd created converted. subst converted created.
  destruct items as [|item rest]; [congruence|].
  rewrite (post_quotation_outcome _ _ _ _ _ _ _ Hitems).
  destruct (QuotationRoutes.customer_reference b d) as [cust|] eqn:Hcust;
    [|unfold QuotationRoutes.failed; cbn [fst answer_status]; discriminate].
  cbn zeta.
  set (row := QuotationRoutes.new_quotation_row now1 uuid cust b).
  set (d0 := on_quotations (fun t => t ++ [row]) d).
  destruct (fst (QuotationRoutes.insert_items uuid (item :: rest) d0)) eqn:Hdone;
    [|unfold QuotationRoutes.failed; cbn [fst answer_status]; discriminate].
  intros _. cbn [fst snd].
  destruct (insert_items_done uuid (item :: rest) d0 Hdone) as (rows & -> & Hrows).
  set (d1 := QuotationRoutes.on_quoteItems _ d0).
  assert (Hq : quotations d1 = quotations d ++ [row]) by (destruct d; reflexivity).
  assert (Hqi : quoteItems d1 = quoteItems d ++ rows) by (destruct d; reflexivity).
  assert (Hp : products d1 = products d) by (destruct d; reflexivity).
  assert (Hfind : find_quotation uuid d1 = Some row).
  { unfold find_quotation. rewrite Hq. apply find_app_fresh; [exact Hfresh|].
    cbn. apply String.eqb_refl. }
  rewrite (convert_quotation_found _ _ _ _ _ _ Hfind). cbn [fst].
  assert (Hmine : Forall (fun r => qi_quoteId r = uuid) rows).
  { clear - Hrows. induction Hrows as [|i r items rows [Hr _] _ IH]; constructor;
      [rewrite Hr; reflexivity | exact IH]. }
  assert (Hsel :
    Quotations.select_items uuid d1
    = map (fun r =>
             (r, find (fun p => String.eqb (qi_productId r) (product_id p))
                   (products d)))
        rows).
  { unfold Quotations.select_items. rewrite Hqi, Hp, flat_map_app.
    unfold select_where at 1. rewrite filter_app.
    fold (select_where (fun row0 : QuoteItem * option Product =>
                          String.eqb (qi_quoteId (fst row0)) uuid)
            (flat_map (Quotations.leftJoin_products (products d)) (quoteItems d))).
    rewrite (joined_items_other_quote _ _ _ Hother). cbn [app].
    apply (joined_quote_items _ _ _ Hnd Hmine). }
  eexists. eexists. split; [reflexivity|].
  unfold Quotations.sale_data.
  cbn [sd_customerId sd_discount sd_tax sd_payments sd_notes sd_items row
       QuotationRoutes.new_quotation_row quotation_customerId quotation_discount
       quotation_tax quotation_quoteNumber].
  split.
  { unfold QuotationRoutes.customer_reference in Hcust.
    destruct (or_null (QuotationRoutes.body_customerId b)) as [c|].
    - destruct (reference customer_id (customers d) c) as [k|] eqn:Hk;
        [|discriminate].
      injection Hcust as <-. exists c. split; [reflexivity|].
      apply (reference_uuid _ _ _ _ Hk).
    - injection Hcust as <-. reflexivity. }
  split; [reflexivity|]. split; [reflexivity|]. split; [reflexivity|].
  split; [reflexivity|]. split; [apply Permutation_refl|].
  rewrite Hsel, map_map. apply Forall2_map_right.
  eapply Forall2_impl; [|exact Hrows].
  intros i r [Hr Hu]. cbn [Quotations.to_sale_item fst snd sd_productId
    sd_quantity sd_unitPrice sd_costPrice].
  split; [exact Hu|]. rewrite Hr at 1 2. cbn [QuotationRoutes.new_quote_item
    qi_quantity qi_unitPrice].
  split; [reflexivity|]. split; [reflexivity|].
  unfold cost_of. destruct (find _ (products d)); reflexivity.
Qed.

Lemma quotation_create_then_convert_witness :
  let created :=
    QuotationRoutes.post (ticking 1700) quote_9 (Some cashier) quote_request shop in
  let converted :=
    Quotations.convert_to_sale 1800%Z (Some cashier) quote_9
      (Quotations.mkConvertBody None None) (snd created) in
  (exists payload lines,
     fst converted
     = mkResponse 200
         (JConverted "Quotation converted to sale successfully" payload)
     /\ match sd_customerId payload with
        | Some k =>
            exists c,
              or_null (QuotationRoutes.body_customerId quote_request) = Some c
              /\ Column.uuid c = Some k
        | None => or_null (QuotationRoutes.body_customerId quote_request) = None
        end
     /\ sd_discount payload = Column.of_Number 10
     /\ sd_tax payload = Column.of_Number 0
     /\ sd_payments payload = None
     /\ sd_notes payload
        = or_else None
            ("Converted from Quotation: " ++ "QUO-" ++ string_of_Z (ticking 1700 0%nat))
     /\ Permutation lines (sd_items payload)
     /\ Forall2
          (fun item line =>
             Column.uuid (QuotationRoutes.in_productId item) = Some (sd_productId line)
             /\ sd_quantity line = QuotationRoutes.in_quantity item
             /\ sd_unitPrice line
                = Column.of_Number (QuotationRoutes.in_unitPrice item)
             /\ sd_costPrice line = cost_of (products shop) (sd_productId line))
          quote_items lines)
  /\ json (fst converted)
     = JConverted "Quotation converted to sale successfully"
         (mkSaleData (Some customer_c)
            [mkSaleDataItem product_a None 2%Z 150 100]
            10 0 None "Converted from Quotation: QUO-1700").
Proof.
  split.
  - apply (quotation_create_then_convert (ticking 1700) 1800%Z quote_9 cashier cashier
             quote_request quote_items (Quotations.mkConvertBody None None) shop).
    + reflexivity.
    + discriminate.
    + reflexivity.
    + repeat constructor. discriminate.
    + cbn. constructor; [intros [] | constructor].
    + vm_compute. reflexivity.
  - vm_compute. reflexivity.
Defined.

(** ** Sale detail after creation *)








(** ** Accounts: registration, deactivation and login *)

(** X17. Registration and login fit together: once an admin has registered
    an email that was not in use, with a non-empty password and name, logging
    in with that email and password answers 200 with the new user (without
    the password), given that the password checks against its own hash.
    Registering an email already in use answers 400 and writes nothing. *)
Theorem register_then_login :
  (forall hash compare uuid a email password name role d,
     includes ["admin"] (user_role a) = true ->
     email <> "" -> password <> "" -> name <> "" ->
     find_user email d = None ->
     compare password (hash password) = true ->
     let b := Accounts.mkRegisterBody (Some email) (Some password) (Some name) role in
     let created := Accounts.register hash uuid (Some a) b d in
     exists user1,
       fst created = mkResponse 201 (JUser (userWithoutPassword user1))
       /\ user_email user1 = email /\ user_id user1 = uuid
       /\ users (snd created) = users d ++ [user1]
       /\ Auth.login compare email password (snd created)
          = (mkResponse 200 (JUser (userWithoutPassword user1)), snd created))
  /\ (forall hash uuid a email password name role d user0,
        includes ["admin"] (user_role a) = true ->
        email <> "" -> password <> "" -> name <> "" ->
        find_user email d = Some user0 ->
        Accounts.register hash uuid (Some a)
          (Accounts.mkRegisterBody (Some email) (Some password) (Some name) role) d
        = (mkResponse 400 (JError "User already exists"), d)).
Proof.
  assert (Htruthy : forall s, s <> "" -> truthy (Some s) = true).
  { intros s Hs. destruct s; [congruence | reflexivity]. }
  split.
  - intros hash compare uuid a email password name role d Hadmin He Hp Hn Hnone Hcmp
      b created. subst created b.
    set (user1 := Accounts.new_user_row hash uuid email password name role).
    assert (Hreg :
      Accounts.register hash uuid (Some a)
        (Accounts.mkRegisterBody (Some email) (Some password) (Some name) role) d
      = (mkResponse 201 (JUser (userWithoutPassword user1)),
         Accounts.on_users (fun t => t ++ [user1]) d)).
    { unfold Accounts.register, requireAuth, requireRole. rewrite Hadmin.
      cbn [Accounts.body_email Accounts.body_password Accounts.body_name
           Accounts.body_role].
      rewrite (Htruthy _ He), (Htruthy _ Hp), (Htruthy _ Hn). cbn [negb orb].
      unfold find_user in Hnone. unfold bind, query.
      rewrite limit1_select_find, Hnone. reflexivity. }
    rewrite Hreg. cbn [fst snd]. exists user1.
    split; [reflexivity|]. split; [reflexivity|]. split; [reflexivity|].
    split; [apply users_on_users|].
    assert (Hfind : find_user email (Accounts.on_users (fun t => t ++ [user1]) d)
                    = Some user1).
    { unfold find_user. rewrite users_on_users.
      apply find_app_fresh; [exact Hnone|]. cbn. apply String.eqb_refl. }
    rewrite (login_found _ _ _ _ _ Hfind).
    cbn [user1 Accounts.new_user_row user_password]. rewrite Hcmp. reflexivity.
  - intros hash uuid a email password name role d user0 Hadmin He Hp Hn Hfind.
    unfold Accounts.register, requireAuth, requireRole. rewrite Hadmin.
    cbn [Accounts.body_email Accounts.body_password Accounts.body_name
         Accounts.body_role].
    rewrite (Htruthy _ He), (Htruthy _ Hp), (Htruthy _ Hn). cbn [negb orb].
    unfold find_user in Hfind. unfold bind, query.
    rewrite limit1_select_find, Hfind. reflexivity.
Qed.

Lemma register_then_login_witness :
  let b :=
    Accounts.mkRegisterBody (Some "new@shop.test") (Some "secret") (Some "Newcomer")
      None in
  let created := Accounts.register (fun s => s) "u-7" (Some admin) b login_store in
  exists user1,
    fst created = mkResponse 201 (JUser (userWithoutPassword user1))
    /\ user_email user1 = "new@shop.test" /\ user_id user1 = "u-7"
    /\ users (snd created) = users login_store ++ [user1]
    /\ Auth.login String.eqb "new@shop.test" "secret" (snd created)
       = (mkResponse 200 (JUser (userWithoutPassword user1)), snd created).
Proof.
  apply (proj1 register_then_login (fun s => s) String.eqb "u-7" admin
           "new@shop.test" "secret" "Newcomer" None login_store).
  - reflexivity.
  - discriminate.
  - discriminate.
  - discriminate.
  - reflexivity.
  - reflexivity.
Defined.

Lemma find_user_after_update b id email d user0 :
  find_user email d = Some user0 ->
  find_user email
    (Accounts.on_users
       (update_where (fun u => String.eqb (user_id u) id) (Accounts.apply_update b)) d)
  = Some (if String.eqb (user_id user0) id
          then Accounts.apply_update b user0 else user0).
Proof.
  unfold find_user. rewrite users_on_users. unfold update_where.
  induction (users d) as [|x t IH]; cbn [find map]; [discriminate|].
  destruct (String.eqb (user_email x) email) eqn:E.
  - intros [= ->].
    destruct (String.eqb (user_id user0) id); cbn [Accounts.apply_update user_email];
      rewrite E; reflexivity.
  - intros H.
    destruct (String.eqb (user_id x) id); cbn [Accounts.apply_update user_email];
      rewrite E; apply IH, H.
Qed.

(** X18. Deactivating an account locks it out and reactivating it lets it
    back in: after an admin's PUT /api/auth/users/:id with isActive = false,
    the login of that user with the right password answers 401 "Account is
    deactivated"; after isActive = true it answers 200 again. *)
Theorem deactivate_then_login compare a id b email password d user0 :
  includes ["admin"] (user_role a) = true ->
  find_user email d = Some user0 ->
  user_id user0 = id ->
  compare password (user_password user0) = true ->
  let d1 := snd (Accounts.put_user (Some a) id b d) in
  (Accounts.upd_isActive b = Some false ->
   Auth.login compare email password d1
   = (mkResponse 401 (JError "Account is deactivated"), d1))
  /\ (Accounts.upd_isActive b = Some true ->
      exists user1,
        Auth.login compare email password d1
        = (mkResponse 200 (JUser (userWithoutPassword user1)), d1)
        /\ user_id user1 = id /\ user_email user1 = email).
Proof.
  intros Hadmin Hfind Hid Hcmp d1.
  assert (Hd1 : d1 = Accounts.on_users
                       (update_where (fun u => String.eqb (user_id u) id)
                          (Accounts.apply_update b)) d).
  { subst d1. unfold Accounts.put_user, requireAuth, requireRole. rewrite Hadmin.
    rewrite run_bind. unfold exec at 1. cbn [fst snd].
    rewrite run_bind. unfold query at 1. cbn [fst snd].
    destruct (select_where _ _); reflexivity. }
  clearbody d1. subst d1.
  pose proof (find_user_after_update b id email d user0 Hfind) as Hfind1.
  rewrite Hid, String.eqb_refl in Hfind1.
  assert (Hemail : user_email user0 = email).
  { unfold find_user in Hfind. apply find_some in Hfind. destruct Hfind as [_ H].
    apply String.eqb_eq, H. }
  split.
  - intros Hoff. rewrite (login_found _ _ _ _ _ Hfind1).
    cbn [Accounts.apply_update user_password]. rewrite Hcmp.
    unfold Auth.is_active. cbn [Accounts.apply_update user_isActive].
    rewrite Hoff. reflexivity.
  - intros Hon. exists (Accounts.apply_update b user0).
    rewrite (login_found _ _ _ _ _ Hfind1).
    cbn [Accounts.apply_update user_password]. rewrite Hcmp.
    unfold Auth.is_active. cbn [Accounts.apply_update user_isActive].
    rewrite Hon. repeat split; assumption.
Qed.

Lemma deactivate_then_login_witness :
  let d1 :=
    snd (Accounts.put_user (Some admin) "u-1"
           (Accounts.mkUserUpdate None None (Some false)) login_store) in
  (Some false = Some false ->
   Auth.login String.eqb "clerk@shop.test" "hash-1" d1
   = (mkResponse 401 (JError "Account is deactivated"), d1))
  /\ (Some false = Some true ->
      exists user1,
        Auth.login String.eqb "clerk@shop.test" "hash-1" d1
        = (mkResponse 200 (JUser (userWithoutPassword user1)), d1)
        /\ user_id user1 = "u-1" /\ user_email user1 = "clerk@shop.test").
Proof.
  apply (deactivate_then_login String.eqb admin "u-1"
           (Accounts.mkUserUpdate None None (Some false)) "clerk@shop.test" "hash-1"
           login_store clerk).
  - reflexivity.
  - reflexivity.
  - reflexivity.
  - reflexivity.
Defined.

(** ** PC builds: create, convert, delete *)








Example build_request_outcome :
  let created :=
    PcBuildRoutes.post 1700%Z "b-7" (Some clerk) build_request serial_store in
  match answer_json (fst created) with
  | PData (row, total) => Qred total = 300 /\ build_customerId row = Some "c-1"
  | _ => False
  end.
Proof. vm_compute. split; reflexivity. Qed.

(** X20. A deleted PC build is gone for conversion: for a path id that is a
    well-formed uuid, whatever DELETE /api/pc-builder/:id answered (200 when
    the build existed, 404 when not), a following convert-to-sale on that id
    answers 404, and the other builds and all other tables are as they were
    before the deletion. *)
Theorem pc_build_delete_then_convert now u1 u2 id cb d :
  Column.uuid id = Some id ->
  let deleted := PcBuildRoutes.delete (Some u1) id d in
  let converted := PcBuilder.convert_to_sale now (Some u2) id cb (snd deleted) in
  (answer_status (fst deleted)
   = match find_build id d with Some _ => 200%nat | None => 404%nat end)
  /\ converted = (mkResponse 404 (JError "PC build not found"), snd deleted)
  /\ pcBuilds (snd deleted)
     = filter (fun p => negb (String.eqb (build_id p) id)) (pcBuilds d)
  /\ same_but_pcBuilds d (snd deleted).
Proof.
  intros Hid. cbn zeta.
  assert (Hdel :
    PcBuildRoutes.delete (Some u1) id d
    = (match find_build id d with
       | Some _ => mkAnswer 200 (PMessage "PC build deleted successfully")
       | None => mkAnswer 404 (PError "PC build not found")
       end,
       on_pcBuilds (delete_where (fun p => String.eqb (build_id p) id)) d)).
  { unfold PcBuildRoutes.delete, Middleware.requireAuth. rewrite Hid.
    rewrite run_bind. unfold query at 1. cbn [fst snd].
    rewrite run_bind. unfold exec at 1. cbn [fst snd].
    unfold find_build, select_where.
    induction (pcBuilds d) as [|p t IH]; cbn [filter find]; [reflexivity|].
    destruct (String.eqb (build_id p) id); [reflexivity | exact IH]. }
  rewrite Hdel. cbn [fst snd]. split; [destruct (find_build id d); reflexivity|].
  split; [|split].
  - unfold PcBuilder.convert_to_sale, requireAuth, bind, query.
    rewrite limit1_select_find. read_store. rewrite find_delete_where. reflexivity.
  - apply pcBuilds_on_pcBuilds.
  - destruct d; repeat split.
Qed.

Lemma pc_build_delete_then_convert_witness :
  let deleted := PcBuildRoutes.delete (Some cashier) build_b shop in
  let converted :=
    PcBuilder.convert_to_sale 1800%Z (Some cashier) build_b
      (PcBuilder.mkConvertBody None None None None) (snd deleted) in
  ((answer_status (fst deleted)
    = match find_build build_b shop with Some _ => 200%nat | None => 404%nat end)
   /\ converted = (mkResponse 404 (JError "PC build not found"), snd deleted)
   /\ pcBuilds (snd deleted)
      = filter (fun p => negb (String.eqb (build_id p) build_b)) (pcBuilds shop)
   /\ same_but_pcBuilds shop (snd deleted))
  /\ answer_status (fst deleted) = 200%nat
  /\ pcBuilds (snd deleted) = []
  /\ status
       (fst (PcBuilder.convert_to_sale 1800%Z (Some cashier) build_b
               (PcBuilder.mkConvertBody None None None None) shop))
     = 200%nat.
Proof.
  split; [|split; [|split]].
  - apply (pc_build_delete_then_convert 1800%Z cashier cashier build_b
             (PcBuilder.mkConvertBody None None None None) shop).
    reflexivity.
  - reflexivity.
  - reflexivity.
  - reflexivity.
Defined.

(** ** Stock across a purchase and a sale *)


